(** * Audio-visual speech enhancement: the orchestration script

    A shallow embedding of [speech_enhancer.py]: the dataset indexer
    ([list_speakers], [list_data]), the blob aggregator
    ([load_preprocessed_samples]), the training and prediction drivers
    ([train], [predict]) and the prediction storage
    ([PredictionStorage.save_prediction]), together with the parts of the
    Python runtime they rely on (string and path functions, list slicing,
    a file system, a random source). *)

From Stdlib Require Import ZArith Lia Ascii String.
From stdpp Require Import base option list gmap strings.

Local Open Scope Z_scope.
Local Open Scope nat_scope.

(** ** Python strings and POSIX paths *)

Module PyStr.

(** [s[:n]] and [s[n:]] for a non-negative index. *)
Fixpoint str_take (n : nat) (s : string) : string :=
  match n, s with
  | S n', String c s' => String c (str_take n' s')
  | _, _ => ""
  end.

Fixpoint str_drop (n : nat) (s : string) : string :=
  match n, s with
  | S n', String _ s' => str_drop n' s'
  | _, _ => s
  end.

(** [s.rfind(c)] for a one-character needle; [None] stands for -1. *)
Fixpoint rfind (c : ascii) (s : string) : option nat :=
  match s with
  | "" => None
  | String a s' =>
      match rfind c s' with
      | Some i => Some (S i)
      | None => if Ascii.eqb a c then Some 0 else None
      end
  end.

Definition startswith (c : ascii) (s : string) : bool :=
  match s with
  | String a _ => Ascii.eqb a c
  | "" => false
  end.

Fixpoint endswith (c : ascii) (s : string) : bool :=
  match s with
  | "" => false
  | String a "" => Ascii.eqb a c
  | String _ s' => endswith c s'
  end.

(** [s.endswith(suffix)]: some tail of [s] is [suffix]. *)
Fixpoint endswith_str (suffix s : string) : bool :=
  String.eqb s suffix
  || match s with
     | "" => false
     | String _ s' => endswith_str suffix s'
     end.

(** [old in s]: [old] starts at some position of [s]. *)
Fixpoint contains (old s : string) : bool :=
  String.prefix old s
  || match s with
     | "" => false
     | String _ s' => contains old s'
     end.

(** [c in s]. *)
Fixpoint has_char (c : ascii) (s : string) : bool :=
  match s with
  | "" => false
  | String a s' => Ascii.eqb a c || has_char c s'
  end.

(** [all(ch == c for ch in s)]. *)
Fixpoint all_char (c : ascii) (s : string) : bool :=
  match s with
  | "" => true
  | String a s' => Ascii.eqb a c && all_char c s'
  end.

(** [str.replace(old, new)]: the occurrences of [old] are found scanning
    from the left and do not overlap.  [skip] counts the characters of
    the occurrence just replaced that are still to be passed over. *)
Fixpoint replace_go (old new : string) (skip : nat) (s : string) : string :=
  match s with
  | "" => ""
  | String c s' =>
      match skip with
      | S k => replace_go old new k s'
      | 0 =>
          if String.prefix old s
          then new +:+ replace_go old new (String.length old - 1) s'
          else String c (replace_go old new 0 s')
      end
  end.

(** With an empty [old], Python inserts [new] before every character and
    at the end. *)
Fixpoint intersperse_all (new s : string) : string :=
  match s with
  | "" => new
  | String c s' => new +:+ String c (intersperse_all new s')
  end.

Definition replace (old new s : string) : string :=
  match old with
  | "" => intersperse_all new s
  | _ => replace_go old new 0 s
  end.

(** [os.path.join(a, b)] of [posixpath]. *)
Definition path_join (a b : string) : string :=
  if startswith "/" b then b
  else if String.eqb a "" || endswith "/" a then a +:+ b
  else a +:+ "/" +:+ b.

(** [os.path.basename(p)]: [p[p.rfind('/') + 1:]]. *)
Definition basename (p : string) : string :=
  match rfind "/" p with
  | Some i => str_drop (S i) p
  | None => p
  end.

(** [os.path.splitext(p)] ([genericpath._splitext]): split at the last dot
    when it lies after the last separator and some character of the file
    name before it is not a dot. *)
Definition splitext (p : string) : string * string :=
  match rfind "." p with
  | None => (p, "")
  | Some dotIndex =>
      let filenameIndex :=
        match rfind "/" p with Some sepIndex => S sepIndex | None => 0 end in
      if decide (filenameIndex ≤ dotIndex) then
        if all_char "." (str_take (dotIndex - filenameIndex) (str_drop filenameIndex p))
        then (p, "")
        else (str_take dotIndex p, str_drop dotIndex p)
      else (p, "")
  end.

(** The components of a path: [p.split('/')] ... *)
Fixpoint split_slash (s : string) : list string :=
  match s with
  | "" => [""]
  | String c s' =>
      if Ascii.eqb c "/" then "" :: split_slash s'
      else match split_slash s' with
           | h :: t => String c h :: t
           | [] => [String c ""]
           end
  end.

(** ... without the empty ones, which is how the kernel resolves a path
    (repeated and trailing separators are ignored). *)
Definition components (p : string) : list string :=
  filter (λ c, c ≠ "") (split_slash p).

End PyStr.

(** ** Exceptions and results *)

(** The exceptions the script can meet; all of them are instances of
    Python's [Exception], which is what the [except Exception] clause of
    [predict] catches.  ([KeyboardInterrupt] and [SystemExit] are not, and
    are outside the model.) *)
Inductive exn :=
| FileExistsError (path : string)
| FileNotFoundError (path : string)
| NotADirectoryError (path : string)
| IsADirectoryError (path : string)
| SameFileError (src dst : string)
| KeyError (key : string)
| IndexError (index : nat)
| ValueError (msg : string)
| UnpicklingError (path : string)
| CollaboratorError (msg : string).

Inductive result (A : Type) :=
| Return (a : A)
| Raise (e : exn).
Arguments Return {A} a.
Arguments Raise {A} e.

Definition result_bind {A B} (r : result A) (k : A → result B) : result B :=
  match r with
  | Return a => k a
  | Raise e => Raise e
  end.

Definition returned {A} (r : result A) : bool :=
  match r with Return _ => true | Raise _ => false end.

(** ** Python lists and arrays *)

Module PyList.

(** [l[:k]]: [None] keeps everything, a negative bound counts from the
    end. *)
Definition slice_to {A} (k : option Z) (l : list A) : list A :=
  match k with
  | None => l
  | Some z =>
      if (0 <=? z)%Z then take (Z.to_nat z) l
      else take (length l - Z.to_nat (- z)) l
  end.

(** [l.remove(x)]: drops the first occurrence, [ValueError] when there is
    none. *)
Fixpoint remove (x : string) (l : list string) : result (list string) :=
  match l with
  | [] => Raise (ValueError "list.remove(x): x not in list")
  | y :: l' =>
      if decide (y = x) then Return l'
      else result_bind (remove x l') (λ r, Return (y :: r))
  end.

(** [for x in xs: l.remove(x)]. *)
Fixpoint remove_each (xs : list string) (l : list string) : result (list string) :=
  match xs with
  | [] => Return l
  | x :: xs' => result_bind (remove x l) (remove_each xs')
  end.

(** [zip(a, b, c)]. *)
Fixpoint zip3 {A B C} (a : list A) (b : list B) (c : list C) : list (A * B * C) :=
  match a, b, c with
  | x :: a', y :: b', z :: c' => (x, y, z) :: zip3 a' b' c'
  | _, _, _ => []
  end.

(** [np.concatenate(arrays, axis=0)] on arrays seen as lists of rows; the
    rows of one kind share their shape (it is their type).  NumPy refuses
    an empty sequence of arrays. *)
Definition np_concatenate {Row} (arrays : list (list Row)) : result (list Row) :=
  match arrays with
  | [] => Raise (ValueError "need at least one array to concatenate")
  | _ => Return (concat arrays)
  end.

(** [a[index]] with an integer index array: row [index[i]] of [a] at
    position [i], [IndexError] for an index out of bounds. *)
Fixpoint np_take {Row} (a : list Row) (index : list nat) : result (list Row) :=
  match index with
  | [] => Return []
  | i :: index' =>
      match a !! i with
      | Some r => result_bind (np_take a index') (λ rs, Return (r :: rs))
      | None => Raise (IndexError i)
      end
  end.

End PyList.

(** ** The random source *)

(** The generator state is a tape of draws; an exhausted tape yields 0. *)
Module Rng.

Definition state := list nat.

Definition draw (g : state) : nat * state :=
  match g with
  | [] => (0, [])
  | d :: g' => (d, g')
  end.

(** A selection shuffle: each step draws the position of the next element
    among those that remain.  [n] bounds the number of steps. *)
Fixpoint shuffle_go {A} (n : nat) (l : list A) (g : state) : list A * state :=
  match n, l with
  | S n', x0 :: _ =>
      let '(d, g1) := draw g in
      let i := d mod length l in
      let '(rest, g2) := shuffle_go n' (delete i l) g1 in
      (nth i l x0 :: rest, g2)
  | _, _ => ([], g)
  end.

(** [random.shuffle(l)], returning the shuffled list. *)
Definition shuffle {A} (l : list A) (g : state) : list A * state :=
  shuffle_go (length l) l g.

(** [np.random.permutation(n)]. *)
Definition permutation (n : nat) (g : state) : list nat * state :=
  shuffle (seq 0 n) g.

End Rng.

(** ** The file system *)

(** A file system maps resolved paths (lists of components; the working
    directory is the root) to nodes.  The root itself always exists and is
    not stored.  Symbolic links and the components [.] and [..] are not
    interpreted. *)
Module Fs.

Inductive node (C : Type) :=
| Dir
| File (c : C).
Arguments Dir {C}.
Arguments File {C} c.

Section ops.
Context {C : Type}.

Definition lookup (fs : gmap (list string) (node C)) (k : list string)
  : option (node C) :=
  if decide (k = []) then Some Dir else fs !! k.

Definition parent (k : list string) : list string := removelast k.

(** [os.path.exists(p)]. *)
Definition exists_ (p : string) (fs : gmap (list string) (node C)) : bool :=
  if decide (p = "") then false
  else bool_decide (is_Some (lookup fs (PyStr.components p))).

(** [os.path.isdir(p)]. *)
Definition isdir (p : string) (fs : gmap (list string) (node C)) : bool :=
  if decide (p = "") then false
  else match lookup fs (PyStr.components p) with
       | Some Dir => true
       | _ => false
       end.

(** [os.mkdir(p)]. *)
Definition mkdir (p : string) (fs : gmap (list string) (node C))
  : result (gmap (list string) (node C)) :=
  let k := PyStr.components p in
  if decide (p = "") then Raise (FileNotFoundError p)
  else match lookup fs k with
       | Some _ => Raise (FileExistsError p)
       | None =>
           match lookup fs (parent k) with
           | Some Dir => Return (<[k := Dir]> fs)
           | Some (File _) => Raise (NotADirectoryError p)
           | None => Raise (FileNotFoundError p)
           end
       end.

(** [open(p, 'rb').read()]; a name in the place of whose directory there is
    a regular file is refused as [os.mkdir] and the writing [open] refuse
    it. *)
Definition read (p : string) (fs : gmap (list string) (node C)) : result C :=
  let k := PyStr.components p in
  if decide (p = "") then Raise (FileNotFoundError p)
  else match lookup fs k with
       | Some (File c) => Return c
       | Some Dir => Raise (IsADirectoryError p)
       | None =>
           match lookup fs (parent k) with
           | Some (File _) => Raise (NotADirectoryError p)
           | _ => Raise (FileNotFoundError p)
           end
       end.

(** [open(p, 'wb').write(c)]: creates or replaces the file. *)
Definition write (p : string) (c : C) (fs : gmap (list string) (node C))
  : result (gmap (list string) (node C)) :=
  let k := PyStr.components p in
  if decide (p = "") then Raise (FileNotFoundError p)
  else match lookup fs k with
       | Some Dir => Raise (IsADirectoryError p)
       | _ =>
           match lookup fs (parent k) with
           | Some Dir => Return (<[k := File c]> fs)
           | Some (File _) => Raise (NotADirectoryError p)
           | None => Raise (FileNotFoundError p)
           end
       end.

(** [shutil.copy2(src, dst)]: into [dst] when it is a directory; the
    same file on both sides is refused. *)
Definition copy2 (src dst : string) (fs : gmap (list string) (node C))
  : result (gmap (list string) (node C)) :=
  let dst := if isdir dst fs then PyStr.path_join dst (PyStr.basename src) else dst in
  if exists_ src fs && exists_ dst fs
     && bool_decide (PyStr.components src = PyStr.components dst)
  then Raise (SameFileError src dst)
  else result_bind (read src fs) (λ c, write dst c fs).

(** Every stored node has its parent directory. *)
Definition wf (fs : gmap (list string) (node C)) : Prop :=
  ∀ k n, fs !! k = Some n → k ≠ [] ∧ lookup fs (parent k) = Some Dir.

(** The same, as a test that can be run. *)
Definition is_dir (o : option (node C)) : bool :=
  match o with
  | Some Dir => true
  | _ => false
  end.

Definition wf_check (fs : gmap (list string) (node C)) : bool :=
  forallb (λ kn, match kn.1 with
                 | [] => false
                 | _ => is_dir (lookup fs (parent kn.1))
                 end)
          (map_to_list fs).

(** A directory without subdirectories: any file can be written in it. *)
Definition dir_ready (fs : gmap (list string) (node C)) (k : list string) : Prop :=
  lookup fs k = Some Dir ∧ ∀ n : string, fs !! (k ++ [n]) ≠ Some Dir.

(** A directory without entries. *)
Definition dir_empty (fs : gmap (list string) (node C)) (k : list string) : Prop :=
  lookup fs k = Some Dir ∧ ∀ n : string, fs !! (k ++ [n]) = None.

End ops.

End Fs.

(** ** External collaborators *)

(** The media processing ([data_processor], [mediaio]), the network
    ([network]) and the directory scans of [dataset] are outside the
    script.  A [Row] is one sample of an array, that is, one slice along
    its first axis; an array is the list of its rows. *)
Class Collaborators := {
  Row : Type;
  Signal : Type;
  Stats : Type;
  Net : Type;
  Loss : Type;
  Peak : Type;
  FrameRate : Type;
  (* data_processor.preprocess_sample(video, speech, noise) *)
  preprocess_sample : string → string → string →
    result (list Row * list Row * list Row * list Row * Signal * Peak * FrameRate);
  (* np.concatenate(list(data_processor.preprocess_audio_signal(
       AudioSignal.from_wav_file(path), 200, 15, 25)), axis=1) *)
  clean_speech_spectrogram : string → result (list Row);
  reconstruct_spectrograms : list Row → list Row → list Row →
    result (list Row * list Row * list Row);
  reconstruct_speech_signal : Signal → list Row → FrameRate → Peak → result Signal;
  (* data_processor.VideoNormalizer(samples) and its normalize method *)
  video_normalizer_fit : list Row → result Stats;
  video_normalizer_normalize : Stats → list Row → result (list Row);
  (* SpeechEnhancementNetwork; build only looks at the shapes of its rows *)
  network_build : list Row → list Row → result Net;
  network_train : Net → list Row → list Row → list Row →
    list Row → list Row → list Row → string → string → result Net;
  network_evaluate : Net → list Row → list Row → list Row → result Loss;
  network_predict : Net → list Row → list Row → result (list Row);
  format_loss : Loss → string;
  (* the directory scans behind AudioVisualDataset and AudioDataset *)
  dataset_speakers : string → result (list string);
  dataset_entries : string → list string → result (list (string * string));
  noise_entries : list string → result (list string)
}.

(** The command-line namespace. *)
Record Args := {
  dataset_dir : string;
  noise_dirs : list string;
  speakers : option (list string);
  ignored_speakers : option (list string);
  train_preprocessed_blob_paths : list string;
  validation_preprocessed_blob_paths : list string;
  normalization_cache : string;
  model_cache_dir : string;
  tensorboard_dir : string;
  prediction_output_dir : string
}.

(** ** The script *)

Section script.
Context `{Collaborators}.

(** What a file holds. *)
Inductive content :=
| RawFile (data : string)
| WavFile (s : Signal)
| NpyFile (a : list Row)
| NpzFile (arrays : gmap string (list Row))
| PickleFile (st : Stats).

(** The calls made to the normalizer and to the network, with the arrays
    they receive. *)
Inductive call :=
| CallFit (raw : list Row)
| CallNormalize (st : Stats) (raw : list Row)
| CallNetTrain (tm tv ts vm vv vs : list Row)
| CallNetEvaluate (m v s : list Row)
| CallNetPredict (m v : list Row).

Record world := World {
  w_fs : gmap (list string) (Fs.node content);
  w_models : gmap string Net;
  w_rng : Rng.state;
  w_clock : string;
  w_stdout : list string;
  w_log : list (string * exn);
  w_calls : list call
}.

Definition set_fs (fs : gmap (list string) (Fs.node content)) (w : world) : world :=
  World fs (w_models w) (w_rng w) (w_clock w) (w_stdout w) (w_log w) (w_calls w).
Definition set_rng (g : Rng.state) (w : world) : world :=
  World (w_fs w) (w_models w) g (w_clock w) (w_stdout w) (w_log w) (w_calls w).

(** Computations read and change the world and may raise. *)
Definition M (A : Type) : Type := world → world * result A.

#[global] Instance M_ret : MRet M := λ A a w, (w, Return a).
#[global] Instance M_bind : MBind M := λ A B k m w,
  match m w with
  | (w', Return a) => k a w'
  | (w', Raise e) => (w', Raise e)
  end.

Definition lift {A} (r : result A) : M A := λ w, (w, r).

Definition fs_op (f : gmap (list string) (Fs.node content) →
                      result (gmap (list string) (Fs.node content))) : M unit :=
  λ w, match f (w_fs w) with
       | Return fs' => (set_fs fs' w, Return tt)
       | Raise e => (w, Raise e)
       end.

Definition fs_get {A} (f : gmap (list string) (Fs.node content) → A) : M A :=
  λ w, (w, Return (f (w_fs w))).

Definition fs_read (path : string) : M content :=
  λ w, (w, Fs.read path (w_fs w)).

Definition print (line : string) : M unit := λ w,
  (World (w_fs w) (w_models w) (w_rng w) (w_clock w) (w_stdout w ++ [line])
     (w_log w) (w_calls w), Return tt).

(** [logging.exception(msg)] inside a handler. *)
Definition logging_exception (msg : string) (e : exn) : M unit := λ w,
  (World (w_fs w) (w_models w) (w_rng w) (w_clock w) (w_stdout w)
     (w_log w ++ [(msg, e)]) (w_calls w), Return tt).

Definition record (c : call) : M unit := λ w,
  (World (w_fs w) (w_models w) (w_rng w) (w_clock w) (w_stdout w)
     (w_log w) (w_calls w ++ [c]), Return tt).

(** [try: body except Exception: handler]. *)
Definition try_except {A} (body : M A) (handler : exn → M A) : M A := λ w,
  match body w with
  | (w', Raise e) => handler e w'
  | (w', Return a) => (w', Return a)
  end.

(** [for x in l: body(x)]. *)
Fixpoint for_each {A} (l : list A) (body : A → M unit) : M unit :=
  match l with
  | [] => mret tt
  | x :: l' => body x;; for_each l' body
  end.

Fixpoint map_m {A B} (f : A → M B) (l : list A) : M (list B) :=
  match l with
  | [] => mret []
  | x :: l' => y ← f x; ys ← map_m f l'; mret (y :: ys)
  end.

Definition random_shuffle {A} (l : list A) : M (list A) := λ w,
  let '(l', g) := Rng.shuffle l (w_rng w) in (set_rng g w, Return l').

Definition np_random_permutation (n : nat) : M (list nat) := λ w,
  let '(p, g) := Rng.permutation n (w_rng w) in (set_rng g w, Return p).

(** *** The dataset indexer *)

Definition list_speakers (args : Args) : M (list string) :=
  speaker_ids ← match speakers args with
                | None => lift (dataset_speakers (dataset_dir args))
                | Some given => mret given
                end;
  match ignored_speakers args with
  | Some ignored => lift (PyList.remove_each ignored speaker_ids)
  | None => mret speaker_ids
  end.

(** Modelled from the spec: [AudioVisualDataset.subset] of dataset.py,
    which is not among the sources.  The spec has the file listing done
    per dataset, with optional shuffling and an optional cap on the
    result count, and the speech recordings paired with their videos;
    the subset is the list of (video, audio) pairs. *)
Definition av_subset (dataset_dir : string) (speaker_ids : list string)
    (max_files : option Z) (shuffle : bool) : M (list (string * string)) :=
  entries ← lift (dataset_entries dataset_dir speaker_ids);
  entries ← (if shuffle then random_shuffle entries else mret entries);
  mret (PyList.slice_to max_files entries).

(** Modelled from the spec: [AudioDataset.subset] of dataset.py, which is
    not among the sources; noise files are listed independently of the
    speakers, with the same optional shuffling and cap. *)
Definition audio_subset (noise_dirs : list string) (max_files : option Z)
    (shuffle : bool) : M (list string) :=
  entries ← lift (noise_entries noise_dirs);
  entries ← (if shuffle then random_shuffle entries else mret entries);
  mret (PyList.slice_to max_files entries).

Definition list_data (dataset_dir : string) (speaker_ids : list string)
    (noise_dirs : list string) (max_files : option Z)
    : M (list string * list string * list string) :=
  speech_subset ← av_subset dataset_dir speaker_ids max_files true;
  noise_file_paths ← audio_subset noise_dirs max_files true;
  let n_files := Z.min (Z.of_nat (length speech_subset))
                       (Z.of_nat (length noise_file_paths)) in
  mret (PyList.slice_to (Some n_files) (speech_subset.*1),
        PyList.slice_to (Some n_files) (speech_subset.*2),
        PyList.slice_to (Some n_files) noise_file_paths).

(** *** The blob aggregator *)

(** [np.load(path)] of an archive. *)
Definition np_load (path : string) : M (gmap string (list Row)) :=
  c ← fs_read path;
  match c with
  | NpzFile arrays => mret arrays
  | _ => lift (Raise (ValueError "not an archive"))
  end.

(** [data[name]]. *)
Definition npz_get (data : gmap string (list Row)) (name : string)
    : M (list Row) :=
  match data !! name with
  | Some a => mret a
  | None => lift (Raise (KeyError name))
  end.

(** The body of the loading loop. *)
Definition load_blob (preprocessed_blob_path : string)
    : M (list Row * list Row * list Row * list Row) :=
  print ("loading preprocessed samples from " +:+ preprocessed_blob_path);;
  data ← np_load preprocessed_blob_path;
  video ← npz_get data "video_samples";
  mixed ← npz_get data "mixed_spectrograms";
  speech ← npz_get data "speech_spectrograms";
  noise ← npz_get data "noise_spectrograms";
  mret (video, mixed, speech, noise).

Definition load_preprocessed_samples (preprocessed_blob_paths : list string)
    (max_samples : option Z)
    : M (list Row * list Row * list Row * list Row) :=
  blobs ← map_m load_blob preprocessed_blob_paths;
  video_samples ← lift (PyList.np_concatenate (map (λ b, b.1.1.1) blobs));
  mixed_spectrograms ← lift (PyList.np_concatenate (map (λ b, b.1.1.2) blobs));
  speech_spectrograms ← lift (PyList.np_concatenate (map (λ b, b.1.2) blobs));
  noise_spectrograms ← lift (PyList.np_concatenate (map (λ b, b.2) blobs));
  permutation ← np_random_permutation (length video_samples);
  video_samples ← lift (PyList.np_take video_samples permutation);
  mixed_spectrograms ← lift (PyList.np_take mixed_spectrograms permutation);
  speech_spectrograms ← lift (PyList.np_take speech_spectrograms permutation);
  noise_spectrograms ← lift (PyList.np_take noise_spectrograms permutation);
  mret (PyList.slice_to max_samples video_samples,
        PyList.slice_to max_samples mixed_spectrograms,
        PyList.slice_to max_samples speech_spectrograms,
        PyList.slice_to max_samples noise_spectrograms).

(** *** The normalizer and the network, with their calls recorded *)

Definition VideoNormalizer (video_samples : list Row) : M Stats :=
  record (CallFit video_samples);;
  lift (video_normalizer_fit video_samples).

(** Modelled from the spec: [VideoNormalizer.normalize] of
    data_processor.py, which is not among the sources.  The spec has it
    transform the array in place with the statistics of the fit, without
    changing them (stateless after the fit); the normalized array is
    returned here. *)
Definition normalize (video_normalizer : Stats) (video_samples : list Row)
    : M (list Row) :=
  record (CallNormalize video_normalizer video_samples);;
  lift (video_normalizer_normalize video_normalizer video_samples).

Definition pickle_dump (st : Stats) (path : string) : M unit :=
  fs_op (Fs.write path (PickleFile st)).

Definition pickle_load (path : string) : M Stats :=
  c ← fs_read path;
  match c with
  | PickleFile st => mret st
  | _ => lift (Raise (UnpicklingError path))
  end.

(** Modelled from the spec: [SpeechEnhancementNetwork.train] of network.py,
    which is not among the sources.  The spec has the network an opaque
    component with a fixed tensor contract: the call is recorded with its
    arrays, and what the network writes under the two directories it is
    handed is no part of the model. *)
Definition net_train (network : Net) (tm tv ts vm vv vs : list Row)
    (model_cache_dir tensorboard_dir : string) : M Net :=
  record (CallNetTrain tm tv ts vm vv vs);;
  lift (network_train network tm tv ts vm vv vs model_cache_dir tensorboard_dir).

Definition net_evaluate (network : Net) (m v s : list Row) : M Loss :=
  record (CallNetEvaluate m v s);;
  lift (network_evaluate network m v s).

Definition net_predict (network : Net) (m v : list Row) : M (list Row) :=
  record (CallNetPredict m v);;
  lift (network_predict network m v).

(** Modelled from the spec: [SpeechEnhancementNetwork.save] and [load] of
    network.py, which is not among the sources.  The spec has the model
    cache directory an opaque location owned by the network component,
    which the script only passes through: what the network keeps there is
    held in [w_models] under the name of the directory, apart from the
    files of the script. *)
Definition net_save (network : Net) (model_cache_dir : string) : M unit := λ w,
  (World (w_fs w) (<[model_cache_dir := network]> (w_models w)) (w_rng w)
     (w_clock w) (w_stdout w) (w_log w) (w_calls w), Return tt).

Definition net_load (model_cache_dir : string) : M Net := λ w,
  match w_models w !! model_cache_dir with
  | Some network => (w, Return network)
  | None => (w, Raise (FileNotFoundError model_cache_dir))
  end.

(** *** Training *)

Definition train (args : Args) : M unit :=
  '(train_video_samples, train_mixed_spectrograms, train_speech_spectrograms, _) ←
    load_preprocessed_samples (train_preprocessed_blob_paths args) None;
  '(validation_video_samples, validation_mixed_spectrograms,
    validation_speech_spectrograms, _) ←
    load_preprocessed_samples (validation_preprocessed_blob_paths args) None;
  video_normalizer ← VideoNormalizer train_video_samples;
  train_video_samples ← normalize video_normalizer train_video_samples;
  validation_video_samples ← normalize video_normalizer validation_video_samples;
  pickle_dump video_normalizer (normalization_cache args);;
  network ← lift (network_build train_mixed_spectrograms train_video_samples);
  network ← net_train network
    train_mixed_spectrograms train_video_samples train_speech_spectrograms
    validation_mixed_spectrograms validation_video_samples
    validation_speech_spectrograms
    (model_cache_dir args) (tensorboard_dir args);
  net_save network (model_cache_dir args).

(** *** Prediction storage *)

Record PredictionStorage := { base_dir : string }.

(** The run directory is named by the construction time, formatted as
    [%Y-%m-%d_%H-%M-%S]; [w_clock] is that reading of the clock. *)
Definition PredictionStorage_init (storage_dir : string) : M PredictionStorage :=
  λ w,
  let base := PyStr.path_join storage_dir (w_clock w) in
  (fs_op (Fs.mkdir base);; mret {| base_dir := base |}) w.

Definition create_speaker_dir (self : PredictionStorage) (speaker_id : string)
    : M string :=
  let speaker_dir := PyStr.path_join (base_dir self) speaker_id in
  present ← fs_get (Fs.exists_ speaker_dir);
  (if present : bool then mret tt else fs_op (Fs.mkdir speaker_dir));;
  mret speaker_dir.

Definition save_to_wav_file (s : Signal) (path : string) : M unit :=
  fs_op (Fs.write path (WavFile s)).

(** [np.save(path, a)] appends [.npy] to a name that lacks it. *)
Definition np_save (path : string) (a : list Row) : M unit :=
  let path := if PyStr.endswith_str ".npy" path then path else path +:+ ".npy" in
  fs_op (Fs.write path (NpyFile a)).

Definition save_prediction (self : PredictionStorage)
    (speaker_id video_file_path noise_file_path speech_file_path : string)
    (mixed_signal predicted_speech_signal nn_speech : Signal)
    (enhanced_speech_spectrogram nn_speech_spectrogram mixed_spectrogram : list Row)
    : M unit :=
  speaker_dir ← create_speaker_dir self speaker_id;
  let speech_name := (PyStr.splitext (PyStr.basename video_file_path)).1 in
  let noise_name := (PyStr.splitext (PyStr.basename noise_file_path)).1 in
  let sample_prediction_dir :=
    PyStr.path_join speaker_dir (speech_name +:+ "_" +:+ noise_name) in
  fs_op (Fs.mkdir sample_prediction_dir);;
  let mixture_audio_path := PyStr.path_join sample_prediction_dir "mixture.wav" in
  let enhanced_speech_audio_path := PyStr.path_join sample_prediction_dir "enhanced.wav" in
  let nn_speech_audio_path := PyStr.path_join sample_prediction_dir "nn.wav" in
  let source_speech_new_audio_path := PyStr.path_join sample_prediction_dir "source.wav" in
  fs_op (Fs.copy2 speech_file_path source_speech_new_audio_path);;
  save_to_wav_file mixed_signal mixture_audio_path;;
  save_to_wav_file predicted_speech_signal enhanced_speech_audio_path;;
  save_to_wav_file nn_speech nn_speech_audio_path;;
  let mixed_spec_path := PyStr.path_join sample_prediction_dir "mixture.npy" in
  let enhanced_spec_path := PyStr.path_join sample_prediction_dir "enhanced.npy" in
  let nn_spec_path := PyStr.path_join sample_prediction_dir "nn.npy" in
  np_save mixed_spec_path mixed_spectrogram;;
  np_save enhanced_spec_path enhanced_speech_spectrogram;;
  np_save nn_spec_path nn_speech_spectrogram.

(** *** Prediction *)

(** The body of the [try] statement for one triple. *)
Definition predict_sample_body (storage : PredictionStorage) (network : Net)
    (video_normalizer : Stats) (speaker_id : string)
    (triple : string * string * string) : M unit :=
  let '(video_file_path, speech_file_path, noise_file_path) := triple in
  print ("predicting (" +:+ video_file_path +:+ ", " +:+ noise_file_path +:+ ")...");;
  '(video_samples, mixed_spectrograms, speech_spectrograms, noise_spectrograms,
    mixed_signal, peak, video_frame_rate) ←
    lift (preprocess_sample video_file_path speech_file_path noise_file_path);
  video_samples ← normalize video_normalizer video_samples;
  loss ← net_evaluate network mixed_spectrograms video_samples speech_spectrograms;
  print ("loss: " +:+ format_loss loss);;
  predicted_speech_spectrograms ← net_predict network mixed_spectrograms video_samples;
  '(enhanced_speech_spectrogram, mixed_spectrogram, nn_speech_spectrogram) ←
    lift (reconstruct_spectrograms predicted_speech_spectrograms
            mixed_spectrograms speech_spectrograms);
  enhanced_speech_signal ←
    lift (reconstruct_speech_signal mixed_signal enhanced_speech_spectrogram
            video_frame_rate peak);
  nn_speech_signal ←
    lift (reconstruct_speech_signal mixed_signal nn_speech_spectrogram
            video_frame_rate peak);
  save_prediction storage speaker_id video_file_path noise_file_path
    speech_file_path mixed_signal enhanced_speech_signal nn_speech_signal
    enhanced_speech_spectrogram nn_speech_spectrogram mixed_spectrogram.

(** One iteration of the inner loop: the body under its handler. *)
Definition predict_sample (storage : PredictionStorage) (network : Net)
    (video_normalizer : Stats) (speaker_id : string)
    (triple : string * string * string) : M unit :=
  try_except
    (predict_sample_body storage network video_normalizer speaker_id triple)
    (λ e, logging_exception
            ("failed to predict " +:+ triple.1.1 +:+ ". skipping") e).

(** The inner loop over the triples of one speaker. *)
Definition predict_triples (storage : PredictionStorage) (network : Net)
    (video_normalizer : Stats) (speaker_id : string)
    (triples : list (string * string * string)) : M unit :=
  for_each triples (predict_sample storage network video_normalizer speaker_id).

(** The derivation of the validation root. *)
Definition val_path_of (dataset_dir : string) : string :=
  PyStr.replace "test" "validation" dataset_dir.

(** The two listings made for one speaker. *)
Definition predict_listing (args : Args) (speaker_id : string)
    : M ((list string * list string * list string) * list string) :=
  triples ← list_data (dataset_dir args) [speaker_id] (noise_dirs args) (Some 10%Z);
  let val_path := val_path_of (dataset_dir args) in
  '(_, clean_speech_paths, _) ←
    list_data val_path [speaker_id] (noise_dirs args) (Some 3%Z);
  mret (triples, clean_speech_paths).

(** One iteration of the loop over the speakers. *)
Definition predict_speaker (storage : PredictionStorage) (network : Net)
    (video_normalizer : Stats) (args : Args) (speaker_id : string) : M unit :=
  '((video_file_paths, speech_file_paths, noise_file_paths), clean_speech_paths) ←
    predict_listing args speaker_id;
  clean_speech_spectrograms ←
    map_m (λ path, lift (clean_speech_spectrogram path)) clean_speech_paths;
  predict_triples storage network video_normalizer speaker_id
    (PyList.zip3 video_file_paths speech_file_paths noise_file_paths).

Definition predict (args : Args) : M unit :=
  storage ← PredictionStorage_init (prediction_output_dir args);
  network ← net_load (model_cache_dir args);
  video_normalizer ← pickle_load (normalization_cache args);
  speaker_ids ← list_speakers args;
  for_each speaker_ids (predict_speaker storage network video_normalizer args).

End script.

(** ** Notions used to state the properties *)

Section notions.
Context `{Collaborators}.

(** The files of a saved prediction. *)
Definition prediction_files : list string :=
  ["mixture.wav"; "enhanced.wav"; "nn.wav"; "source.wav";
   "mixture.npy"; "enhanced.npy"; "nn.npy"].

Definition is_file (o : option (Fs.node content)) : bool :=
  match o with
  | Some (Fs.File _) => true
  | _ => false
  end.

(** Directory [k] holds a saved prediction: it exists and has the seven
    files. *)
Definition holds_prediction (fs : gmap (list string) (Fs.node content))
    (k : list string) : bool :=
  match fs !! k with
  | Some Fs.Dir => forallb (λ name, is_file (fs !! (k ++ [name]))) prediction_files
  | _ => false
  end.

Definition prediction_dirs (fs : gmap (list string) (Fs.node content))
    : gset (list string) :=
  filter (λ k, holds_prediction fs k = true) (dom fs).

(** Directory [k] with the files [files] (names and contents) written in
it, the last of the list first. *)
Definition put_files (k : list string) (files : list (string * content))
    (fs : gmap (list string) (Fs.node content))
    : gmap (list string) (Fs.node content) :=
  foldr (λ nc acc, <[k ++ [nc.1] := Fs.File nc.2]> acc) fs files.

(** What [save_prediction] writes, in the reverse of the order of writing;
[source] is what the clean-speech file holds. *)
Definition prediction_contents (source : content)
    (mixed_signal predicted_speech_signal nn_speech : Signal)
    (mixed_spectrogram enhanced_speech_spectrogram nn_speech_spectrogram : list Row)
    : list (string * content) :=
  [("nn.npy", NpyFile nn_speech_spectrogram);
   ("enhanced.npy", NpyFile enhanced_speech_spectrogram);
   ("mixture.npy", NpyFile mixed_spectrogram);
   ("nn.wav", WavFile nn_speech);
   ("enhanced.wav", WavFile predicted_speech_signal);
   ("mixture.wav", WavFile mixed_signal);
   ("source.wav", source)].

(** The name of the directory of a prediction. *)
Definition prediction_name (video_file_path noise_file_path : string) : string :=
  (PyStr.splitext (PyStr.basename video_file_path)).1 +:+ "_"
  +:+ (PyStr.splitext (PyStr.basename noise_file_path)).1.

(** For each triple of the inner loop, in order, whether its [try] body
    ran to the end ([true]) or raised ([false]). *)
Fixpoint outcomes (storage : PredictionStorage) (network : Net)
    (video_normalizer : Stats) (speaker_id : string)
    (triples : list (string * string * string)) (w : world) : list bool :=
  match triples with
  | [] => []
  | t :: ts =>
      returned (predict_sample_body storage network video_normalizer speaker_id t w).2
      :: outcomes storage network video_normalizer speaker_id ts
           (predict_sample storage network video_normalizer speaker_id t w).1
  end.

(** The (archive, row) pairs of archives with the given sample counts, in
    the order of the concatenation, numbering the archives from [j]. *)
Fixpoint rows_from (j : nat) (counts : list nat) : list (nat * nat) :=
  match counts with
  | [] => []
  | c :: counts' => ((λ r, (j, r)) <$> seq 0 c) ++ rows_from (S j) counts'
  end.

Definition all_rows (counts : list nat) : list (nat * nat) := rows_from 0 counts.

(** The four arrays of a loaded archive. *)
Definition sel_video (b : list Row * list Row * list Row * list Row) := b.1.1.1.
Definition sel_mixed (b : list Row * list Row * list Row * list Row) := b.1.1.2.
Definition sel_speech (b : list Row * list Row * list Row * list Row) := b.1.2.
Definition sel_noise (b : list Row * list Row * list Row * list Row) := b.2.

(** Row [r] of the array chosen by [sel] in archive [j]. *)
Definition cell {B} (sel : B → list Row) (blobs : list B) (o : nat * nat)
    : option Row :=
  b ← blobs !! o.1; sel b !! o.2.

(** The archive at [path] holds the four arrays of [b]. *)
Definition holds_blob (fs : gmap (list string) (Fs.node content))
    (path : string) (b : list Row * list Row * list Row * list Row) : Prop :=
  ∃ arrays, Fs.read path fs = Return (NpzFile arrays)
    ∧ arrays !! "video_samples" = Some (sel_video b)
    ∧ arrays !! "mixed_spectrograms" = Some (sel_mixed b)
    ∧ arrays !! "speech_spectrograms" = Some (sel_speech b)
    ∧ arrays !! "noise_spectrograms" = Some (sel_noise b).

(** The four arrays of an archive have one sample count. *)
Definition aligned (b : list Row * list Row * list Row * list Row) : Prop :=
  length (sel_mixed b) = length (sel_video b)
  ∧ length (sel_speech b) = length (sel_video b)
  ∧ length (sel_noise b) = length (sel_video b).


(** A computation that leaves a part of the world as it found it. *)
Definition preserves {A B} (part : world → B) (m : M A) : Prop :=
  ∀ w w' r, m w = (w', r) → part w' = part w.



Definition is_net_train (c : call) : bool :=
  match c with
  | CallNetTrain _ _ _ _ _ _ => true
  | _ => false
  end.

End notions.

(** ** A concrete setting *)

(** Small collaborators to run the script on: rows, signals and statistics
    are numbers, the normalizer subtracts, and a video whose name starts
    with [bad] cannot be preprocessed. *)
Module Demo.

#[local] Instance collaborators : Collaborators := {|
  Row := nat;
  Signal := nat;
  Stats := nat;
  Net := nat;
  Loss := nat;
  Peak := nat;
  FrameRate := nat;
  preprocess_sample video speech noise :=
    if String.prefix "bad" (PyStr.basename video)
    then Raise (CollaboratorError "cannot decode the video")
    else Return ([10; 11], [20; 21], [30; 31], [40; 41], 5, 6, 25);
  clean_speech_spectrogram _ := Return [7];
  reconstruct_spectrograms predicted mixed speech := Return (predicted, mixed, speech);
  reconstruct_speech_signal mixed_signal spectrogram _ _ := Return (mixed_signal + length spectrogram);
  video_normalizer_fit samples := Return (hd 0 samples);
  video_normalizer_normalize st samples := Return ((λ x, x - st) <$> samples);
  network_build _ _ := Return 0;
  network_train network _ _ _ _ _ _ _ _ := Return (S network);
  network_evaluate _ _ _ _ := Return 0;
  network_predict _ mixed _ := Return mixed;
  format_loss _ := "0.000000";
  dataset_speakers _ := Return ["A"; "B"; "C"];
  dataset_entries root speaker_ids :=
    Return (flat_map (λ s, [(root +:+ "/" +:+ s +:+ "/video/u1.mp4", root +:+ "/" +:+ s +:+ "/audio/u1.wav");
                             (root +:+ "/" +:+ s +:+ "/video/u2.mp4", root +:+ "/" +:+ s +:+ "/audio/u2.wav")])
                     speaker_ids);
  noise_entries dirs :=
    Return (flat_map (λ d, [d +:+ "/n1.wav"; d +:+ "/n2.wav"; d +:+ "/n3.wav";
                             d +:+ "/n4.wav"; d +:+ "/n5.wav"]) dirs)
|}.

Definition args : Args := {|
  dataset_dir := "/data/test";
  noise_dirs := ["/noise"];
  speakers := Some ["A"; "B"; "C"];
  ignored_speakers := Some ["B"];
  train_preprocessed_blob_paths := ["/blobs/a.npz"; "/blobs/b.npz"];
  validation_preprocessed_blob_paths := ["/blobs/b.npz"];
  normalization_cache := "/cache/norm.pkl";
  model_cache_dir := "/cache/model";
  tensorboard_dir := "/tb";
  prediction_output_dir := "/out"
|}.

(** A speaker list with a repeated identifier. *)
Definition args_repeated : Args := {|
  dataset_dir := "/data/test";
  noise_dirs := ["/noise"];
  speakers := Some ["A"; "B"; "B"];
  ignored_speakers := Some ["B"];
  train_preprocessed_blob_paths := [];
  validation_preprocessed_blob_paths := [];
  normalization_cache := "/cache/norm.pkl";
  model_cache_dir := "/cache/model";
  tensorboard_dir := "/tb";
  prediction_output_dir := "/out"
|}.

Definition blob_a : gmap string (list nat) :=
  {[ "video_samples" := [1; 2];
     "mixed_spectrograms" := [101; 102];
     "speech_spectrograms" := [201; 202];
     "noise_spectrograms" := [301; 302] ]}.

Definition blob_b : gmap string (list nat) :=
  {[ "video_samples" := [3; 4; 5];
     "mixed_spectrograms" := [103; 104; 105];
     "speech_spectrograms" := [203; 204; 205];
     "noise_spectrograms" := [303; 304; 305] ]}.

Definition fs0 : gmap (list string) (Fs.node content) :=
  list_to_map [
    (["out"], Fs.Dir);
    (["cache"], Fs.Dir);
    (["blobs"], Fs.Dir);
    (["blobs"; "a.npz"], Fs.File (NpzFile blob_a));
    (["blobs"; "b.npz"], Fs.File (NpzFile blob_b));
    (["data"], Fs.Dir);
    (["data"; "s1.wav"], Fs.File (RawFile "RIFF-1"));
    (["data"; "s2.wav"], Fs.File (RawFile "RIFF-2"));
    (["data"; "s3.wav"], Fs.File (RawFile "RIFF-3"));
    (["data"; "s4.wav"], Fs.File (RawFile "RIFF-4"));
    (["data"; "s5.wav"], Fs.File (RawFile "RIFF-5"))
  ].

Definition world0 (g : Rng.state) : world :=
  World fs0 ∅ g "2017-11-05_12-00-00" [] [] [].

(** Five triples of one speaker; the third video cannot be decoded. *)
Definition triples5 : list (string * string * string) :=
  [("/data/v1.mp4", "/data/s1.wav", "/noise/n1.wav");
   ("/data/v2.mp4", "/data/s2.wav", "/noise/n2.wav");
   ("/data/bad3.mp4", "/data/s3.wav", "/noise/n3.wav");
   ("/data/v4.mp4", "/data/s4.wav", "/noise/n4.wav");
   ("/data/v5.mp4", "/data/s5.wav", "/noise/n5.wav")].

End Demo.

(** ** The preprocess command and further notions *)

(** [data_processor.preprocess_data], which turns the listed files into
    the four arrays of an archive, is outside the script as well. *)
Class DataProcessor `{Collaborators} := {
  preprocess_data : list string → list string → list string →
    result (list Row * list Row * list Row * list Row)
}.

Section preprocessing.
Context `{DataProcessor}.

(** [np.savez(path, name=array, ...)] appends [.npz] to a name that lacks
    it and replaces the file. *)
Definition np_savez (path : string) (arrays : gmap string (list Row)) : M unit :=
  let path := if PyStr.endswith_str ".npz" path then path else path +:+ ".npz" in
  fs_op (Fs.write path (NpzFile arrays)).

(** The namespace of the preprocess command has the path of the archive
    besides the dataset fields of [Args]. *)
Definition preprocess (args : Args) (preprocessed_blob_path : string) : M unit :=
  speaker_ids ← list_speakers args;
  '(video_file_paths, speech_file_paths, noise_file_paths) ←
    list_data (dataset_dir args) speaker_ids (noise_dirs args) (Some 1500%Z);
  '(video_samples, mixed_spectrograms, speech_spectrograms, noise_spectrograms) ←
    lift (preprocess_data video_file_paths speech_file_paths noise_file_paths);
  np_savez preprocessed_blob_path
    (<["video_samples" := video_samples]>
       (<["mixed_spectrograms" := mixed_spectrograms]>
          (<["speech_spectrograms" := speech_spectrograms]>
             (<["noise_spectrograms" := noise_spectrograms]> ∅)))).

End preprocessing.

(** The number of characters of a path that are no separators. *)
Fixpoint count_plain (s : string) : nat :=
  match s with
  | "" => 0
  | String c s' => (if Ascii.eqb c "/" then 0 else 1) + count_plain s'
  end.

Section more_notions.
Context `{Collaborators}.

(** The line the aggregator prints for an archive. *)
Definition loading_line (path : string) : string :=
  "loading preprocessed samples from " +:+ path.

(** The world after some lines were printed. *)
Definition printed (lines : list string) (w : world) : world :=
  World (w_fs w) (w_models w) (w_rng w) (w_clock w) (w_stdout w ++ lines)
    (w_log w) (w_calls w).

(** The world after some calls to the normalizer and the network. *)
Definition called (calls : list call) (w : world) : world :=
  World (w_fs w) (w_models w) (w_rng w) (w_clock w) (w_stdout w)
    (w_log w) (w_calls w ++ calls).

(** The world with other models in the model cache. *)
Definition set_models (models : gmap string Net) (w : world) : world :=
  World (w_fs w) models (w_rng w) (w_clock w) (w_stdout w) (w_log w) (w_calls w).

(** The names of the arrays of an archive, in the order in which the
    aggregator asks for them, and the first of them that an archive
    lacks. *)
Definition blob_arrays : list string :=
  ["video_samples"; "mixed_spectrograms"; "speech_spectrograms";
   "noise_spectrograms"].

Definition first_missing (arrays : gmap string (list Row)) : option string :=
  List.find (λ name, bool_decide (arrays !! name = None)) blob_arrays.

(** The four concatenations of loaded archives. *)
Definition all_of (sel : list Row * list Row * list Row * list Row → list Row)
    (blobs : list (list Row * list Row * list Row * list Row)) : list Row :=
  concat (sel <$> blobs).

End more_notions.

(** A second concrete setting: the demo collaborators with a data processor
    that numbers the videos, and file systems with faulty archives. *)
Module Cases.

#[local] Existing Instance Demo.collaborators.

Definition number_videos (videos speeches noises : list string)
    : result (list nat * list nat * list nat * list nat) :=
  Return (seq 0 (length videos), seq 100 (length videos),
          seq 200 (length videos), seq 300 (length videos)).

#[local] Instance processor : @DataProcessor Demo.collaborators :=
  {| preprocess_data := number_videos : _ → _ → _ →
       result (list (@Row Demo.collaborators) * list (@Row Demo.collaborators)
               * list (@Row Demo.collaborators) * list (@Row Demo.collaborators)) |}.

(** An archive without the noise spectrograms, and one whose mixed
    spectrograms are one row short. *)
Definition blob_no_noise : gmap string (list nat) :=
  {[ "video_samples" := [1; 2];
     "mixed_spectrograms" := [101; 102];
     "speech_spectrograms" := [201; 202] ]}.

Definition blob_short : gmap string (list nat) :=
  {[ "video_samples" := [1; 2; 3];
     "mixed_spectrograms" := [101; 102];
     "speech_spectrograms" := [201; 202; 203];
     "noise_spectrograms" := [301; 302; 303] ]}.

Definition blob_long : gmap string (list nat) :=
  {[ "video_samples" := [1; 2];
     "mixed_spectrograms" := [101; 102; 103];
     "speech_spectrograms" := [201; 202];
     "noise_spectrograms" := [301; 302; 303; 304] ]}.

Definition fs1 : gmap (list string) (Fs.node (@content Demo.collaborators)) :=
  list_to_map [
    (["out"], Fs.Dir);
    (["cache"], Fs.Dir);
    (["blobs"], Fs.Dir);
    (["blobs"; "a.npz"], Fs.File (NpzFile Demo.blob_a));
    (["blobs"; "b.npz"], Fs.File (NpzFile Demo.blob_b));
    (["blobs"; "no_noise.npz"], Fs.File (NpzFile blob_no_noise));
    (["blobs"; "short.npz"], Fs.File (NpzFile blob_short));
    (["blobs"; "long.npz"], Fs.File (NpzFile blob_long));
    (["data"], Fs.Dir);
    (["data"; "s1.wav"], Fs.File (RawFile "RIFF-1"))
  ].

Definition world1 (g : Rng.state) : world :=
  World fs1 ∅ g "2017-11-05_12-00-00" [] [] [].

(** Training arguments whose normalization cache lies in a directory that
    does not exist. *)
Definition args_no_cache_dir : Args := {|
  dataset_dir := "/data/test";
  noise_dirs := ["/noise"];
  speakers := Some ["A"; "B"; "C"];
  ignored_speakers := Some ["B"];
  train_preprocessed_blob_paths := ["/blobs/a.npz"; "/blobs/b.npz"];
  validation_preprocessed_blob_paths := ["/blobs/b.npz"];
  normalization_cache := "/nowhere/norm.pkl";
  model_cache_dir := "/cache/model";
  tensorboard_dir := "/tb";
  prediction_output_dir := "/out"
|}.

End Cases.

(** ** Facts about strings and paths *)

Lemma str_app_cons (c : ascii) (a b : string) :
  String c a +:+ b = String c (a +:+ b).
Proof. reflexivity. Qed.

Lemma str_app_nil_l (s : string) : "" +:+ s = s.
Proof. reflexivity. Qed.

Lemma str_app_nil_r (s : string) : s +:+ "" = s.
Proof. induction s as [|c s IH]; [done|]. by rewrite str_app_cons, IH. Qed.

Lemma str_app_assoc (a b c : string) : (a +:+ b) +:+ c = a +:+ b +:+ c.
Proof. induction a as [|x a IH]; [done|]. by rewrite !str_app_cons, IH. Qed.

Lemma str_length_app (a b : string) :
  String.length (a +:+ b) = String.length a + String.length b.
Proof.
  induction a as [|x a IH]; [done|]. rewrite str_app_cons. cbn. by rewrite IH.
Qed.

Lemma prefix_app_same (old b : string) : String.prefix old (old +:+ b) = true.
Proof.
  induction old as [|c old IH]; [by destruct b|].
  rewrite str_app_cons. cbn. destruct (ascii_dec c c); [exact IH|done].
Qed.

(** A prefix test only looks at as many characters as the prefix has. *)
Lemma prefix_app_long (old s z : string) :
  String.length old ≤ String.length s →
  String.prefix old (s +:+ z) = String.prefix old s.
Proof.
  revert s. induction old as [|c old IH]; intros s Hlen.
  - by destruct s, z.
  - destruct s as [|d s]; [cbn in Hlen; lia|].
    rewrite str_app_cons. cbn. destruct (ascii_dec c d); [|done].
    apply IH. cbn in Hlen. lia.
Qed.

Lemma contains_cons (old : string) (c : ascii) (s : string) :
  PyStr.contains old (String c s) = false →
  String.prefix old (String c s) = false ∧ PyStr.contains old s = false.
Proof. cbn [PyStr.contains]. by intros [??]%orb_false_elim. Qed.

(** Passing over the rest of a replaced occurrence. *)
Lemma replace_go_skip (old new x b : string) :
  PyStr.replace_go old new (String.length x) (x +:+ b)
  = PyStr.replace_go old new 0 b.
Proof.
  induction x as [|c x IH]; [by destruct b|].
  rewrite str_app_cons. cbn. exact IH.
Qed.

Lemma replace_go_absent (old new p : string) :
  PyStr.contains old p = false → PyStr.replace_go old new 0 p = p.
Proof.
  induction p as [|c p IH]; [done|].
  intros [Hpre Hrest]%contains_cons.
  cbn [PyStr.replace_go]. rewrite Hpre. by rewrite IH.
Qed.

(** The leftmost occurrence is replaced and the scan resumes after it.
    The pattern is the character [o] followed by [old']; it also reads
    [front] followed by the character [l], and no occurrence starts before
    the end of [a] when none lies within [a +:+ front]. *)
Lemma replace_go_first (o l : ascii) (old' front new a b : string) :
  String o old' = front +:+ String l "" →
  PyStr.contains (String o old') (a +:+ front) = false →
  PyStr.replace_go (String o old') new 0 (a +:+ String o old' +:+ b)
  = a +:+ new +:+ PyStr.replace_go (String o old') new 0 b.
Proof.
  intros Hold. induction a as [|c a IH]; intros Hno.
  - rewrite !str_app_nil_l, str_app_cons.
    cbn [PyStr.replace_go]. rewrite <- str_app_cons, prefix_app_same.
    replace (String.length (String o old') - 1) with (String.length old')
      by (cbn; lia).
    by rewrite replace_go_skip.
  - rewrite str_app_cons in Hno. apply contains_cons in Hno as [Hpre Hrest].
    rewrite !(str_app_cons c). cbn [PyStr.replace_go].
    assert (String.prefix (String o old') (String c (a +:+ String o old' +:+ b)) = false)
      as ->.
    { rewrite <- Hpre.
      replace (String c (a +:+ String o old' +:+ b))
        with (String c (a +:+ front) +:+ (String l "" +:+ b)).
      - apply prefix_app_long.
        rewrite Hold. cbn [String.length]. rewrite !str_length_app. cbn. lia.
      - rewrite str_app_cons, str_app_assoc, Hold, str_app_assoc. done. }
    by rewrite (IH Hrest).
Qed.

(** ** Facts about list removal *)

Lemma remove_Return (x : string) (l l' : list string) :
  PyList.remove x l = Return l' → x ∈ l ∧ (∀ z, z ∈ l' → z ∈ l).
Proof.
  revert l'. induction l as [|y l IH]; intros l'; cbn [PyList.remove]; [done|].
  case_decide as Hy.
  - intros [= <-]. subst. split; [left|]. intros z Hz. by right.
  - destruct (PyList.remove x l) as [r|e]; cbn; [|done].
    intros [= <-]. destruct (IH r eq_refl) as [Hin Hsub].
    split; [by right|]. intros z [->|Hz]%elem_of_cons; [left|right; auto].
Qed.

Lemma remove_Raise (x : string) (l : list string) (e : exn) :
  PyList.remove x l = Raise e →
  (x ∉ l) ∧ e = ValueError "list.remove(x): x not in list".
Proof.
  induction l as [|y l IH]; cbn [PyList.remove].
  - intros [= <-]. split; [apply not_elem_of_nil|done].
  - case_decide as Hy; [done|].
    destruct (PyList.remove x l) as [r|e'] eqn:Hr; cbn; [done|].
    intros [= <-]. destruct (IH eq_refl) as [Hnin ->].
    split; [|done]. intros [->|?]%elem_of_cons; done.
Qed.

Lemma filter_all {A} (P : A → Prop) `{∀ x, Decision (P x)} (l : list A) :
  (∀ x, x ∈ l → P x) → filter P l = l.
Proof.
  induction l as [|z l IH]; intros Hall; [done|].
  rewrite filter_cons_True by (apply Hall; left).
  f_equal. apply IH. intros x Hx. apply Hall. by right.
Qed.

Lemma remove_NoDup (x : string) (l : list string) :
  NoDup l → x ∈ l → PyList.remove x l = Return (filter (λ s, s ≠ x) l).
Proof.
  induction l as [|y l IH]; intros Hnd Hin; [by apply elem_of_nil in Hin|].
  apply NoDup_cons in Hnd as [Hy Hnd]. cbn [PyList.remove].
  case_decide as Hyx.
  - subst y. rewrite filter_cons_False by (intros Hne; by apply Hne).
    f_equal. symmetry. apply filter_all. intros z Hz ->. done.
  - apply elem_of_cons in Hin as [->|Hin]; [done|].
    rewrite IH by done. cbn [result_bind]. by rewrite filter_cons_True.
Qed.

Lemma remove_each_NoDup (ignored l : list string) :
  NoDup l → NoDup ignored → (∀ x, x ∈ ignored → x ∈ l) →
  PyList.remove_each ignored l = Return (filter (λ s, s ∉ ignored) l).
Proof.
  revert l. induction ignored as [|x ignored IH]; intros l Hl Hi Hsub;
    cbn [PyList.remove_each].
  - f_equal. symmetry. apply filter_all. intros z _. apply not_elem_of_nil.
  - apply NoDup_cons in Hi as [Hx Hi].
    rewrite remove_NoDup by (done || apply Hsub; left). cbn [result_bind].
    rewrite IH.
    + f_equal. rewrite list_filter_filter. apply list_filter_iff.
      intros s. rewrite not_elem_of_cons. tauto.
    + by apply NoDup_filter.
    + done.
    + intros y Hy. apply list_elem_of_filter. split.
      * intros ->. done.
      * apply Hsub. by right.
Qed.

Lemma remove_each_absent (ignored l : list string) :
  (∃ x, x ∈ ignored ∧ x ∉ l) →
  PyList.remove_each ignored l
  = Raise (ValueError "list.remove(x): x not in list").
Proof.
  revert l. induction ignored as [|x ignored IH]; intros l (y & Hy & Hnin).
  { by apply elem_of_nil in Hy. }
  cbn [PyList.remove_each].
  destruct (PyList.remove x l) as [l'|e] eqn:Hr; cbn.
  - apply remove_Return in Hr as [Hxl Hsub].
    apply IH. exists y.
    apply elem_of_cons in Hy as [->|Hy]; [done|].
    split; [done|]. intros Hin. apply Hnin. by apply Hsub.
  - by apply remove_Raise in Hr as [_ ->].
Qed.

(** ** Facts about slices *)

Lemma slice_to_nat {A} (n : nat) (l : list A) :
  PyList.slice_to (Some (Z.of_nat n)) l = take n l.
Proof.
  unfold PyList.slice_to.
  destruct (Z.leb_spec 0 (Z.of_nat n)); [|lia]. by rewrite Nat2Z.id.
Qed.

Lemma slice_to_length_le {A} (k : Z) (l : list A) :
  (0 ≤ k)%Z → length (PyList.slice_to (Some k) l) ≤ Z.to_nat k.
Proof.
  intros Hk. unfold PyList.slice_to.
  destruct (Z.leb_spec 0 k); [|lia]. rewrite length_take. lia.
Qed.

(** ** The dataset indexer *)

(** Equations between closed terms are settled by evaluation. *)
Ltac vm_refl :=
  lazymatch goal with
  | |- _ = ?r => vm_cast_no_check (@eq_refl _ r)
  end.

Ltac munfold :=
  unfold mbind, M_bind, mret, M_ret, lift, fs_op, fs_get, fs_read in *.

Section indexer.
Context `{Collaborators}.

(** C6, as amended.  With a base speaker list that has no repeated
    identifier, [list_speakers] returns the base list without the ignored
    identifiers, in the order of the base list, provided each ignored
    identifier occurs in the base list and is listed once; and whatever
    the base list, it raises the [ValueError] of [list.remove] as soon as
    some ignored identifier does not occur in it. *)
Theorem list_speakers_ignored (args : Args) (w : world)
    (base ignored : list string) :
  (speakers args = Some base
   ∨ (speakers args = None
      ∧ dataset_speakers (dataset_dir args) = Return base)) →
  ignored_speakers args = Some ignored →
  (NoDup base → NoDup ignored → (∀ x, x ∈ ignored → x ∈ base) →
     list_speakers args w = (w, Return (filter (λ s, s ∉ ignored) base)))
  ∧ ((∃ x, x ∈ ignored ∧ x ∉ base) →
     list_speakers args w
     = (w, Raise (ValueError "list.remove(x): x not in list"))).
Proof.
  intros Hbase Hign.
  assert (list_speakers args w = (w, PyList.remove_each ignored base)) as ->.
  { unfold list_speakers. rewrite Hign.
    destruct Hbase as [->|[-> Hds]]; munfold; [done|]. by rewrite Hds. }
  split.
  - intros. by rewrite remove_each_NoDup.
  - intros. by rewrite remove_each_absent.
Qed.

Lemma random_shuffle_world {A} (l : list A) (w : world) :
  random_shuffle l w
  = (set_rng (Rng.shuffle l (w_rng w)).2 w, Return (Rng.shuffle l (w_rng w)).1).
Proof. unfold random_shuffle. by destruct (Rng.shuffle l (w_rng w)). Qed.

(** C3.  [list_data] clips the three sequences to the shorter of the
    speech subset and the noise subset: each is the prefix of that length
    of the corresponding sequence of the subset, in the subset's order. *)
Theorem list_data_truncates (dataset_dir : string)
    (speaker_ids noise_dirs : list string) (max_files : option Z)
    (w w1 w2 : world) (subset : list (string * string)) (noise : list string) :
  av_subset dataset_dir speaker_ids max_files true w = (w1, Return subset) →
  audio_subset noise_dirs max_files true w1 = (w2, Return noise) →
  let n := min (length subset) (length noise) in
  list_data dataset_dir speaker_ids noise_dirs max_files w
  = (w2, Return (take n subset.*1, take n subset.*2, take n noise))
  ∧ length (take n subset.*1) = n
  ∧ length (take n subset.*2) = n
  ∧ length (take n noise) = n.
Proof.
  intros Hs Hn n. split.
  - unfold list_data. unfold mbind at 1, M_bind at 1. rewrite Hs.
    unfold mbind at 1, M_bind at 1. rewrite Hn.
    unfold mret, M_ret. rewrite <- Nat2Z.inj_min. by rewrite !slice_to_nat.
  - rewrite !length_take, !length_fmap. subst n. lia.
Qed.

Lemma av_subset_length (dataset_dir : string) (speaker_ids : list string)
    (k : Z) (shuffle : bool) (w w' : world) (subset : list (string * string)) :
  (0 ≤ k)%Z →
  av_subset dataset_dir speaker_ids (Some k) shuffle w = (w', Return subset) →
  length subset ≤ Z.to_nat k.
Proof.
  intros Hk. unfold av_subset. munfold.
  destruct (dataset_entries dataset_dir speaker_ids); [|done].
  destruct shuffle.
  - rewrite random_shuffle_world. intros [= _ <-]. by apply slice_to_length_le.
  - intros [= _ <-]. by apply slice_to_length_le.
Qed.

Lemma list_data_length (dataset_dir : string)
    (speaker_ids noise_dirs : list string) (k : Z) (w w' : world)
    (r : list string * list string * list string) :
  (0 ≤ k)%Z →
  list_data dataset_dir speaker_ids noise_dirs (Some k) w = (w', Return r) →
  length r.1.1 ≤ Z.to_nat k ∧ length r.1.2 ≤ Z.to_nat k
  ∧ length r.2 ≤ Z.to_nat k.
Proof.
  intros Hk. unfold list_data. unfold mbind at 1, M_bind at 1.
  destruct (av_subset _ _ _ _ w) as [w1 [subset|e]] eqn:Hs; [|done].
  apply av_subset_length in Hs; [|done].
  unfold mbind at 1, M_bind at 1.
  destruct (audio_subset _ _ _ w1) as [w2 [noise|e]]; [|done].
  unfold mret, M_ret. rewrite <- Nat2Z.inj_min, !slice_to_nat.
  intros [= _ <-]. cbn [fst snd].
  rewrite !length_take, !length_fmap. lia.
Qed.

(** C9.  For a speaker, [predict] lists the triples from the dataset root
    it was given, with at most 10 files, and the clean validation speech
    from the root in which [test] is replaced by [validation], with at
    most 3 files. *)
Theorem predict_listing_roots (args : Args) (speaker_id : string)
    (w w1 w2 : world) (triples val : list string * list string * list string) :
  list_data (dataset_dir args) [speaker_id] (noise_dirs args) (Some 10%Z) w
  = (w1, Return triples) →
  list_data (PyStr.replace "test" "validation" (dataset_dir args))
    [speaker_id] (noise_dirs args) (Some 3%Z) w1
  = (w2, Return val) →
  predict_listing args speaker_id w = (w2, Return (triples, val.1.2))
  ∧ length triples.1.1 ≤ 10 ∧ length triples.1.2 ≤ 10
  ∧ length triples.2 ≤ 10
  ∧ length val.1.2 ≤ 3.
Proof.
  intros Ht Hv. split.
  - unfold predict_listing, val_path_of.
    unfold mbind at 1, M_bind at 1. rewrite Ht.
    unfold mbind at 1, M_bind at 1. rewrite Hv.
    by destruct val as [[??]?].
  - apply list_data_length in Ht as (?&?&?); [|lia].
    apply list_data_length in Hv as (?&?&?); [|lia].
    repeat split; lia.
Qed.

End indexer.

(** C10.  A dataset root without [test] is its own validation root; and the
    substitution replaces [test] wherever it stands in the string, in the
    middle of a directory name as well, one occurrence after the other from
    the left. *)
Theorem val_path_of_substitution :
  (∀ p, PyStr.contains "test" p = false → val_path_of p = p)
  ∧ (∀ a b, PyStr.contains "test" (a +:+ "tes") = false →
       val_path_of (a +:+ "test" +:+ b)
       = a +:+ "validation" +:+ val_path_of b)
  ∧ val_path_of "/data/latest/test" = "/data/lavalidation/validation".
Proof.
  split; [|split].
  - intros p Hp. by apply replace_go_absent.
  - intros a b Ha. unfold val_path_of, PyStr.replace.
    by apply (replace_go_first "t" "t" "est" "tes").
  - reflexivity.
Qed.

Lemma val_path_of_substitution_witness :
  val_path_of "/data/train" = "/data/train"
  ∧ val_path_of ("/corpus/la" +:+ "test" +:+ "/test/s1")
    = "/corpus/la" +:+ "validation" +:+ val_path_of "/test/s1".
Proof.
  split.
  - apply (proj1 val_path_of_substitution). reflexivity.
  - apply (proj1 (proj2 val_path_of_substitution)). reflexivity.
Defined.

Lemma list_speakers_ignored_witness :
  @list_speakers Demo.collaborators Demo.args (Demo.world0 [])
  = (Demo.world0 [], Return ["A"; "C"]).
Proof.
  apply (proj1 (@list_speakers_ignored Demo.collaborators Demo.args
                  (Demo.world0 []) ["A"; "B"; "C"] ["B"]
                  (or_introl eq_refl) eq_refl)).
  - apply (bool_decide_unpack _). vm_compute. exact I.
  - apply (bool_decide_unpack _). vm_compute. exact I.
  - intros x ->%list_elem_of_singleton. right. left.
Defined.

(** C6 as first stated fails on a base list with a repeated identifier:
    only the first occurrence of the ignored speaker is removed. *)
Lemma list_speakers_repeated_counterexample :
  @list_speakers Demo.collaborators Demo.args_repeated (Demo.world0 [])
  = (Demo.world0 [], Return ["A"; "B"])
  ∧ "B" ∈ ["A"; "B"]
  ∧ ¬ (∀ r, (@list_speakers Demo.collaborators Demo.args_repeated
               (Demo.world0 [])).2 = Return r → "B" ∉ r).
Proof.
  split; [reflexivity|]. split.
  - right. left.
  - intros Hclaim. apply (Hclaim ["A"; "B"]); [reflexivity|]. right. left.
Qed.

Lemma list_data_truncates_witness :
  let w := Demo.world0 [1; 0; 2] in
  let r1 := @av_subset Demo.collaborators "/data/test" ["A"; "B"; "C"; "D"] None true w in
  let r2 := @audio_subset Demo.collaborators ["/noise"] None true r1.1 in
  let subset := match r1.2 with Return s => s | Raise _ => [] end in
  let noise := match r2.2 with Return s => s | Raise _ => [] end in
  length subset = 8 ∧ length noise = 5
  ∧ @list_data Demo.collaborators "/data/test" ["A"; "B"; "C"; "D"] ["/noise"] None w
    = (r2.1, Return (take 5 subset.*1, take 5 subset.*2, take 5 noise)).
Proof.
  intros w r1 r2 subset noise.
  split; [reflexivity|]. split; [reflexivity|].
  refine (proj1 (@list_data_truncates Demo.collaborators "/data/test"
                   ["A"; "B"; "C"; "D"] ["/noise"] None w r1.1 r2.1
                   subset noise _ _)).
  - vm_refl.
  - vm_refl.
Defined.

Lemma predict_listing_roots_witness :
  let w := Demo.world0 [1; 0; 2; 3] in
  let r1 := @list_data Demo.collaborators "/data/test" ["A"] ["/noise"] (Some 10%Z) w in
  let r2 := @list_data Demo.collaborators "/data/validation" ["A"] ["/noise"]
              (Some 3%Z) r1.1 in
  let triples := match r1.2 with Return t => t | Raise _ => ([], [], []) end in
  let val := match r2.2 with Return t => t | Raise _ => ([], [], []) end in
  @predict_listing Demo.collaborators Demo.args "A" w
  = (r2.1, Return (triples, val.1.2))
  ∧ length triples.1.1 ≤ 10 ∧ length triples.1.2 ≤ 10
  ∧ length triples.2 ≤ 10
  ∧ length val.1.2 ≤ 3.
Proof.
  intros w r1 r2 triples val.
  refine (@predict_listing_roots Demo.collaborators Demo.args "A" w r1.1 r2.1
            triples val _ _).
  - vm_refl.
  - vm_refl.
Defined.

(** ** The random source *)

Lemma shuffle_go_Permutation {A} (n : nat) (l : list A) (g : Rng.state) :
  length l ≤ n → (Rng.shuffle_go n l g).1 ≡ₚ l.
Proof.
  revert l g. induction n as [|n IH]; intros l g Hn.
  - destruct l; [done|]. cbn in Hn. lia.
  - destruct l as [|x0 l']; [done|].
    cbn [Rng.shuffle_go]. destruct (Rng.draw g) as [d g1].
    set (l := x0 :: l') in *. set (i := d mod length l).
    assert (i < length l) as Hi by (apply Nat.mod_upper_bound; done).
    destruct (lookup_lt_is_Some_2 l i Hi) as [x Hx].
    specialize (IH (delete i l) g1).
    destruct (Rng.shuffle_go n (delete i l) g1) as [rest g2]. cbn [fst] in *.
    rewrite (nth_lookup_Some _ _ _ _ Hx).
    rewrite (delete_Permutation l i x Hx). constructor. apply IH.
    rewrite length_delete by eauto. lia.
Qed.

Lemma shuffle_Permutation {A} (l : list A) (g : Rng.state) :
  (Rng.shuffle l g).1 ≡ₚ l.
Proof. by apply shuffle_go_Permutation. Qed.

Lemma permutation_Permutation (n : nat) (g : Rng.state) :
  (Rng.permutation n g).1 ≡ₚ seq 0 n.
Proof. apply shuffle_Permutation. Qed.

(** ** Index arrays *)

Lemma lookup_all {A} (l : list A) (index : list nat) :
  Forall (λ i, i < length l) index →
  ∃ xs, Forall2 (λ i x, l !! i = Some x) index xs.
Proof.
  induction 1 as [|i index Hi _ [xs IH]]; [by exists []|].
  destruct (lookup_lt_is_Some_2 l i Hi) as [x Hx].
  exists (x :: xs). by constructor.
Qed.

Lemma np_take_lookup {A} (a : list A) (index : list nat) (xs : list A) :
  Forall2 (λ i x, a !! i = Some x) index xs →
  PyList.np_take a index = Return xs.
Proof.
  induction 1 as [|i x index xs Hi _ IH]; [done|].
  cbn [PyList.np_take]. by rewrite Hi, IH.
Qed.

Lemma np_take_length {A} (a : list A) (index : list nat) (xs : list A) :
  PyList.np_take a index = Return xs → length xs = length index.
Proof.
  revert xs. induction index as [|i index IH]; intros xs; cbn [PyList.np_take].
  - by intros [= <-].
  - destruct (a !! i); [|done].
    destruct (PyList.np_take a index) as [rs|]; cbn [result_bind]; [|done].
    intros [= <-]. cbn. f_equal. by apply IH.
Qed.

Lemma lookup_all_fmap {A} (l : list A) (index : list nat) (xs : list A) :
  Forall2 (λ i x, l !! i = Some x) index xs →
  Some <$> xs = (l !!.) <$> index.
Proof. induction 1 as [|i x index xs Hi _ IH]; [done|]. cbn. by rewrite Hi, IH. Qed.

Lemma lookup_seq_fmap {A} (l : list A) :
  Some <$> l = (l !!.) <$> seq 0 (length l).
Proof.
  apply list_eq. intros i. rewrite !list_lookup_fmap.
  destruct (decide (i < length l)) as [Hi|Hi].
  - rewrite lookup_seq_lt by done. cbn.
    destruct (lookup_lt_is_Some_2 l i Hi) as [x Hx]. by rewrite Hx.
  - rewrite lookup_seq_ge by lia. by rewrite lookup_ge_None_2 by lia.
Qed.

(** Reading a list through a permutation of its indices permutes it. *)
Lemma lookup_all_Permutation {A} (l : list A) (index : list nat) (xs : list A) :
  Forall2 (λ i x, l !! i = Some x) index xs →
  index ≡ₚ seq 0 (length l) →
  xs ≡ₚ l.
Proof.
  intros Hxs%lookup_all_fmap Hperm.
  assert (Some <$> xs ≡ₚ Some <$> l) as Hp.
  { rewrite Hxs, (lookup_seq_fmap l). by apply fmap_Permutation. }
  apply Permutation_map_inv in Hp as (l3 & Heq & Hp).
  apply (inj (fmap Some)) in Heq. by subst.
Qed.

(** ** The blob aggregator *)

Section aggregator.
Context `{Collaborators}.

Lemma rows_from_length (j : nat) (counts : list nat) :
  length (rows_from j counts) = sum_list counts.
Proof.
  revert j. induction counts as [|c counts IH]; intros j; [done|].
  cbn. rewrite length_app, length_fmap, length_seq. by rewrite IH.
Qed.

Lemma concat_length_sum {A} (ls : list (list A)) :
  length (concat ls) = sum_list (length <$> ls).
Proof.
  induction ls as [|l ls IH]; [done|]. cbn. by rewrite length_app, IH.
Qed.

(** Position [p] of the concatenation is row [r] of array [j]. *)
Lemma concat_lookup_rows {A} (ls : list (list A)) (j0 p j r : nat) :
  rows_from j0 (length <$> ls) !! p = Some (j, r) →
  j0 ≤ j ∧ concat ls !! p = ls !! (j - j0) ≫= (.!! r).
Proof.
  revert j0 p. induction ls as [|l ls IH]; intros j0 p; [done|].
  cbn [fmap list_fmap rows_from concat].
  destruct (decide (p < length l)) as [Hp|Hp].
  - rewrite lookup_app_l by (by rewrite length_fmap, length_seq).
    rewrite list_lookup_fmap, lookup_seq_lt by done. cbn.
    intros [= <- <-]. split; [done|].
    rewrite lookup_app_l by done. by rewrite Nat.sub_diag.
  - rewrite lookup_app_r by (rewrite length_fmap, length_seq; lia).
    rewrite length_fmap, length_seq.
    intros [Hj Hl]%IH. split; [lia|].
    rewrite lookup_app_r by lia. rewrite Hl.
    by replace (j - j0) with (S (j - S j0)) by lia.
Qed.

Lemma print_world (line : string) (w : world) :
  w_fs (print line w).1 = w_fs w ∧ w_rng (print line w).1 = w_rng w.
Proof. done. Qed.

Lemma load_blob_holds (path : string)
    (b : list Row * list Row * list Row * list Row) (w : world) :
  holds_blob (w_fs w) path b →
  load_blob path w
  = ((print ("loading preprocessed samples from " +:+ path) w).1, Return b).
Proof.
  intros (arrays & Hread & Hv & Hm & Hs & Hn).
  unfold load_blob, np_load, npz_get. munfold. cbn [print fst snd w_fs].
  rewrite Hread, Hv, Hm, Hs, Hn. by destruct b as [[[??]?]?].
Qed.

Lemma load_blobs_hold (paths : list string)
    (blobs : list (list Row * list Row * list Row * list Row)) (w : world) :
  Forall2 (holds_blob (w_fs w)) paths blobs →
  ∃ w1, map_m load_blob paths w = (w1, Return blobs)
    ∧ w_fs w1 = w_fs w ∧ w_rng w1 = w_rng w.
Proof.
  intros Hall. revert w Hall.
  induction paths as [|p paths IH] in blobs |- *; intros w Hall.
  - apply Forall2_nil_inv_l in Hall as ->. by exists w.
  - apply Forall2_cons_inv_l in Hall as (b & blobs' & Hb & Hall & ->).
    cbn [map_m]. unfold mbind at 1, M_bind at 1.
    rewrite (load_blob_holds _ _ _ Hb).
    destruct (IH blobs' (print ("loading preprocessed samples from " +:+ p) w).1)
      as (w1 & Hmap & Hfs & Hrng); [done|].
    exists w1. unfold mbind, M_bind, mret, M_ret. by rewrite Hmap.
Qed.

(** One array kind through the concatenation and the permutation. *)
Lemma take_rows (sel : list Row * list Row * list Row * list Row → list Row)
    (blobs : list (list Row * list Row * list Row * list Row))
    (counts : list nat) (index : list nat) (origins : list (nat * nat)) :
  (length ∘ sel) <$> blobs = counts →
  Forall2 (λ p o, all_rows counts !! p = Some o) index origins →
  ∃ xs, PyList.np_take (concat (sel <$> blobs)) index = Return xs
    ∧ Forall2 (λ o x, cell sel blobs o = Some x) origins xs.
Proof.
  intros Hcounts Hor.
  assert (∃ xs, Forall2 (λ p x, concat (sel <$> blobs) !! p = Some x) index xs
                ∧ Forall2 (λ o x, cell sel blobs o = Some x) origins xs)
    as (xs & Hxs & Hcell).
  { induction Hor as [|p [j r] index origins Hp _ (xs & Hxs & Hcell)];
      [by exists []|].
    assert (p < length (concat (sel <$> blobs))) as Hlt.
    { rewrite concat_length_sum, <- list_fmap_compose, Hcounts.
      rewrite <- (rows_from_length 0). apply lookup_lt_is_Some. eauto. }
    destruct (lookup_lt_is_Some_2 _ _ Hlt) as [x Hx].
    exists (x :: xs). split; constructor; try done.
    unfold all_rows in Hp. rewrite <- Hcounts, list_fmap_compose in Hp.
    apply concat_lookup_rows in Hp as [_ Hp].
    rewrite Nat.sub_0_r, list_lookup_fmap, Hx in Hp.
    unfold cell. cbn [fst snd]. destruct (blobs !! j); cbn in *; done. }
  exists xs. split; [|done]. by apply np_take_lookup.
Qed.

Lemma aligned_counts
    (blobs : list (list Row * list Row * list Row * list Row)) :
  Forall aligned blobs →
  (length ∘ sel_mixed) <$> blobs = (length ∘ sel_video) <$> blobs
  ∧ (length ∘ sel_speech) <$> blobs = (length ∘ sel_video) <$> blobs
  ∧ (length ∘ sel_noise) <$> blobs = (length ∘ sel_video) <$> blobs.
Proof.
  induction 1 as [|b blobs (Hm & Hs & Hn) _ (IHm & IHs & IHn)]; [done|].
  cbn. unfold sel_mixed, sel_speech, sel_noise, sel_video in *.
  rewrite Hm, Hs, Hn, IHm, IHs, IHn. done.
Qed.

(** The aggregator on well-formed archives, whatever the bound: the four
    arrays are read through one permutation of the rows and then cut. *)
Lemma load_preprocessed_samples_spec (paths : list string)
    (blobs : list (list Row * list Row * list Row * list Row))
    (max_samples : option Z) (w : world) :
  paths ≠ [] →
  Forall2 (holds_blob (w_fs w)) paths blobs →
  Forall aligned blobs →
  let counts := (length ∘ sel_video) <$> blobs in
  let permutation := (Rng.permutation (sum_list counts) (w_rng w)).1 in
  ∃ origins video mixed speech noise,
    (load_preprocessed_samples paths max_samples w).2
    = Return (PyList.slice_to max_samples video,
              PyList.slice_to max_samples mixed,
              PyList.slice_to max_samples speech,
              PyList.slice_to max_samples noise)
    ∧ Forall2 (λ p o, all_rows counts !! p = Some o) permutation origins
    ∧ origins ≡ₚ all_rows counts
    ∧ Forall2 (λ o x, cell sel_video blobs o = Some x) origins video
    ∧ Forall2 (λ o x, cell sel_mixed blobs o = Some x) origins mixed
    ∧ Forall2 (λ o x, cell sel_speech blobs o = Some x) origins speech
    ∧ Forall2 (λ o x, cell sel_noise blobs o = Some x) origins noise.
Proof.
  intros Hne Hblobs Halign counts permutation.
  destruct (aligned_counts blobs Halign) as (Hm & Hs & Hn).
  destruct (load_blobs_hold paths blobs w Hblobs) as (w1 & Hload & Hfs & Hrng).
  assert (blobs ≠ []) as Hbne.
  { intros ->. apply Forall2_nil_inv_r in Hblobs. done. }
  assert (Forall (λ p, p < length (all_rows counts)) permutation) as Hbound.
  { unfold permutation. rewrite (permutation_Permutation _ (w_rng w)).
    unfold all_rows. rewrite rows_from_length.
    apply Forall_forall. intros p [_ Hp]%elem_of_seq. lia. }
  destruct (lookup_all _ _ Hbound) as [origins Hor].
  destruct (take_rows sel_video blobs counts permutation origins eq_refl Hor)
    as (video & Hvt & Hvc).
  destruct (take_rows sel_mixed blobs counts permutation origins Hm Hor)
    as (mixed & Hmt & Hmc).
  destruct (take_rows sel_speech blobs counts permutation origins Hs Hor)
    as (speech & Hst & Hsc).
  destruct (take_rows sel_noise blobs counts permutation origins Hn Hor)
    as (noise & Hnt & Hnc).
  exists origins, video, mixed, speech, noise.
  split; [|split; [done|split; [|done]]].
  - unfold load_preprocessed_samples.
    unfold mbind at 1, M_bind at 1. rewrite Hload.
    assert (∀ sel : _ → list Row,
               PyList.np_concatenate (map sel blobs)
               = Return (concat (sel <$> blobs))) as Hcat.
    { intros sel. unfold PyList.np_concatenate.
      destruct blobs; [done|]. done. }
    munfold. rewrite !Hcat.
    unfold np_random_permutation.
    replace (length (concat ((λ b, b.1.1.1) <$> blobs))) with (sum_list counts)
      by (by rewrite concat_length_sum, <- list_fmap_compose).
    rewrite Hrng. fold permutation.
    destruct (Rng.permutation (sum_list counts) (w_rng w)) as [perm g] eqn:Hperm.
    cbn [fst] in permutation. subst permutation.
    change (λ b : list Row * list Row * list Row * list Row, b.1.1.1) with sel_video.
    change (λ b : list Row * list Row * list Row * list Row, b.1.1.2) with sel_mixed.
    change (λ b : list Row * list Row * list Row * list Row, b.1.2) with sel_speech.
    change (λ b : list Row * list Row * list Row * list Row, b.2) with sel_noise.
    by rewrite Hvt, Hmt, Hst, Hnt.
  - apply (lookup_all_Permutation _ permutation); [done|].
    unfold permutation, all_rows. rewrite rows_from_length.
    apply permutation_Permutation.
Qed.

End aggregator.

Section aggregator_claims.
Context `{Collaborators}.

(** C1, as amended.  For a non-empty list of archive paths whose archives
    hold the four arrays with one sample count each, the aggregator
    returns four arrays of n_1 + ... + n_k samples; they are the four
    concatenations, in the order of the paths, read through the one
    permutation drawn from the random source, so that position [i] of
    each of the four holds the row of the same (archive, row) pair, and
    every pair is used once. *)
Theorem load_preprocessed_samples_aligned (paths : list string)
    (blobs : list (list Row * list Row * list Row * list Row)) (w : world) :
  paths ≠ [] →
  Forall2 (holds_blob (w_fs w)) paths blobs →
  Forall aligned blobs →
  let counts := (length ∘ sel_video) <$> blobs in
  let permutation := (Rng.permutation (sum_list counts) (w_rng w)).1 in
  ∃ origins video mixed speech noise,
    (load_preprocessed_samples paths None w).2
    = Return (video, mixed, speech, noise)
    ∧ length video = sum_list counts
    ∧ length mixed = sum_list counts
    ∧ length speech = sum_list counts
    ∧ length noise = sum_list counts
    ∧ Forall2 (λ p o, all_rows counts !! p = Some o) permutation origins
    ∧ origins ≡ₚ all_rows counts
    ∧ Forall2 (λ o x, cell sel_video blobs o = Some x) origins video
    ∧ Forall2 (λ o x, cell sel_mixed blobs o = Some x) origins mixed
    ∧ Forall2 (λ o x, cell sel_speech blobs o = Some x) origins speech
    ∧ Forall2 (λ o x, cell sel_noise blobs o = Some x) origins noise.
Proof.
  intros Hne Hblobs Halign counts permutation.
  destruct (load_preprocessed_samples_spec paths blobs None w Hne Hblobs Halign)
    as (origins & video & mixed & speech & noise
        & Hrun & Hor & Hperm & Hv & Hm & Hs & Hn).
  exists origins, video, mixed, speech, noise.
  assert (length origins = sum_list counts) as Hlen.
  { rewrite Hperm. apply rows_from_length. }
  split; [exact Hrun|].
  rewrite <- (Forall2_length _ _ _ Hv), <- (Forall2_length _ _ _ Hm),
    <- (Forall2_length _ _ _ Hs), <- (Forall2_length _ _ _ Hn).
  repeat split; done.
Qed.

Lemma slice_to_nonneg {A} (k : Z) (l : list A) :
  (0 ≤ k)%Z → PyList.slice_to (Some k) l = take (Z.to_nat k) l.
Proof. intros Hk. unfold PyList.slice_to. by destruct (Z.leb_spec 0 k); [|lia]. Qed.

(** C5.  With a bound [k] not above the sample count, the aggregator
    returns the first [k] samples of each of the four shuffled arrays it
    returns without a bound (the same permutation is drawn): [k] samples
    each, cut after the shuffle, and position [i] of each cut array is
    position [i] of the corresponding shuffled array. *)
Theorem load_preprocessed_samples_truncates (paths : list string)
    (k : Z) (w w' : world) (video mixed speech noise : list Row) :
  load_preprocessed_samples paths None w
  = (w', Return (video, mixed, speech, noise)) →
  (0 ≤ k ≤ Z.of_nat (length video))%Z →
  let n := Z.to_nat k in
  load_preprocessed_samples paths (Some k) w
  = (w', Return (take n video, take n mixed, take n speech, take n noise))
  ∧ length (take n video) = n
  ∧ length (take n mixed) = n
  ∧ length (take n speech) = n
  ∧ length (take n noise) = n
  ∧ ∀ i, i < n →
      take n video !! i = video !! i
      ∧ take n mixed !! i = mixed !! i
      ∧ take n speech !! i = speech !! i
      ∧ take n noise !! i = noise !! i.
Proof.
  intros Hfull Hk n. unfold load_preprocessed_samples in *.
  unfold mbind, M_bind, mret, M_ret, lift in *.
  destruct (map_m load_blob paths w) as [w1 [blobs|e]]; [|done].
  destruct (PyList.np_concatenate (map (λ b, b.1.1.1) blobs)) as [v0|]; [|done].
  destruct (PyList.np_concatenate (map (λ b, b.1.1.2) blobs)) as [m0|]; [|done].
  destruct (PyList.np_concatenate (map (λ b, b.1.2) blobs)) as [s0|]; [|done].
  destruct (PyList.np_concatenate (map (λ b, b.2) blobs)) as [n0|]; [|done].
  destruct (np_random_permutation (length v0) w1) as [w2 [perm|e]]; [|done].
  destruct (PyList.np_take v0 perm) as [v1|] eqn:Hv; [|done].
  destruct (PyList.np_take m0 perm) as [m1|] eqn:Hm; [|done].
  destruct (PyList.np_take s0 perm) as [s1|] eqn:Hs; [|done].
  destruct (PyList.np_take n0 perm) as [n1|] eqn:Hn; [|done].
  cbn [PyList.slice_to] in Hfull. injection Hfull as -> -> -> -> ->.
  apply np_take_length in Hv, Hm, Hs, Hn.
  rewrite !slice_to_nonneg by lia. fold n.
  split; [done|].
  rewrite !length_take.
  repeat split; try lia; by apply lookup_take_lt.
Qed.

End aggregator_claims.

Lemma load_preprocessed_samples_aligned_witness :
  let w := Demo.world0 [3; 1; 4; 1; 5] in
  let blobs := [([1; 2], [101; 102], [201; 202], [301; 302]);
                ([3; 4; 5], [103; 104; 105], [203; 204; 205], [303; 304; 305])] in
  let counts := [2; 3] in
  let permutation := (Rng.permutation 5 [3; 1; 4; 1; 5]).1 in
  ∃ origins video mixed speech noise,
    (@load_preprocessed_samples Demo.collaborators
       ["/blobs/a.npz"; "/blobs/b.npz"] None w).2
    = Return (video, mixed, speech, noise)
    ∧ length video = 5
    ∧ length mixed = 5
    ∧ length speech = 5
    ∧ length noise = 5
    ∧ Forall2 (λ p o, all_rows counts !! p = Some o) permutation origins
    ∧ origins ≡ₚ all_rows counts
    ∧ Forall2 (λ o x, @cell Demo.collaborators _ sel_video blobs o = Some x) origins video
    ∧ Forall2 (λ o x, @cell Demo.collaborators _ sel_mixed blobs o = Some x) origins mixed
    ∧ Forall2 (λ o x, @cell Demo.collaborators _ sel_speech blobs o = Some x) origins speech
    ∧ Forall2 (λ o x, @cell Demo.collaborators _ sel_noise blobs o = Some x) origins noise.
Proof.
  intros w blobs counts permutation.
  apply (@load_preprocessed_samples_aligned Demo.collaborators
           ["/blobs/a.npz"; "/blobs/b.npz"] blobs w).
  - discriminate.
  - repeat constructor.
    + exists Demo.blob_a. repeat split; vm_refl.
    + exists Demo.blob_b. repeat split; vm_refl.
  - repeat constructor.
Defined.

(** C1 as first stated fails on the empty list of paths: NumPy refuses to
    concatenate no array, and nothing is returned. *)
Lemma load_preprocessed_samples_empty_counterexample :
  (@load_preprocessed_samples Demo.collaborators [] None (Demo.world0 [])).2
  = Raise (ValueError "need at least one array to concatenate")
  ∧ ¬ (∃ video mixed speech noise,
         (@load_preprocessed_samples Demo.collaborators [] None (Demo.world0 [])).2
         = Return (video, mixed, speech, noise)
         ∧ length video = 0).
Proof.
  split; [reflexivity|]. intros (v & m & s & n & Hrun & _). discriminate Hrun.
Qed.

Lemma load_preprocessed_samples_truncates_witness :
  let w := Demo.world0 [3; 1; 4; 1; 5] in
  let paths := ["/blobs/a.npz"; "/blobs/b.npz"] in
  let w' := (@load_preprocessed_samples Demo.collaborators paths None w).1 in
  (@load_preprocessed_samples Demo.collaborators paths None w).2
  = Return ([4; 2; 3; 5; 1], [104; 102; 103; 105; 101],
            [204; 202; 203; 205; 201], [304; 302; 303; 305; 301])
  ∧ @load_preprocessed_samples Demo.collaborators paths (Some 2%Z) w
    = (w', Return ([4; 2], [104; 102], [204; 202], [304; 302]))
  ∧ [4; 2] ≠ take 2 [1; 2; 3; 4; 5].
Proof.
  intros w paths w'. split; [reflexivity|]. split; [|discriminate].
  refine (proj1 (@load_preprocessed_samples_truncates Demo.collaborators paths
                   2%Z w w' [4; 2; 3; 5; 1] [104; 102; 103; 105; 101]
                   [204; 202; 203; 205; 201] [304; 302; 303; 305; 301] _ _)).
  - vm_refl.
  - cbn. lia.
Defined.

(** ** Path components *)

Lemma has_char_app (c : ascii) (a b : string) :
  PyStr.has_char c (a +:+ b) = PyStr.has_char c a || PyStr.has_char c b.
Proof.
  induction a as [|x a IH]; [done|].
  rewrite str_app_cons. cbn [PyStr.has_char]. by rewrite IH, orb_assoc.
Qed.

Lemma has_char_take (c : ascii) (n : nat) (s : string) :
  PyStr.has_char c s = false → PyStr.has_char c (PyStr.str_take n s) = false.
Proof.
  revert n. induction s as [|x s IH]; intros [|n]; try done.
  cbn [PyStr.has_char PyStr.str_take].
  intros [-> Hs]%orb_false_elim. by rewrite IH.
Qed.

(** What follows the last occurrence of [c] does not hold [c]. *)
Lemma rfind_drop (c : ascii) (s : string) :
  PyStr.has_char c
    (match PyStr.rfind c s with
     | Some i => PyStr.str_drop (S i) s
     | None => s
     end) = false.
Proof.
  induction s as [|x s IH]; [done|]. cbn [PyStr.rfind].
  destruct (PyStr.rfind c s) as [i|].
  - exact IH.
  - destruct (Ascii.eqb x c) eqn:Hx.
    + by destruct s.
    + cbn [PyStr.has_char]. by rewrite Hx, IH.
Qed.

Lemma basename_no_slash (p : string) :
  PyStr.has_char "/" (PyStr.basename p) = false.
Proof. apply rfind_drop. Qed.

Lemma splitext_no_slash (s : string) :
  PyStr.has_char "/" s = false →
  PyStr.has_char "/" (PyStr.splitext s).1 = false.
Proof.
  intros Hs. unfold PyStr.splitext.
  destruct (PyStr.rfind "." s) as [dotIndex|]; [|done].
  case_decide; [|done].
  destruct (PyStr.all_char _ _); [done|]. by apply has_char_take.
Qed.

(** The name of a prediction directory is a single path component. *)
Lemma prediction_name_simple (video noise : string) :
  let name := (PyStr.splitext (PyStr.basename video)).1 +:+ "_"
              +:+ (PyStr.splitext (PyStr.basename noise)).1 in
  PyStr.has_char "/" name = false ∧ name ≠ "".
Proof.
  intros name. split.
  - unfold name. rewrite !has_char_app.
    rewrite !splitext_no_slash by apply basename_no_slash. done.
  - unfold name. by destruct (PyStr.splitext (PyStr.basename video)).1.
Qed.

Lemma split_slash_nonempty (s : string) : PyStr.split_slash s ≠ [].
Proof.
  destruct s as [|c s]; [done|]. cbn [PyStr.split_slash].
  destruct (Ascii.eqb c "/"); [done|]. by destruct (PyStr.split_slash s).
Qed.

Lemma split_slash_app_slash (a b : string) :
  PyStr.split_slash (a +:+ "/" +:+ b) = PyStr.split_slash a ++ PyStr.split_slash b.
Proof.
  induction a as [|c a IH]; [done|].
  rewrite str_app_cons. cbn [PyStr.split_slash].
  destruct (Ascii.eqb c "/"); rewrite IH; [done|].
  pose proof (split_slash_nonempty a).
  by destruct (PyStr.split_slash a).
Qed.

Lemma split_slash_simple (n : string) :
  PyStr.has_char "/" n = false → PyStr.split_slash n = [n].
Proof.
  induction n as [|c n IH]; [done|]. cbn [PyStr.has_char PyStr.split_slash].
  intros [-> Hn]%orb_false_elim. by rewrite IH.
Qed.

Lemma endswith_inv (c : ascii) (a : string) :
  PyStr.endswith c a = true → ∃ a', a = a' +:+ String c "".
Proof.
  induction a as [|x a IH]; [done|]. cbn [PyStr.endswith].
  destruct a as [|y a].
  - intros ->%Ascii.eqb_eq. by exists "".
  - intros [a' ->]%IH. by exists (String x a').
Qed.

Lemma startswith_simple (n : string) :
  PyStr.has_char "/" n = false → PyStr.startswith "/" n = false.
Proof. destruct n; [done|]. cbn. by intros [-> _]%orb_false_elim. Qed.

Lemma components_simple (n : string) :
  PyStr.has_char "/" n = false → n ≠ "" → PyStr.components n = [n].
Proof.
  intros Hn Hne. unfold PyStr.components. rewrite split_slash_simple by done.
  by rewrite filter_cons_True, filter_nil.
Qed.

(** Joining a directory and a simple name adds one component. *)
Lemma components_join (d n : string) :
  PyStr.has_char "/" n = false → n ≠ "" →
  PyStr.components (PyStr.path_join d n) = PyStr.components d ++ [n].
Proof.
  intros Hn Hne. unfold PyStr.path_join.
  rewrite startswith_simple by done.
  assert (∀ a, PyStr.components (a +:+ "/" +:+ n) = PyStr.components a ++ [n])
    as Hslash.
  { intros a. unfold PyStr.components.
    rewrite split_slash_app_slash, filter_app, (split_slash_simple n) by done.
    by rewrite filter_cons_True, filter_nil. }
  destruct (String.eqb_spec d "") as [->|Hd]; cbn [orb].
  - rewrite str_app_nil_l. by rewrite components_simple.
  - destruct (PyStr.endswith "/" d) eqn:Hend; [|apply Hslash].
    apply endswith_inv in Hend as [a' ->].
    rewrite str_app_assoc. change (String "/" "" +:+ n) with ("/" +:+ n).
    rewrite Hslash. f_equal.
    replace (a' +:+ "/") with (a' +:+ "/" +:+ "") by done.
    unfold PyStr.components.
    rewrite split_slash_app_slash, filter_app. cbn [PyStr.split_slash].
    rewrite filter_cons_False by (by intros []).
    by rewrite filter_nil, app_nil_r.
Qed.

Lemma path_join_nonempty (d n : string) : n ≠ "" → PyStr.path_join d n ≠ "".
Proof.
  intros Hn. unfold PyStr.path_join.
  destruct (PyStr.startswith "/" n); [done|].
  destruct (_ || _).
  - destruct d; [done|]. by rewrite str_app_cons.
  - destruct d; [|by rewrite str_app_cons]. done.
Qed.

Lemma endswith_str_app (suffix a b : string) :
  PyStr.endswith_str suffix b = true → PyStr.endswith_str suffix (a +:+ b) = true.
Proof.
  intros Hb. induction a as [|c a IH]; [done|].
  rewrite str_app_cons. cbn [PyStr.endswith_str]. rewrite IH. apply orb_true_r.
Qed.

Lemma endswith_str_join (suffix d n : string) :
  PyStr.has_char "/" n = false →
  PyStr.endswith_str suffix n = true →
  PyStr.endswith_str suffix (PyStr.path_join d n) = true.
Proof.
  intros Hn Hs. unfold PyStr.path_join. rewrite startswith_simple by done.
  destruct (_ || _); repeat apply endswith_str_app; done.
Qed.

(** ** The file system *)

Section fs_facts.
Context {C : Type}.
Implicit Types (fs : gmap (list string) (Fs.node C)) (k : list string).

Lemma parent_snoc k (n : string) : Fs.parent (k ++ [n]) = k.
Proof. apply removelast_last. Qed.

Lemma snoc_ne_nil k (n : string) : k ++ [n] ≠ [].
Proof. by destruct k. Qed.

Lemma snoc_ne_self k (n : string) : k ++ [n] ≠ k.
Proof. intros Heq. apply (f_equal length) in Heq. rewrite length_app in Heq. cbn in Heq. lia. Qed.

Lemma snoc_inj k k' (n n' : string) : k ++ [n] = k' ++ [n'] → k = k' ∧ n = n'.
Proof. intros Heq. apply app_inj_tail in Heq. done. Qed.

Lemma lookup_snoc fs k (n : string) : Fs.lookup fs (k ++ [n]) = fs !! (k ++ [n]).
Proof. unfold Fs.lookup. case_decide as Hk; [|done]. by apply snoc_ne_nil in Hk. Qed.

Lemma lookup_Some_stored fs k (x : Fs.node C) : fs !! k = Some x → k ≠ [] → Fs.lookup fs k = Some x.
Proof. intros Hk Hne. unfold Fs.lookup. by case_decide. Qed.

(** Below anything but a directory there is nothing. *)
Lemma lookup_child_None fs k (n : string) :
  Fs.wf fs → Fs.lookup fs k ≠ Some Fs.Dir → fs !! (k ++ [n]) = None.
Proof.
  intros Hwf Hk. destruct (fs !! (k ++ [n])) as [x|] eqn:Hx; [|done].
  apply Hwf in Hx as [_ Hp]. by rewrite parent_snoc in Hp.
Qed.

Lemma lookup_insert_keep fs k k' (x : Fs.node C) :
  Fs.lookup fs k' = Some Fs.Dir → k ≠ k' →
  Fs.lookup (<[k := x]> fs) k' = Some Fs.Dir.
Proof.
  unfold Fs.lookup. case_decide; [done|]. intros Hk Hne.
  by rewrite lookup_insert_ne.
Qed.

Lemma wf_insert_dir fs k :
  Fs.wf fs → k ≠ [] → Fs.lookup fs (Fs.parent k) = Some Fs.Dir →
  Fs.wf (<[k := Fs.Dir]> fs).
Proof.
  intros Hwf Hne Hp x n Hx.
  assert (∀ y, Fs.lookup fs y = Some Fs.Dir →
               Fs.lookup (<[k := Fs.Dir]> fs) y = Some Fs.Dir) as Hkeep.
  { intros y Hy. destruct (decide (k = y)) as [->|Hky].
    - unfold Fs.lookup. case_decide; [done|]. by rewrite lookup_insert_eq.
    - by apply lookup_insert_keep. }
  destruct (decide (k = x)) as [->|Hkx].
  - split; [done|]. by apply Hkeep.
  - rewrite lookup_insert_ne in Hx by done.
    apply Hwf in Hx as [Hx Hpx]. split; [done|]. by apply Hkeep.
Qed.

Lemma wf_insert_file fs k (n : string) (c : C) :
  Fs.wf fs → Fs.lookup fs k = Some Fs.Dir → fs !! (k ++ [n]) ≠ Some Fs.Dir →
  Fs.wf (<[k ++ [n] := Fs.File c]> fs).
Proof.
  intros Hwf Hk Hn x y Hx.
  destruct (decide (k ++ [n] = x)) as [<-|Hkx].
  - split; [apply snoc_ne_nil|]. rewrite parent_snoc.
    apply lookup_insert_keep; [done|apply snoc_ne_self].
  - rewrite lookup_insert_ne in Hx by done.
    apply Hwf in Hx as [Hx Hpx]. split; [done|].
    apply lookup_insert_keep; [done|].
    intros Heq. rewrite <- Heq, lookup_snoc in Hpx. done.
Qed.

Lemma wf_check_wf fs : Fs.wf_check fs = true → Fs.wf fs.
Proof.
  unfold Fs.wf_check. rewrite forallb_forall. intros Hall k n Hk.
  apply elem_of_map_to_list, list_elem_of_In in Hk.
  apply Hall in Hk. cbn [fst] in Hk.
  destruct k as [|a k]; [done|]. split; [done|].
  unfold Fs.is_dir in Hk. by destruct (Fs.lookup fs _) as [[|?]|].
Qed.

Lemma mkdir_Return (p : string) fs fs' :
  Fs.mkdir p fs = Return fs' →
  p ≠ "" ∧ Fs.lookup fs (PyStr.components p) = None
  ∧ Fs.lookup fs (Fs.parent (PyStr.components p)) = Some Fs.Dir
  ∧ fs' = <[PyStr.components p := Fs.Dir]> fs.
Proof.
  unfold Fs.mkdir. case_decide; [done|].
  destruct (Fs.lookup fs (PyStr.components p)); [done|].
  destruct (Fs.lookup fs (Fs.parent (PyStr.components p))) as [[|c]|]; [|done..].
  by intros [= <-].
Qed.

Lemma mkdir_exists (p : string) fs :
  p ≠ "" → is_Some (Fs.lookup fs (PyStr.components p)) →
  Fs.mkdir p fs = Raise (FileExistsError p).
Proof. intros Hp [x Hx]. unfold Fs.mkdir. case_decide; [done|]. by rewrite Hx. Qed.

Lemma mkdir_fresh (p : string) fs :
  p ≠ "" → Fs.lookup fs (PyStr.components p) = None →
  Fs.lookup fs (Fs.parent (PyStr.components p)) = Some Fs.Dir →
  Fs.mkdir p fs = Return (<[PyStr.components p := Fs.Dir]> fs).
Proof. intros Hp Hk Hpar. unfold Fs.mkdir. case_decide; [done|]. by rewrite Hk, Hpar. Qed.

Lemma dir_ready_insert fs k (n : string) (c : C) :
  Fs.dir_ready fs k → Fs.dir_ready (<[k ++ [n] := Fs.File c]> fs) k.
Proof.
  intros [Hk Hch]. split.
  - apply lookup_insert_keep; [done|apply snoc_ne_self].
  - intros n'. destruct (decide (k ++ [n] = k ++ [n'])) as [->|Hne].
    + by rewrite lookup_insert_eq.
    + rewrite lookup_insert_ne by done. apply Hch.
Qed.

Lemma dir_empty_fresh fs k :
  Fs.wf fs → k ≠ [] → Fs.lookup fs k = None →
  Fs.dir_empty (<[k := Fs.Dir]> fs) k.
Proof.
  intros Hwf Hne Hk. split.
  - unfold Fs.lookup. case_decide; [done|]. by rewrite lookup_insert_eq.
  - intros n. rewrite lookup_insert_ne by (symmetry; apply snoc_ne_self).
    apply lookup_child_None; [done|]. by rewrite Hk.
Qed.

Lemma dir_empty_ready fs k : Fs.dir_empty fs k → Fs.dir_ready fs k.
Proof. intros [Hk Hch]. split; [done|]. intros n. by rewrite Hch. Qed.

Lemma write_in_dir (d n : string) (c : C) fs :
  PyStr.has_char "/" n = false → n ≠ "" →
  Fs.dir_ready fs (PyStr.components d) →
  Fs.write (PyStr.path_join d n) c fs
  = Return (<[PyStr.components d ++ [n] := Fs.File c]> fs).
Proof.
  intros Hn Hne [Hk Hch]. unfold Fs.write.
  case_decide as Hp; [by apply path_join_nonempty in Hp|].
  rewrite components_join by done. rewrite lookup_snoc, parent_snoc, Hk.
  specialize (Hch n). by destruct (fs !! (PyStr.components d ++ [n])) as [[|?]|].
Qed.

End fs_facts.

(** ** Prediction storage *)

Section storage.
Context `{Collaborators}.
Implicit Types (fs : gmap (list string) (Fs.node content)) (w : world).

Lemma set_fs_id w : set_fs (w_fs w) w = w.
Proof. by destruct w. Qed.

Lemma save_to_wav_file_in_dir (s : Signal) (d n : string) w :
  PyStr.has_char "/" n = false → n ≠ "" →
  Fs.dir_ready (w_fs w) (PyStr.components d) →
  save_to_wav_file s (PyStr.path_join d n) w
  = (set_fs (<[PyStr.components d ++ [n] := Fs.File (WavFile s)]> (w_fs w)) w,
     Return tt).
Proof.
  intros Hn Hne Hd. unfold save_to_wav_file, fs_op.
  by rewrite write_in_dir.
Qed.

Lemma np_save_in_dir (a : list Row) (d n : string) w :
  PyStr.has_char "/" n = false → n ≠ "" →
  PyStr.endswith_str ".npy" n = true →
  Fs.dir_ready (w_fs w) (PyStr.components d) →
  np_save (PyStr.path_join d n) a w
  = (set_fs (<[PyStr.components d ++ [n] := Fs.File (NpyFile a)]> (w_fs w)) w,
     Return tt).
Proof.
  intros Hn Hne Hnpy Hd. unfold np_save, fs_op.
  rewrite endswith_str_join by done. by rewrite write_in_dir.
Qed.

Lemma copy2_in_empty_dir (src d n : string) fs :
  PyStr.has_char "/" n = false → n ≠ "" →
  Fs.dir_empty fs (PyStr.components d) →
  Fs.copy2 src (PyStr.path_join d n) fs
  = result_bind (Fs.read src fs)
      (λ c, Return (<[PyStr.components d ++ [n] := Fs.File c]> fs)).
Proof.
  intros Hn Hne Hd. unfold Fs.copy2.
  assert (Fs.lookup fs (PyStr.components (PyStr.path_join d n)) = None) as Hdst.
  { rewrite components_join, lookup_snoc by done. apply Hd. }
  assert (Fs.isdir (PyStr.path_join d n) fs = false) as ->.
  { unfold Fs.isdir. case_decide; [done|]. by rewrite Hdst. }
  assert (Fs.exists_ (PyStr.path_join d n) fs = false) as ->.
  { unfold Fs.exists_. case_decide; [done|]. rewrite Hdst.
    apply bool_decide_eq_false. by intros [??]. }
  rewrite andb_false_r. cbn [andb].
  destruct (Fs.read src fs) as [c|e]; [|done]. cbn [result_bind].
  apply write_in_dir; [done..|]. by apply dir_empty_ready.
Qed.

(** What [save_prediction] does to a well-formed file system, step by
    step: the speaker directory, the prediction directory, the copy of
    the source, the six other files. *)
Lemma save_prediction_run (self : PredictionStorage)
    (speaker_id video noise speech : string)
    (mixed_signal predicted nn : Signal) (enhanced_spec nn_spec mixed_spec : list Row) w :
  Fs.wf (w_fs w) →
  let speaker_dir := PyStr.path_join (base_dir self) speaker_id in
  let name := prediction_name video noise in
  let k := PyStr.components speaker_dir ++ [name] in
  save_prediction self speaker_id video noise speech mixed_signal predicted nn
    enhanced_spec nn_spec mixed_spec w
  = match (if Fs.exists_ speaker_dir (w_fs w) then Return (w_fs w)
           else Fs.mkdir speaker_dir (w_fs w)) with
    | Raise e => (w, Raise e)
    | Return fs1 =>
        match Fs.mkdir (PyStr.path_join speaker_dir name) fs1 with
        | Raise e => (set_fs fs1 w, Raise e)
        | Return fs2 =>
            match Fs.read speech fs2 with
            | Raise e => (set_fs fs2 w, Raise e)
            | Return c =>
                (set_fs (put_files k
                           (prediction_contents c mixed_signal predicted nn
                              mixed_spec enhanced_spec nn_spec) fs2) w,
                 Return tt)
            end
        end
    end.
Proof.
  intros Hwf speaker_dir name k.
  destruct (prediction_name_simple video noise) as [Hname Hne]. fold (prediction_name video noise) in Hname, Hne. fold name in Hname, Hne.
  unfold save_prediction, create_speaker_dir. fold speaker_dir.
  fold (prediction_name video noise). fold name.
  unfold mbind at 1, M_bind at 1. unfold mbind at 1, M_bind at 1.
  unfold mbind at 1, M_bind at 1. unfold fs_get at 1.
  assert (∃ w1 r1,
    (if Fs.exists_ speaker_dir (w_fs w) then mret tt
     else fs_op (Fs.mkdir speaker_dir)) w = (w1, r1)
    ∧ match (if Fs.exists_ speaker_dir (w_fs w) then Return (w_fs w)
             else Fs.mkdir speaker_dir (w_fs w)) with
      | Raise e => w1 = w ∧ r1 = Raise e
      | Return fs1 => w1 = set_fs fs1 w ∧ r1 = Return tt ∧ Fs.wf fs1
      end) as (w1 & r1 & -> & Hstep).
  { destruct (Fs.exists_ speaker_dir (w_fs w)).
    - exists w, (Return tt). rewrite set_fs_id. done.
    - unfold fs_op. destruct (Fs.mkdir speaker_dir (w_fs w)) as [fs1|e] eqn:Hmk.
      + exists (set_fs fs1 w), (Return tt).
        split; [done|]. split; [done|]. split; [done|].
        apply mkdir_Return in Hmk as (Hp & Hk & Hpar & ->).
        apply (wf_insert_dir _ _ Hwf); [|done].
        intros Heq. unfold Fs.lookup in Hk. by rewrite Heq in Hk.
      + by exists w, (Raise e). }
  destruct (if Fs.exists_ speaker_dir (w_fs w) then Return (w_fs w)
            else Fs.mkdir speaker_dir (w_fs w)) as [fs1|e];
    [destruct Hstep as (-> & -> & Hwf1)|by destruct Hstep as [-> ->]].
  unfold mret at 1, M_ret at 1.
  unfold mbind at 1, M_bind at 1. unfold fs_op at 1. cbn [w_fs set_fs].
  destruct (Fs.mkdir (PyStr.path_join speaker_dir name) fs1) as [fs2|e] eqn:Hmk;
    [|done].
  apply mkdir_Return in Hmk as (Hp & Hk & Hpar & ->).
  rewrite components_join in Hk, Hpar |- * by done. fold k in Hk, Hpar |- *.
  assert (Fs.dir_empty (<[k := Fs.Dir]> fs1)
            (PyStr.components (PyStr.path_join speaker_dir name))) as Hempty.
  { rewrite components_join by done. fold k.
    apply dir_empty_fresh; [done|apply snoc_ne_nil|done]. }
  unfold mbind at 1, M_bind at 1. unfold fs_op at 1. cbn [w_fs set_fs].
  rewrite copy2_in_empty_dir by done.
  destruct (Fs.read speech (<[k := Fs.Dir]> fs1)) as [c|e]; [|done].
  cbn [result_bind].
  apply dir_empty_ready in Hempty.
  repeat (unfold mbind at 1, M_bind at 1;
          first [rewrite save_to_wav_file_in_dir
                  by (done || cbn [w_fs set_fs]; repeat apply dir_ready_insert; done)
                |rewrite np_save_in_dir
                  by (done || cbn [w_fs set_fs]; repeat apply dir_ready_insert; done)];
          cbn [w_fs set_fs]).
  first [rewrite save_to_wav_file_in_dir
           by (done || cbn [w_fs set_fs]; repeat apply dir_ready_insert; done)
        |rewrite np_save_in_dir
           by (done || cbn [w_fs set_fs]; repeat apply dir_ready_insert; done)].
  cbn [w_fs set_fs]. rewrite components_join by done. fold k. done.
Qed.

End storage.

Section storage_facts.
Context `{Collaborators}.
Implicit Types (fs : gmap (list string) (Fs.node content)) (w : world)
  (k : list string) (files : list (string * content)).

Lemma lookup_put_files_other k files fs (x : list string) :
  (∀ n : string, x ≠ k ++ [n]) → put_files k files fs !! x = fs !! x.
Proof.
  intros Hx. induction files as [|[n c] files IH]; [done|].
  cbn [put_files foldr fst snd]. rewrite lookup_insert_ne by (intros Heq; by apply (Hx n)).
  exact IH.
Qed.

Lemma lookup_put_files_absent k files fs (n : string) :
  n ∉ files.*1 → put_files k files fs !! (k ++ [n]) = fs !! (k ++ [n]).
Proof.
  induction files as [|[m c] files IH]; [done|].
  cbn [fmap list_fmap fst]. intros [Hnm Hn]%not_elem_of_cons.
  cbn [put_files foldr fst snd].
  rewrite lookup_insert_ne by (intros [_ Heq]%snoc_inj; done).
  by apply IH.
Qed.

Lemma lookup_put_files_in k files fs (n : string) (c : content) :
  NoDup files.*1 → (n, c) ∈ files →
  put_files k files fs !! (k ++ [n]) = Some (Fs.File c).
Proof.
  induction files as [|[m d] files IH]; intros Hnd Hin.
  { by apply elem_of_nil in Hin. }
  cbn [fmap list_fmap fst] in Hnd. apply NoDup_cons in Hnd as [Hm Hnd].
  cbn [put_files foldr fst snd].
  apply elem_of_cons in Hin as [[= <- <-]|Hin].
  - by rewrite lookup_insert_eq.
  - rewrite lookup_insert_ne; [by apply IH|].
    intros [_ ->]%snoc_inj. apply Hm.
    apply list_elem_of_fmap. by exists (n, c).
Qed.

Lemma lookup_put_files_child k files fs (n : string) :
  put_files k files fs !! (k ++ [n]) = fs !! (k ++ [n])
  ∨ (n ∈ files.*1 ∧ ∃ c, put_files k files fs !! (k ++ [n]) = Some (Fs.File c)).
Proof.
  induction files as [|[m d] files IH]; [by left|].
  cbn [put_files foldr fst snd fmap list_fmap].
  destruct (decide (m = n)) as [->|Hmn].
  - right. split; [left|]. exists d. by rewrite lookup_insert_eq.
  - rewrite lookup_insert_ne by (intros [_ Heq]%snoc_inj; done).
    destruct IH as [IH|[Hin IH]]; [by left|right]. split; [by right|done].
Qed.

Lemma lookup_put_files_is_file k files fs (n : string) :
  n ∈ files.*1 → ∃ c, put_files k files fs !! (k ++ [n]) = Some (Fs.File c).
Proof.
  induction files as [|[m d] files IH]; intros Hin.
  { by apply elem_of_nil in Hin. }
  cbn [put_files foldr fst snd fmap list_fmap] in *.
  destruct (decide (m = n)) as [->|Hmn].
  - exists d. by rewrite lookup_insert_eq.
  - rewrite lookup_insert_ne by (intros [_ Heq]%snoc_inj; done).
    apply elem_of_cons in Hin as [?|Hin]; [done|]. by apply IH.
Qed.

Lemma put_files_ready k files fs :
  Fs.dir_ready fs k → Fs.dir_ready (put_files k files fs) k.
Proof.
  intros Hk. induction files as [|[n c] files IH]; [done|].
  cbn [put_files foldr fst snd]. by apply dir_ready_insert.
Qed.

Lemma wf_put_files k files fs :
  Fs.wf fs → Fs.dir_ready fs k → Fs.wf (put_files k files fs).
Proof.
  intros Hwf Hk. induction files as [|[n c] files IH]; [done|].
  cbn [put_files foldr fst snd].
  destruct (put_files_ready k files fs Hk) as [Hd Hch].
  by apply wf_insert_file.
Qed.

Lemma read_insert_fresh (p : string) (c : content) fs k (x : Fs.node content) :
  Fs.read p fs = Return c → Fs.lookup fs k = None →
  Fs.read p (<[k := x]> fs) = Return c.
Proof.
  unfold Fs.read. case_decide; [done|]. intros Hr Hk.
  destruct (decide (PyStr.components p = k)) as [Heq|Hne].
  - rewrite Heq, Hk in Hr. by destruct (Fs.lookup fs (Fs.parent k)) as [[|?]|].
  - replace (Fs.lookup (<[k := x]> fs) (PyStr.components p))
      with (Fs.lookup fs (PyStr.components p)).
    2:{ unfold Fs.lookup. case_decide; [done|]. by rewrite lookup_insert_ne. }
    destruct (Fs.lookup fs (PyStr.components p)) as [[|?]|]; [done|done|].
    by destruct (Fs.lookup fs (Fs.parent (PyStr.components p))) as [[|?]|].
Qed.

(** *** Counting the saved predictions *)

Lemma forallb_agree {A} (f g : A → bool) (l : list A) :
  (∀ x, x ∈ l → f x = g x) → forallb f l = forallb g l.
Proof.
  induction l as [|x l IH]; intros Hfg; [done|]. cbn.
  rewrite (Hfg x) by left. f_equal. apply IH. intros y Hy. apply Hfg. by right.
Qed.

Lemma elem_of_prediction_dirs fs k :
  k ∈ prediction_dirs fs ↔ holds_prediction fs k = true.
Proof.
  unfold prediction_dirs. rewrite elem_of_filter, elem_of_dom.
  split; [tauto|]. intros Hh. split; [done|].
  unfold holds_prediction in Hh. destruct (fs !! k); [eauto|done].
Qed.

Lemma holds_prediction_ext fs fs' (x : list string) :
  fs' !! x = fs !! x →
  (∀ n : string, is_file (fs' !! (x ++ [n])) = is_file (fs !! (x ++ [n]))) →
  holds_prediction fs' x = holds_prediction fs x.
Proof.
  intros Hx Hch. unfold holds_prediction. rewrite Hx.
  destruct (fs !! x) as [[|?]|]; [|done..].
  apply forallb_agree. intros n _. apply Hch.
Qed.

Lemma holds_prediction_empty fs k :
  (∀ n : string, fs !! (k ++ [n]) = None) → holds_prediction fs k = false.
Proof.
  intros Hch. unfold holds_prediction. destruct (fs !! k) as [[|?]|]; [|done..].
  cbn. by rewrite Hch.
Qed.

Lemma holds_prediction_not_dir fs k :
  fs !! k ≠ Some Fs.Dir → holds_prediction fs k = false.
Proof. unfold holds_prediction. by destruct (fs !! k) as [[|?]|]. Qed.

(** A new, empty directory is not a saved prediction and changes none. *)
Lemma prediction_dirs_insert_dir fs k :
  Fs.wf fs → k ≠ [] → Fs.lookup fs k = None →
  prediction_dirs (<[k := Fs.Dir]> fs) = prediction_dirs fs.
Proof.
  intros Hwf Hne Hk.
  assert (fs !! k = None) as Hk'.
  { unfold Fs.lookup in Hk. by case_decide. }
  apply set_eq. intros x. rewrite !elem_of_prediction_dirs.
  destruct (decide (x = k)) as [->|Hx].
  - rewrite (holds_prediction_empty (<[k := Fs.Dir]> fs)),
      (holds_prediction_not_dir fs); [done|by rewrite Hk'|].
    apply (dir_empty_fresh fs k Hwf Hne Hk).
  - rewrite (holds_prediction_ext fs (<[k := Fs.Dir]> fs)); [done|..].
    + by rewrite lookup_insert_ne.
    + intros n. destruct (decide (k = x ++ [n])) as [Heq|Hkn].
      * rewrite <- Heq, lookup_insert_eq, Hk'. done.
      * by rewrite lookup_insert_ne.
Qed.

(** Filling an empty directory with the files of a prediction adds it to
    the saved predictions and changes no other. *)
Lemma prediction_dirs_put_files k files fs :
  Fs.wf fs → k ≠ [] → Fs.dir_empty fs k →
  (∀ n, n ∈ prediction_files → n ∈ files.*1) →
  prediction_dirs (put_files k files fs) = {[k]} ∪ prediction_dirs fs
  ∧ k ∉ prediction_dirs fs.
Proof.
  intros Hwf Hne [Hk Hch] Hfiles.
  assert (fs !! k = Some Fs.Dir) as Hk'.
  { unfold Fs.lookup in Hk. by case_decide. }
  assert (holds_prediction fs k = false) as Hold
    by (by apply holds_prediction_empty).
  assert (holds_prediction (put_files k files fs) k = true) as Hnew.
  { unfold holds_prediction.
    rewrite lookup_put_files_other by (intros n; symmetry; apply snoc_ne_self).
    rewrite Hk'. apply forallb_forall. intros n Hn%list_elem_of_In.
    destruct (lookup_put_files_is_file k files fs n) as [c ->]; [|done].
    by apply Hfiles. }
  split; [|by rewrite elem_of_prediction_dirs, Hold].
  apply set_eq. intros x. rewrite elem_of_union, elem_of_singleton.
  rewrite !elem_of_prediction_dirs.
  destruct (decide (x = k)) as [->|Hx]; [tauto|].
  assert (holds_prediction (put_files k files fs) x = holds_prediction fs x)
    as ->; [|tauto].
  destruct (decide (x ≠ [] ∧ Fs.parent x = k)) as [[Hxne Hpar]|Hnot].
  - assert (∃ n, x = k ++ [n]) as [n ->].
    { exists (List.last x ""). rewrite <- Hpar. by apply app_removelast_last. }
    rewrite (holds_prediction_not_dir fs) by (by rewrite Hch).
    apply holds_prediction_not_dir.
    destruct (lookup_put_files_child k files fs n) as [->|[_ [c ->]]];
      [by rewrite Hch|done].
  - apply holds_prediction_ext.
    + apply lookup_put_files_other. intros n ->. apply Hnot.
      split; [apply snoc_ne_nil|apply parent_snoc].
    + intros n. rewrite lookup_put_files_other; [done|].
      intros m [? _]%snoc_inj. done.
Qed.

End storage_facts.

Section storage_claims.
Context `{Collaborators}.
Implicit Types (fs : gmap (list string) (Fs.node content)) (w : world)
  (k : list string).

Lemma prediction_contents_names (source : content) (ms ps ns : Signal)
    (mxs es nns : list Row) (n : string) :
  n ∈ (prediction_contents source ms ps ns mxs es nns).*1 ↔ n ∈ prediction_files.
Proof.
  cbn [prediction_contents fmap list_fmap fst]. unfold prediction_files.
  rewrite !elem_of_cons, !elem_of_nil. tauto.
Qed.

Lemma prediction_contents_NoDup (source : content) (ms ps ns : Signal)
    (mxs es nns : list Row) :
  NoDup (prediction_contents source ms ps ns mxs es nns).*1.
Proof.
  cbn [prediction_contents fmap list_fmap fst].
  apply (bool_decide_unpack _). vm_compute. exact I.
Qed.

Lemma exists_lookup (p : string) fs :
  p ≠ "" → Fs.exists_ p fs = bool_decide (is_Some (Fs.lookup fs (PyStr.components p))).
Proof. intros Hp. unfold Fs.exists_. by case_decide. Qed.

(** The first step of [save_prediction]: the speaker directory. *)
Lemma speaker_dir_step (speaker_dir : string) fs fs1 :
  Fs.wf fs →
  (if Fs.exists_ speaker_dir fs then Return fs else Fs.mkdir speaker_dir fs)
  = Return fs1 →
  Fs.wf fs1 ∧ prediction_dirs fs1 = prediction_dirs fs.
Proof.
  intros Hwf. destruct (Fs.exists_ speaker_dir fs).
  - by intros [= <-].
  - intros (Hp & Hk & Hpar & ->)%mkdir_Return.
    assert (PyStr.components speaker_dir ≠ []) as Hne.
    { intros Heq. unfold Fs.lookup in Hk. by rewrite Heq in Hk. }
    split; [by apply wf_insert_dir|by apply prediction_dirs_insert_dir].
Qed.

(** What a call of [save_prediction] leaves behind: one more saved
    prediction when it returns, none when it raises. *)
Lemma save_prediction_outcome (self : PredictionStorage)
    (speaker_id video noise speech : string)
    (ms ps ns : Signal) (es nns mxs : list Row) w w' (r : result unit) :
  Fs.wf (w_fs w) →
  save_prediction self speaker_id video noise speech ms ps ns es nns mxs w
  = (w', r) →
  let k := PyStr.components (PyStr.path_join (base_dir self) speaker_id)
           ++ [prediction_name video noise] in
  ∃ fs', w' = set_fs fs' w ∧ Fs.wf fs'
    ∧ match r with
      | Return _ =>
          prediction_dirs fs' = {[k]} ∪ prediction_dirs (w_fs w)
          ∧ k ∉ prediction_dirs (w_fs w)
      | Raise _ => prediction_dirs fs' = prediction_dirs (w_fs w)
      end.
Proof.
  intros Hwf Hrun k. rewrite save_prediction_run in Hrun by done.
  destruct (prediction_name_simple video noise) as [Hname Hne].
  fold (prediction_name video noise) in Hname, Hne.
  destruct (if Fs.exists_ _ _ then _ else _) as [fs1|e] eqn:Hstep.
  2:{ injection Hrun as <- <-. exists (w_fs w). by rewrite set_fs_id. }
  apply speaker_dir_step in Hstep as [Hwf1 Hd1]; [|done].
  destruct (Fs.mkdir _ fs1) as [fs2|e] eqn:Hmk.
  2:{ injection Hrun as <- <-. by exists fs1. }
  apply mkdir_Return in Hmk as (Hp & Hk & Hpar & ->).
  rewrite components_join in Hk, Hpar, Hrun by done.
  rewrite parent_snoc in Hpar. fold k in Hk, Hrun.
  assert (Fs.wf (<[k := Fs.Dir]> fs1)) as Hwf2.
  { apply wf_insert_dir; [done|apply snoc_ne_nil|]. unfold k. by rewrite parent_snoc. }
  assert (prediction_dirs (<[k := Fs.Dir]> fs1) = prediction_dirs (w_fs w)) as Hd2.
  { rewrite <- Hd1. apply prediction_dirs_insert_dir; [done|apply snoc_ne_nil|done]. }
  pose proof (dir_empty_fresh fs1 k Hwf1 (snoc_ne_nil _ _) Hk) as Hempty.
  destruct (Fs.read speech _) as [c|e].
  2:{ injection Hrun as <- <-. by eexists. }
  set (fs' := put_files _ _ _) in Hrun.
  injection Hrun as <- <-. exists fs'. split; [done|]. split.
  - apply wf_put_files; [done|by apply dir_empty_ready].
  - rewrite <- Hd2. apply prediction_dirs_put_files; [done|apply snoc_ne_nil|done|].
    intros n. by rewrite prediction_contents_names.
Qed.

(** C4.  In a well-formed file system where the speaker directory exists
    or can be created, the prediction directory does not exist yet and the
    clean-speech source can be read, [save_prediction] returns and has
    created the directory named after the video and the noise in the
    speaker directory, holding exactly the seven files, [source.wav] with
    the contents of the source; and calling it again with the same
    speaker and the same names raises [FileExistsError]. *)
Theorem save_prediction_creates (self : PredictionStorage)
    (speaker_id video noise speech : string)
    (ms ps ns : Signal) (es nns mxs : list Row) w (source : content) :
  let speaker_dir := PyStr.path_join (base_dir self) speaker_id in
  let name := prediction_name video noise in
  let ksd := PyStr.components speaker_dir in
  let k := ksd ++ [name] in
  Fs.wf (w_fs w) →
  speaker_dir ≠ "" →
  (Fs.lookup (w_fs w) ksd = Some Fs.Dir
   ∨ (Fs.lookup (w_fs w) ksd = None
      ∧ Fs.lookup (w_fs w) (Fs.parent ksd) = Some Fs.Dir)) →
  w_fs w !! k = None →
  Fs.read speech (w_fs w) = Return source →
  ∃ w',
    save_prediction self speaker_id video noise speech ms ps ns es nns mxs w
    = (w', Return tt)
    ∧ name = (PyStr.splitext (PyStr.basename video)).1 +:+ "_"
             +:+ (PyStr.splitext (PyStr.basename noise)).1
    ∧ Fs.wf (w_fs w')
    ∧ Fs.lookup (w_fs w') ksd = Some Fs.Dir
    ∧ w_fs w' !! k = Some Fs.Dir
    ∧ (∀ n, is_Some (w_fs w' !! (k ++ [n])) ↔ n ∈ prediction_files)
    ∧ w_fs w' !! (k ++ ["source.wav"]) = Some (Fs.File source)
    ∧ w_fs w' !! (k ++ ["mixture.wav"]) = Some (Fs.File (WavFile ms))
    ∧ w_fs w' !! (k ++ ["enhanced.wav"]) = Some (Fs.File (WavFile ps))
    ∧ w_fs w' !! (k ++ ["nn.wav"]) = Some (Fs.File (WavFile ns))
    ∧ w_fs w' !! (k ++ ["mixture.npy"]) = Some (Fs.File (NpyFile mxs))
    ∧ w_fs w' !! (k ++ ["enhanced.npy"]) = Some (Fs.File (NpyFile es))
    ∧ w_fs w' !! (k ++ ["nn.npy"]) = Some (Fs.File (NpyFile nns))
    ∧ ∀ video' noise' speech' ms' ps' ns' es' nns' mxs',
        prediction_name video' noise' = name →
        save_prediction self speaker_id video' noise' speech'
          ms' ps' ns' es' nns' mxs' w'
        = (w', Raise (FileExistsError (PyStr.path_join speaker_dir name))).
Proof.
  intros speaker_dir name ksd k Hwf Hsd Hspeaker Hfresh Hread.
  destruct (prediction_name_simple video noise) as [Hname Hne].
  fold (prediction_name video noise) in Hname, Hne. fold name in Hname, Hne.
  assert (Fs.lookup (w_fs w) k = None) as Hk by (unfold k; by rewrite lookup_snoc).
  (* the speaker directory *)
  assert (∃ fs1,
    (if Fs.exists_ speaker_dir (w_fs w) then Return (w_fs w)
     else Fs.mkdir speaker_dir (w_fs w)) = Return fs1
    ∧ Fs.wf fs1 ∧ Fs.lookup fs1 ksd = Some Fs.Dir ∧ Fs.lookup fs1 k = None
    ∧ Fs.read speech fs1 = Return source) as (fs1 & Hstep & Hwf1 & Hksd & Hk1 & Hread1).
  { destruct Hspeaker as [Hdir|[Hnone Hpar]].
    - exists (w_fs w). rewrite exists_lookup by done. fold ksd. rewrite Hdir.
      rewrite bool_decide_eq_true_2 by eauto. done.
    - exists (<[ksd := Fs.Dir]> (w_fs w)).
      rewrite exists_lookup by done. fold ksd. rewrite Hnone.
      rewrite bool_decide_eq_false_2 by (by intros [??]).
      rewrite mkdir_fresh by done. fold ksd.
      assert (ksd ≠ []) as Hksd.
      { intros Heq. unfold Fs.lookup in Hnone. by rewrite Heq in Hnone. }
      split; [done|]. split; [by apply wf_insert_dir|]. split; [|split].
      + unfold Fs.lookup. case_decide; [done|]. by rewrite lookup_insert_eq.
      + unfold k. rewrite lookup_snoc, lookup_insert_ne by (symmetry; apply snoc_ne_self).
        done.
      + by apply read_insert_fresh. }
  assert (Fs.mkdir (PyStr.path_join speaker_dir name) fs1
          = Return (<[k := Fs.Dir]> fs1)) as Hmk.
  { unfold k, ksd. rewrite <- (components_join speaker_dir name) by done.
    apply mkdir_fresh.
    - by apply path_join_nonempty.
    - rewrite components_join by done. exact Hk1.
    - rewrite components_join, parent_snoc by done. exact Hksd. }
  pose proof (read_insert_fresh speech source fs1 k Fs.Dir Hread1 Hk1) as Hread2.
  pose proof (dir_empty_fresh fs1 k Hwf1 (snoc_ne_nil _ _) Hk1) as [Hkd Hch].
  set (files := prediction_contents source ms ps ns mxs es nns).
  set (fs' := put_files k files (<[k := Fs.Dir]> fs1)).
  assert (Fs.wf fs') as Hwf'.
  { apply wf_put_files; [|by apply dir_empty_ready].
    apply wf_insert_dir; [done|apply snoc_ne_nil|]. unfold k. by rewrite parent_snoc. }
  assert (fs' !! k = Some Fs.Dir) as Hk'.
  { unfold fs'. rewrite lookup_put_files_other by (intros n; symmetry; apply snoc_ne_self).
    by rewrite lookup_insert_eq. }
  assert (Fs.lookup fs' ksd = Some Fs.Dir) as Hksd'.
  { apply Hwf' in Hk' as [_ Hp]. unfold k in Hp. by rewrite parent_snoc in Hp. }
  assert (∀ n c, (n, c) ∈ files → fs' !! (k ++ [n]) = Some (Fs.File c)) as Hfile.
  { intros n c Hin. apply lookup_put_files_in; [apply prediction_contents_NoDup|done]. }
  exists (set_fs fs' w). cbn [w_fs set_fs].
  split.
  { rewrite save_prediction_run by done.
    fold speaker_dir. fold name. fold ksd. fold k.
    by rewrite Hstep, Hmk, Hread2. }
  split; [done|]. split; [done|]. split; [done|]. split; [done|].
  split.
  { intros n. rewrite <- (prediction_contents_names source ms ps ns mxs es nns).
    fold files. split.
    - intros Hsome.
      destruct (lookup_put_files_child k files (<[k := Fs.Dir]> fs1) n)
        as [Heq|[Hin _]]; [|done].
      fold fs' in Heq. rewrite Heq, Hch in Hsome. by destruct Hsome.
    - intros Hin. destruct (lookup_put_files_is_file k files (<[k := Fs.Dir]> fs1) n Hin)
        as [c Hc]. fold fs' in Hc. rewrite Hc. eauto. }
  do 7 (split; [apply Hfile; unfold files, prediction_contents;
                rewrite !elem_of_cons; tauto|]).
  intros video' noise' speech' ms' ps' ns' es' nns' mxs' Hsame.
  rewrite save_prediction_run by done. cbn [w_fs set_fs].
  rewrite Hsame. fold speaker_dir. fold name.
  rewrite exists_lookup by done. fold ksd. rewrite Hksd'.
  rewrite bool_decide_eq_true_2 by eauto.
  rewrite mkdir_exists.
  - destruct w. done.
  - by apply path_join_nonempty.
  - rewrite components_join by done. rewrite lookup_snoc.
    fold ksd. fold k. rewrite Hk'. eauto.
Qed.

End storage_claims.

Lemma save_prediction_creates_witness :
  let self := {| base_dir := "/out" |} in
  let w := Demo.world0 [] in
  ∃ w',
    @save_prediction Demo.collaborators self "spk1" "/data/utt1.mp4"
      "/noise/n1.wav" "/data/s1.wav" 1 2 3 [4] [5] [6] w
    = (w', Return tt)
    ∧ w_fs w' !! ["out"; "spk1"; "utt1_n1"] = Some Fs.Dir
    ∧ w_fs w' !! ["out"; "spk1"; "utt1_n1"; "source.wav"]
      = Some (Fs.File (RawFile "RIFF-1"))
    ∧ @save_prediction Demo.collaborators self "spk1" "/data/utt1.mp4"
        "/noise/n1.wav" "/data/s1.wav" 1 2 3 [4] [5] [6] w'
      = (w', Raise (FileExistsError "/out/spk1/utt1_n1")).
Proof.
  intros self w.
  destruct (@save_prediction_creates Demo.collaborators self "spk1"
              "/data/utt1.mp4" "/noise/n1.wav" "/data/s1.wav" 1 2 3 [4] [5] [6]
              w (RawFile "RIFF-1"))
    as (w' & Hrun & _ & _ & _ & Hdir & _ & Hsource & _ & _ & _ & _ & _ & _ & Hagain).
  - apply wf_check_wf. vm_refl.
  - discriminate.
  - right. split; vm_refl.
  - vm_refl.
  - vm_refl.
  - exists w'. split; [exact Hrun|]. split; [exact Hdir|]. split; [exact Hsource|].
    apply Hagain. reflexivity.
Defined.

(** ** The prediction loop *)

Section loop.
Context `{Collaborators}.
Implicit Types (fs : gmap (list string) (Fs.node content)) (w : world).

(** The body of the [try] statement either raises before the storage is
    reached, leaving the files as they are, or ends with the outcome of
    [save_prediction]; it never logs. *)
Lemma predict_sample_body_cases (storage : PredictionStorage) (network : Net)
    (st : Stats) (speaker_id : string) (t : string * string * string)
    w w1 (r : result unit) :
  predict_sample_body storage network st speaker_id t w = (w1, r) →
  (∃ e, r = Raise e ∧ w_fs w1 = w_fs w ∧ w_log w1 = w_log w)
  ∨ (∃ w0 ms ps ns es nns mxs,
       w_fs w0 = w_fs w ∧ w_log w0 = w_log w
       ∧ save_prediction storage speaker_id t.1.1 t.2 t.1.2 ms ps ns es nns mxs w0
         = (w1, r)).
Proof.
  destruct t as [[video speech] noise]. unfold predict_sample_body.
  unfold normalize, net_evaluate, net_predict.
  unfold mbind, M_bind, mret, M_ret, lift, print, record. cbn [fst snd].
  destruct (preprocess_sample video speech noise)
    as [[[[[[[vs mx] sp] no] sig] peak] rate]|e];
    [|intros [= <- <-]; left; eexists; split; [reflexivity|split; reflexivity]].
  destruct (video_normalizer_normalize st vs) as [vs'|e];
    [|intros [= <- <-]; left; eexists; split; [reflexivity|split; reflexivity]].
  destruct (network_evaluate network mx vs' sp) as [loss|e];
    [|intros [= <- <-]; left; eexists; split; [reflexivity|split; reflexivity]].
  destruct (network_predict network mx vs') as [pred|e];
    [|intros [= <- <-]; left; eexists; split; [reflexivity|split; reflexivity]].
  destruct (reconstruct_spectrograms pred mx sp) as [[[enh mix] nnspec]|e];
    [|intros [= <- <-]; left; eexists; split; [reflexivity|split; reflexivity]].
  destruct (reconstruct_speech_signal sig enh rate peak) as [esig|e];
    [|intros [= <- <-]; left; eexists; split; [reflexivity|split; reflexivity]].
  destruct (reconstruct_speech_signal sig nnspec rate peak) as [nsig|e];
    [|intros [= <- <-]; left; eexists; split; [reflexivity|split; reflexivity]].
  intros Hsave. right. eexists _, _, _, _, _, _, _.
  split; [|split; [|exact Hsave]]; reflexivity.
Qed.

(** One iteration: the world it leaves is well-formed; a body that ran to
    the end saved one more prediction and logged nothing, a body that
    raised saved none and logged one failure; the iteration itself never
    raises. *)
Lemma predict_sample_step (storage : PredictionStorage) (network : Net)
    (st : Stats) (speaker_id : string) (t : string * string * string) w :
  Fs.wf (w_fs w) →
  let body := predict_sample_body storage network st speaker_id t w in
  let step := predict_sample storage network st speaker_id t w in
  step.2 = Return tt
  ∧ Fs.wf (w_fs step.1)
  ∧ (if returned body.2
     then size (prediction_dirs (w_fs step.1)) = S (size (prediction_dirs (w_fs w)))
          ∧ w_log step.1 = w_log w
     else size (prediction_dirs (w_fs step.1)) = size (prediction_dirs (w_fs w))
          ∧ ∃ e, w_log step.1
                 = w_log w ++ [("failed to predict " +:+ t.1.1 +:+ ". skipping", e)]).
Proof.
  intros Hwf body step. subst step. unfold predict_sample, try_except.
  subst body.
  destruct (predict_sample_body storage network st speaker_id t w)
    as [w1 r] eqn:Hbody.
  apply predict_sample_body_cases in Hbody
    as [(e & -> & Hfs & Hlog)
       |(w0 & ms & ps & ns & es & nns & mxs & Hfs & Hlog & Hsave)].
  - cbn [fst snd returned logging_exception w_fs w_log].
    rewrite Hfs, Hlog. split; [done|]. split; [done|]. split; [done|]. by exists e.
  - apply save_prediction_outcome in Hsave as (fs' & -> & Hwf' & Hdirs);
      [|by rewrite Hfs].
    rewrite Hfs in Hdirs.
    destruct r as [[]|e]; cbn [fst snd returned logging_exception w_fs w_log set_fs].
    + destruct Hdirs as [-> Hnew]. split; [done|]. split; [done|]. split; [|done].
      rewrite size_union by (by apply disjoint_singleton_l).
      by rewrite size_singleton.
    + rewrite Hdirs, Hlog. split; [done|]. split; [done|]. split; [done|]. by exists e.
Qed.

(** C2.  The inner loop of [predict] never raises: an exception raised
    while a triple is processed, at whatever stage, is logged with the
    path of the video and the loop goes on with the next triple.  Every
    triple is attempted; each body that runs to the end adds one saved
    prediction directory, each body that raises adds one entry to the log
    and no saved prediction.  With five triples of which exactly the
    third raises, four prediction directories are saved and one failure
    is logged. *)
Theorem predict_triples_resilient (storage : PredictionStorage) (network : Net)
    (st : Stats) (speaker_id : string)
    (triples : list (string * string * string)) w :
  Fs.wf (w_fs w) →
  let run := predict_triples storage network st speaker_id triples w in
  let out := outcomes storage network st speaker_id triples w in
  run.2 = Return tt
  ∧ length out = length triples
  ∧ size (prediction_dirs (w_fs run.1))
    = size (prediction_dirs (w_fs w)) + length (filter (λ b, b = true) out)
  ∧ (∃ failures,
       w_log run.1 = w_log w ++ failures
       ∧ length failures = length (filter (λ b, b = false) out)
       ∧ Forall (λ entry, ∃ t, t ∈ triples
                   ∧ entry.1 = "failed to predict " +:+ t.1.1 +:+ ". skipping")
                failures)
  ∧ (out = [true; true; false; true; true] →
     size (prediction_dirs (w_fs run.1)) = size (prediction_dirs (w_fs w)) + 4
     ∧ length (w_log run.1) = length (w_log w) + 1).
Proof.
  intros Hwf run out.
  assert (run.2 = Return tt
    ∧ length out = length triples
    ∧ size (prediction_dirs (w_fs run.1))
      = size (prediction_dirs (w_fs w)) + length (filter (λ b, b = true) out)
    ∧ (∃ failures,
         w_log run.1 = w_log w ++ failures
         ∧ length failures = length (filter (λ b, b = false) out)
         ∧ Forall (λ entry, ∃ t, t ∈ triples
                     ∧ entry.1 = "failed to predict " +:+ t.1.1 +:+ ". skipping")
                  failures)) as Hgen.
  { subst run out. revert w Hwf.
    induction triples as [|t triples IH]; intros w Hwf.
    - cbn. split; [done|]. split; [done|]. split; [lia|].
      exists []. by rewrite app_nil_r.
    - destruct (predict_sample_step storage network st speaker_id t w Hwf)
        as (Hret & Hwf1 & Hstep).
      unfold predict_triples in *. cbn [outcomes].
      destruct (predict_sample storage network st speaker_id t w) as [w1 r1] eqn:Hsample.
      cbn [fst snd] in *. subst r1.
      assert (for_each (t :: triples) (predict_sample storage network st speaker_id) w
              = for_each triples (predict_sample storage network st speaker_id) w1)
        as ->.
      { cbn [for_each]. unfold mbind, M_bind. by rewrite Hsample. }
      destruct (IH w1 Hwf1) as (IHret & IHlen & IHdirs & failures & IHlog & IHn & IHall).
      split; [done|]. split; [cbn; by rewrite IHlen|].
      assert (Forall (λ entry : string * exn, ∃ t0, t0 ∈ t :: triples
                ∧ entry.1 = "failed to predict " +:+ t0.1.1 +:+ ". skipping")
              failures) as IHall'.
      { eapply Forall_impl; [exact IHall|]. intros entry (t0 & Ht0 & Hmsg).
        exists t0. split; [by right|done]. }
      destruct (returned _).
      + destruct Hstep as [Hsize Hlog].
        rewrite filter_cons_True by done.
        rewrite filter_cons_False by done.
        split; [rewrite IHdirs, Hsize; cbn; lia|].
        exists failures. by rewrite IHlog, Hlog.
      + destruct Hstep as [Hsize [e Hlog]].
        rewrite filter_cons_False by done.
        rewrite filter_cons_True by done.
        split; [by rewrite IHdirs, Hsize|].
        exists (("failed to predict " +:+ t.1.1 +:+ ". skipping", e) :: failures).
        split; [by rewrite IHlog, Hlog, <- app_assoc|].
        split; [cbn; by rewrite IHn|].
        constructor; [|done]. exists t. split; [left|done]. }
  destruct Hgen as (Hret & Hlen & Hdirs & failures & Hlog & Hn & Hall).
  split; [done|]. split; [done|]. split; [done|]. split; [by exists failures|].
  intros Hout. rewrite Hout in Hdirs, Hn. split; [exact Hdirs|].
  rewrite Hlog, length_app, Hn. done.
Qed.

End loop.

Lemma predict_triples_resilient_witness :
  let storage := {| base_dir := "/out" |} in
  let w := Demo.world0 [] in
  let run := @predict_triples Demo.collaborators storage 0 0 "spk1" Demo.triples5 w in
  @outcomes Demo.collaborators storage 0 0 "spk1" Demo.triples5 w
  = [true; true; false; true; true]
  ∧ run.2 = Return tt
  ∧ size (prediction_dirs (w_fs run.1)) = 4
  ∧ length (w_log run.1) = 1.
Proof.
  intros storage w run.
  assert (@outcomes Demo.collaborators storage 0 0 "spk1" Demo.triples5 w
          = [true; true; false; true; true]) as Hout by vm_refl.
  destruct (@predict_triples_resilient Demo.collaborators storage 0 0 "spk1"
              Demo.triples5 w)
    as (Hret & _ & _ & _ & Hfive).
  - apply wf_check_wf. vm_refl.
  - destruct (Hfive Hout) as [Hdirs Hlog].
    split; [exact Hout|]. split; [exact Hret|]. split; [exact Hdirs|exact Hlog].
Defined.

(** ** Frames: what a computation leaves alone *)

Section frames.
Context `{Collaborators}.
Implicit Types (w : world).

Lemma bind_inv {A B} (m : M A) (k : A → M B) w w' (r : result B) :
  (m ≫= k) w = (w', r) →
  (∃ e, m w = (w', Raise e) ∧ r = Raise e)
  ∨ (∃ w1 a, m w = (w1, Return a) ∧ k a w1 = (w', r)).
Proof.
  unfold mbind, M_bind. destruct (m w) as [w1 [a|e]].
  - intros Hk. right. by exists w1, a.
  - intros [= <- <-]. left. by exists e.
Qed.

Lemma preserves_ret {A B} (part : world → B) (a : A) : preserves part (mret a).
Proof. by intros w w' r [= <- _]. Qed.

Lemma preserves_lift {A B} (part : world → B) (x : result A) :
  preserves part (lift x).
Proof. by intros w w' r [= <- _]. Qed.

Lemma preserves_bind {A A' B} (part : world → B) (m : M A) (k : A → M A') :
  preserves part m → (∀ a, preserves part (k a)) → preserves part (m ≫= k).
Proof.
  intros Hm Hk w w' r [(e & Hrun & _)|(w1 & a & Hrun & Hrest)]%bind_inv.
  - by apply Hm in Hrun.
  - apply Hm in Hrun. apply Hk in Hrest. congruence.
Qed.

Lemma preserves_map_m {A A' B} (part : world → B) (f : A → M A') (l : list A) :
  (∀ x, preserves part (f x)) → preserves part (map_m f l).
Proof.
  intros Hf. induction l as [|x l IH]; cbn [map_m].
  - apply preserves_ret.
  - apply preserves_bind; [apply Hf|]. intros y.
    apply preserves_bind; [apply IH|]. intros ys. apply preserves_ret.
Qed.

Lemma preserves_for_each {A B} (part : world → B) (l : list A)
    (body : A → M unit) :
  (∀ x, preserves part (body x)) → preserves part (for_each l body).
Proof.
  intros Hf. induction l as [|x l IH]; cbn [for_each].
  - apply preserves_ret.
  - apply preserves_bind; [apply Hf|]. intros _. apply IH.
Qed.

Lemma preserves_fs_get {A B} (part : world → B)
    (f : gmap (list string) (Fs.node content) → A) :
  preserves part (fs_get f).
Proof. by intros w w' r [= <- _]. Qed.

Lemma preserves_fs_read {B} (part : world → B) (path : string) :
  preserves part (fs_read path).
Proof. by intros w w' r [= <- _]. Qed.

Lemma preserves_net_load {B} (part : world → B) (dir : string) :
  preserves part (net_load dir).
Proof.
  intros w w' r. unfold net_load. by destruct (w_models w !! dir); intros [= <- _].
Qed.

(** *** The calls *)

Lemma calls_print (line : string) : preserves w_calls (print line).
Proof. by intros w w' r [= <- _]. Qed.

Lemma calls_logging_exception (msg : string) (e : exn) :
  preserves w_calls (logging_exception msg e).
Proof. by intros w w' r [= <- _]. Qed.

Lemma calls_fs_op f : preserves w_calls (fs_op f).
Proof.
  intros w w' r. unfold fs_op. by destruct (f (w_fs w)); intros [= <- _].
Qed.

Lemma calls_random_shuffle {A} (l : list A) : preserves w_calls (random_shuffle l).
Proof. intros w w' r. rewrite random_shuffle_world. by intros [= <- _]. Qed.

Lemma calls_np_random_permutation (n : nat) :
  preserves w_calls (np_random_permutation n).
Proof.
  intros w w' r. unfold np_random_permutation.
  destruct (Rng.permutation n (w_rng w)). by intros [= <- _].
Qed.

Lemma calls_net_save (network : Net) (dir : string) :
  preserves w_calls (net_save network dir).
Proof. by intros w w' r [= <- _]. Qed.

(** *** The files *)

Lemma files_print (line : string) : preserves w_fs (print line).
Proof. by intros w w' r [= <- _]. Qed.

Lemma files_random_shuffle {A} (l : list A) : preserves w_fs (random_shuffle l).
Proof. intros w w' r. rewrite random_shuffle_world. by intros [= <- _]. Qed.

Lemma files_np_random_permutation (n : nat) :
  preserves w_fs (np_random_permutation n).
Proof.
  intros w w' r. unfold np_random_permutation.
  destruct (Rng.permutation n (w_rng w)). by intros [= <- _].
Qed.

End frames.

(** A computation put together from the pieces above leaves the calls, or
    the files, alone. *)
Ltac frame_step :=
  first
    [ apply preserves_ret | apply preserves_lift
    | apply preserves_fs_get | apply preserves_fs_read | apply preserves_net_load
    | apply calls_print | apply calls_logging_exception | apply calls_fs_op
    | apply calls_random_shuffle | apply calls_np_random_permutation
    | apply calls_net_save
    | apply files_print | apply files_random_shuffle
    | apply files_np_random_permutation
    | apply preserves_map_m; intros ?
    | apply preserves_for_each; intros ?
    | apply preserves_bind; [|intros ?]
    | lazymatch goal with
      | |- preserves _ (match ?x with _ => _ end) => destruct x
      end ].

Ltac frame := repeat frame_step.

Section frames_script.
Context `{Collaborators}.
Implicit Types (w : world).







Lemma save_prediction_calls (self : PredictionStorage)
    (speaker_id video noise speech : string)
    (ms ps ns : Signal) (es nns mxs : list Row) :
  preserves w_calls
    (save_prediction self speaker_id video noise speech ms ps ns es nns mxs).
Proof.
  unfold save_prediction, create_speaker_dir, save_to_wav_file, np_save. frame.
Qed.

End frames_script.

(** ** The calls of a computation *)

Section calls.
Context `{Collaborators}.
Implicit Types (w : world) (P : call → Prop).














End calls.

(** ** The normalizer state *)


Section normalizer.
Context `{Collaborators}.
Implicit Types (w : world).




End normalizer.


(** * Further properties *)

(** ** The speaker list as a multiset *)

Lemma remove_Permutation (x : string) (l r : list string) :
  PyList.remove x l = Return r → l ≡ₚ x :: r ∧ r `sublist_of` l.
Proof.
  revert r. induction l as [|y l IH]; intros r; cbn [PyList.remove]; [done|].
  case_decide as Hy.
  - intros [= <-]. subst. split; [done|]. by apply sublist_cons.
  - destruct (PyList.remove x l) as [r'|e]; cbn [result_bind]; [|done].
    intros [= <-]. destruct (IH r' eq_refl) as [Hperm Hsub]. split.
    + rewrite Hperm. apply Permutation_swap.
    + by apply sublist_skip.
Qed.

Lemma remove_each_Permutation (xs l r : list string) :
  PyList.remove_each xs l = Return r → l ≡ₚ xs ++ r ∧ r `sublist_of` l.
Proof.
  revert l. induction xs as [|x xs IH]; intros l; cbn [PyList.remove_each].
  - by intros [= <-].
  - destruct (PyList.remove x l) as [l1|e] eqn:Hx; cbn [result_bind]; [|done].
    apply remove_Permutation in Hx as [Hperm Hsub].
    intros [Hperm1 Hsub1]%IH. split.
    + rewrite Hperm, Hperm1. done.
    + by etrans.
Qed.

Lemma remove_each_returns (xs l : list string) :
  (∃ r, PyList.remove_each xs l = Return r) ↔ xs ⊆+ l.
Proof.
  split.
  - intros [r [Hperm _]%remove_each_Permutation].
    rewrite Hperm. by apply submseteq_inserts_r.
  - revert l. induction xs as [|x xs IH]; intros l Hsub; cbn [PyList.remove_each].
    + by exists l.
    + destruct (PyList.remove x l) as [l1|e] eqn:Hx; cbn [result_bind].
      * apply IH. apply remove_Permutation in Hx as [Hperm _].
        rewrite Hperm in Hsub. by apply (submseteq_app_inv_l _ _ [x]).
      * apply remove_Raise in Hx as [Hx _]. destruct Hx.
        apply (elem_of_submseteq (x :: xs)); [left|done].
Qed.

Section indexer_more.
Context `{Collaborators}.

(** X1.  With an ignore list, [list_speakers] takes one occurrence of each
    ignored identifier, counted as often as it is listed, out of the base
    list and keeps the order of the rest; it returns exactly when the base
    list holds every identifier at least as often as the ignore list
    names it, and changes nothing in the world. *)
Theorem list_speakers_takes_one_each (args : Args) (w : world)
    (base ignored : list string) :
  (speakers args = Some base
   ∨ (speakers args = None
      ∧ dataset_speakers (dataset_dir args) = Return base)) →
  ignored_speakers args = Some ignored →
  (∀ w' r, list_speakers args w = (w', Return r) →
     w' = w ∧ base ≡ₚ ignored ++ r ∧ r `sublist_of` base)
  ∧ ((∃ r, (list_speakers args w).2 = Return r) ↔ ignored ⊆+ base).
Proof.
  intros Hbase Hign.
  assert (list_speakers args w = (w, PyList.remove_each ignored base)) as ->.
  { unfold list_speakers. rewrite Hign.
    destruct Hbase as [->|[-> Hds]]; munfold; [done|]. by rewrite Hds. }
  split.
  - intros w' r [= <- Hr]. split; [done|]. by apply remove_each_Permutation.
  - cbn [snd]. apply remove_each_returns.
Qed.

End indexer_more.

Lemma list_speakers_takes_one_each_witness :
  ["A"; "B"; "B"] ≡ₚ ["B"] ++ ["A"; "B"] ∧ ["B"] ⊆+ ["A"; "B"; "B"].
Proof.
  pose proof (@list_speakers_takes_one_each Demo.collaborators
                Demo.args_repeated (Demo.world0 []) ["A"; "B"; "B"] ["B"]
                (or_introl eq_refl) eq_refl) as [Hret Hiff].
  split.
  - exact (proj1 (proj2 (Hret (Demo.world0 []) ["A"; "B"] eq_refl))).
  - apply Hiff. exists ["A"; "B"]. reflexivity.
Defined.

(** ** The aggregator: failures, output and bounds *)

Section aggregator_more.
Context `{Collaborators}.
Implicit Types (w : world)
  (blobs : list (list Row * list Row * list Row * list Row)).

Lemma printed_nil w : printed [] w = w.
Proof. destruct w. unfold printed. cbn. by rewrite app_nil_r. Qed.

Lemma printed_printed (a b : list string) w :
  printed b (printed a w) = printed (a ++ b) w.
Proof. unfold printed. cbn. by rewrite app_assoc. Qed.

Lemma print_printed (line : string) w : print line w = (printed [line] w, Return tt).
Proof. done. Qed.

Lemma load_blob_printed (path : string)
    (b : list Row * list Row * list Row * list Row) w :
  holds_blob (w_fs w) path b →
  load_blob path w = (printed [loading_line path] w, Return b).
Proof. intros Hb. by rewrite (load_blob_holds _ _ _ Hb). Qed.

Lemma load_blobs_printed (paths : list string) blobs w :
  Forall2 (holds_blob (w_fs w)) paths blobs →
  map_m load_blob paths w = (printed (loading_line <$> paths) w, Return blobs).
Proof.
  intros Hall. revert w Hall.
  induction paths as [|p paths IH] in blobs |- *; intros w Hall.
  - apply Forall2_nil_inv_l in Hall as ->. by rewrite printed_nil.
  - apply Forall2_cons_inv_l in Hall as (b & blobs' & Hb & Hall & ->).
    cbn [map_m]. unfold mbind at 1, M_bind at 1.
    rewrite (load_blob_printed _ _ _ Hb).
    unfold mbind, M_bind. rewrite (IH blobs') by done.
    by rewrite printed_printed.
Qed.

(** The loading stops at the first archive that cannot be loaded. *)
Lemma load_blobs_stop (pre post : list string) (p : string) blobs (e : exn) w :
  Forall2 (holds_blob (w_fs w)) pre blobs →
  (∀ w0, w_fs w0 = w_fs w →
         load_blob p w0 = (printed [loading_line p] w0, Raise e)) →
  map_m load_blob (pre ++ p :: post) w
  = (printed (loading_line <$> pre ++ [p]) w, Raise e).
Proof.
  intros Hall Hp. revert w Hall Hp.
  induction pre as [|q pre IH] in blobs |- *; intros w Hall Hp.
  - cbn [app map_m]. unfold mbind, M_bind. by rewrite Hp.
  - apply Forall2_cons_inv_l in Hall as (b & blobs' & Hb & Hall & ->).
    cbn [app map_m]. unfold mbind at 1, M_bind at 1.
    rewrite (load_blob_printed _ _ _ Hb).
    unfold mbind, M_bind. rewrite (IH blobs') by done.
    by rewrite printed_printed.
Qed.

Lemma load_blob_unreadable (path : string) (e : exn) w :
  Fs.read path (w_fs w) = Raise e →
  load_blob path w = (printed [loading_line path] w, Raise e).
Proof.
  intros Hread. unfold load_blob, np_load. munfold.
  cbn [print fst snd w_fs]. by rewrite Hread.
Qed.

Lemma load_blob_missing (path name : string) (arrays : gmap string (list Row)) w :
  Fs.read path (w_fs w) = Return (NpzFile arrays) →
  first_missing arrays = Some name →
  load_blob path w = (printed [loading_line path] w, Raise (KeyError name)).
Proof.
  intros Hread. unfold first_missing, blob_arrays. cbn [find].
  unfold load_blob, np_load, npz_get. munfold.
  cbn [print fst snd w_fs]. rewrite Hread.
  destruct (arrays !! "video_samples") as [v|].
  2:{ rewrite bool_decide_eq_true_2 by done. by intros [= <-]. }
  rewrite bool_decide_eq_false_2 by done.
  destruct (arrays !! "mixed_spectrograms") as [m|].
  2:{ rewrite bool_decide_eq_true_2 by done. by intros [= <-]. }
  rewrite bool_decide_eq_false_2 by done.
  destruct (arrays !! "speech_spectrograms") as [s|].
  2:{ rewrite bool_decide_eq_true_2 by done. by intros [= <-]. }
  rewrite bool_decide_eq_false_2 by done.
  destruct (arrays !! "noise_spectrograms") as [n|].
  2:{ rewrite bool_decide_eq_true_2 by done. by intros [= <-]. }
  by rewrite bool_decide_eq_false_2 by done.
Qed.

Lemma load_preprocessed_samples_stop (pre post : list string) (p : string)
    blobs (e : exn) (max_samples : option Z) w :
  Forall2 (holds_blob (w_fs w)) pre blobs →
  (∀ w0, w_fs w0 = w_fs w →
         load_blob p w0 = (printed [loading_line p] w0, Raise e)) →
  load_preprocessed_samples (pre ++ p :: post) max_samples w
  = (printed (loading_line <$> pre ++ [p]) w, Raise e).
Proof.
  intros Hall Hp. unfold load_preprocessed_samples.
  unfold mbind at 1, M_bind at 1. by rewrite (load_blobs_stop _ _ _ blobs e).
Qed.

(** X2.  An archive that lacks one of the four arrays stops the aggregator
    with a [KeyError] for the first array that is missing, in the order
    video, mixed, speech, noise, whatever the later archives hold: the
    archives before it were loaded, those after it are not opened, and
    all that is left behind are the lines printed so far. *)
Theorem load_preprocessed_samples_missing_array (pre post : list string)
    (p name : string) blobs (arrays : gmap string (list Row))
    (max_samples : option Z) w :
  Forall2 (holds_blob (w_fs w)) pre blobs →
  Fs.read p (w_fs w) = Return (NpzFile arrays) →
  first_missing arrays = Some name →
  load_preprocessed_samples (pre ++ p :: post) max_samples w
  = (printed (loading_line <$> pre ++ [p]) w, Raise (KeyError name))
  ∧ name ∈ blob_arrays ∧ arrays !! name = None.
Proof.
  intros Hall Hread Hmiss. split.
  - apply (load_preprocessed_samples_stop _ _ _ blobs); [done|].
    intros w0 Hfs. apply (load_blob_missing _ _ arrays); [by rewrite Hfs|done].
  - unfold first_missing in Hmiss. apply find_some in Hmiss as [Hin Hnone].
    split; [by apply list_elem_of_In|]. by apply bool_decide_eq_true_1 in Hnone.
Qed.

(** X3.  A path that cannot be read stops the aggregator with the error of the
    read: the archives before it were loaded, those after it are not
    opened.  When there is nothing at the path, the error is
    [FileNotFoundError] if the directory of the path exists, and
    [NotADirectoryError] if a regular file is in the place of that
    directory. *)
Theorem load_preprocessed_samples_unreadable (pre post : list string)
    (p : string) blobs (e : exn) (max_samples : option Z) w :
  Forall2 (holds_blob (w_fs w)) pre blobs →
  Fs.read p (w_fs w) = Raise e →
  load_preprocessed_samples (pre ++ p :: post) max_samples w
  = (printed (loading_line <$> pre ++ [p]) w, Raise e)
  ∧ (Fs.lookup (w_fs w) (PyStr.components p) = None →
     (Fs.lookup (w_fs w) (Fs.parent (PyStr.components p)) = Some Fs.Dir →
      e = FileNotFoundError p)
     ∧ ∀ c, Fs.lookup (w_fs w) (Fs.parent (PyStr.components p))
            = Some (Fs.File c) →
            e = NotADirectoryError p).
Proof.
  intros Hall Hread. split.
  - apply (load_preprocessed_samples_stop _ _ _ blobs); [done|].
    intros w0 Hfs. apply load_blob_unreadable. by rewrite Hfs.
  - intros Hnone. unfold Fs.read in Hread.
    case_decide as Hp; [by rewrite Hp in Hnone|].
    rewrite Hnone in Hread. split.
    + intros Hdir. rewrite Hdir in Hread. by injection Hread.
    + intros c Hfile. rewrite Hfile in Hread. by injection Hread.
Qed.

End aggregator_more.

Lemma load_preprocessed_samples_missing_array_witness :
  @load_preprocessed_samples Demo.collaborators
    (["/blobs/a.npz"] ++ "/blobs/no_noise.npz" :: ["/blobs/b.npz"]) None
    (Cases.world1 [])
  = (printed ["loading preprocessed samples from /blobs/a.npz";
              "loading preprocessed samples from /blobs/no_noise.npz"]
       (Cases.world1 []),
     Raise (KeyError "noise_spectrograms")).
Proof.
  refine (proj1 (@load_preprocessed_samples_missing_array Demo.collaborators
    ["/blobs/a.npz"] ["/blobs/b.npz"] "/blobs/no_noise.npz" "noise_spectrograms"
    [([1; 2], [101; 102], [201; 202], [301; 302])] Cases.blob_no_noise None
    (Cases.world1 []) _ _ _)).
  - constructor; [|constructor]. exists Demo.blob_a.
    split; [vm_refl|]. repeat split; vm_refl.
  - vm_refl.
  - vm_refl.
Defined.

Lemma load_preprocessed_samples_unreadable_witness :
  @load_preprocessed_samples Demo.collaborators
    (["/blobs/a.npz"] ++ "/blobs/b.npz/x" :: ["/blobs/none.npz"]) None
    (Cases.world1 [])
  = (printed ["loading preprocessed samples from /blobs/a.npz";
              "loading preprocessed samples from /blobs/b.npz/x"]
       (Cases.world1 []),
     Raise (NotADirectoryError "/blobs/b.npz/x")).
Proof.
  refine (proj1 (@load_preprocessed_samples_unreadable Demo.collaborators
    ["/blobs/a.npz"] ["/blobs/none.npz"] "/blobs/b.npz/x"
    [([1; 2], [101; 102], [201; 202], [301; 302])] _ None
    (Cases.world1 []) _ _)).
  - constructor; [|constructor]. exists Demo.blob_a.
    split; [vm_refl|]. repeat split; vm_refl.
  - vm_refl.
Defined.

Section aggregator_bounds.
Context `{Collaborators}.
Implicit Types (w : world)
  (blobs : list (list Row * list Row * list Row * list Row)).

Lemma load_blob_world (path : string) w w1
    (r : result (list Row * list Row * list Row * list Row)) :
  load_blob path w = (w1, r) → w1 = printed [loading_line path] w.
Proof.
  unfold load_blob, np_load, npz_get. munfold. cbn [print fst snd w_fs].
  repeat case_match; intros; simplify_eq; done.
Qed.

Lemma load_blobs_world (paths : list string) w w1 blobs :
  map_m load_blob paths w = (w1, Return blobs) →
  w1 = printed (loading_line <$> paths) w.
Proof.
  revert w blobs. induction paths as [|p paths IH]; intros w blobs.
  - intros [= <- _]. by rewrite printed_nil.
  - cbn [map_m]. intros [(e & _ & [=])|(w2 & b & Hb & Hrest)]%bind_inv.
    apply load_blob_world in Hb as ->.
    apply bind_inv in Hrest as [(e & _ & [=])|(w3 & bs & Hbs & [= <- _])].
    apply IH in Hbs as ->. by rewrite printed_printed.
Qed.

Lemma np_take_bounds {A} (a : list A) (index : list nat) :
  (Forall (λ i, i < length a) index →
   ∃ xs, PyList.np_take a index = Return xs ∧ length xs = length index)
  ∧ (¬ Forall (λ i, i < length a) index →
     ∃ i, i ∈ index ∧ length a ≤ i
          ∧ PyList.np_take a index = Raise (IndexError i)).
Proof.
  split.
  - intros [xs Hxs]%lookup_all. exists xs.
    split; [by apply np_take_lookup|]. symmetry. by eapply Forall2_length.
  - induction index as [|i index IH]; intros Hnot.
    { destruct Hnot. constructor. }
    cbn [PyList.np_take]. destruct (a !! i) as [x|] eqn:Hi.
    + destruct IH as (j & Hj & Hle & ->).
      { intros Hall. apply Hnot. constructor; [|done].
        by apply lookup_lt_Some in Hi. }
      exists j. split; [by right|done].
    + apply lookup_ge_None in Hi. exists i. split; [left|done].
Qed.

(** The permutation of [n] indices lies within an array exactly when the
    array has [n] rows or more. *)
Lemma permutation_within {A} (a : list A) (n : nat) (g : Rng.state) :
  Forall (λ i, i < length a) (Rng.permutation n g).1 ↔ n ≤ length a.
Proof.
  rewrite (permutation_Permutation n g), Forall_forall. split.
  - intros Hall. destruct n as [|n]; [lia|].
    assert (n < length a); [|lia]. apply Hall, elem_of_seq. lia.
  - intros Hn i [_ Hi]%elem_of_seq. lia.
Qed.

(** The aggregator on archives that can be read. *)
Lemma load_preprocessed_samples_run (paths : list string) blobs
    (max_samples : option Z) w :
  paths ≠ [] →
  Forall2 (holds_blob (w_fs w)) paths blobs →
  let perm := Rng.permutation (length (all_of sel_video blobs)) (w_rng w) in
  load_preprocessed_samples paths max_samples w
  = (set_rng perm.2 (printed (loading_line <$> paths) w),
     result_bind (PyList.np_take (all_of sel_video blobs) perm.1) (λ video,
     result_bind (PyList.np_take (all_of sel_mixed blobs) perm.1) (λ mixed,
     result_bind (PyList.np_take (all_of sel_speech blobs) perm.1) (λ speech,
     result_bind (PyList.np_take (all_of sel_noise blobs) perm.1) (λ noise,
       Return (PyList.slice_to max_samples video,
               PyList.slice_to max_samples mixed,
               PyList.slice_to max_samples speech,
               PyList.slice_to max_samples noise)))))).
Proof.
  intros Hne Hblobs perm. unfold load_preprocessed_samples.
  unfold mbind at 1, M_bind at 1. rewrite (load_blobs_printed _ _ _ Hblobs).
  assert (blobs ≠ []) as Hbne.
  { intros ->. apply Forall2_nil_inv_r in Hblobs. done. }
  assert (∀ sel : _ → list Row,
             PyList.np_concatenate (map sel blobs) = Return (all_of sel blobs))
    as Hcat.
  { intros sel. unfold PyList.np_concatenate, all_of. by destruct blobs. }
  munfold. rewrite !Hcat. unfold np_random_permutation.
  change (w_rng (printed _ w)) with (w_rng w).
  change (λ b : list Row * list Row * list Row * list Row, b.1.1.1) with sel_video.
  change (λ b : list Row * list Row * list Row * list Row, b.1.1.2) with sel_mixed.
  change (λ b : list Row * list Row * list Row * list Row, b.1.2) with sel_speech.
  change (λ b : list Row * list Row * list Row * list Row, b.2) with sel_noise.
  subst perm.
  destruct (Rng.permutation (length (all_of sel_video blobs)) (w_rng w))
    as [perm g].
  cbn [fst snd].
  destruct (PyList.np_take (all_of sel_video blobs) perm); [|done].
  destruct (PyList.np_take (all_of sel_mixed blobs) perm); [|done].
  destruct (PyList.np_take (all_of sel_speech blobs) perm); [|done].
  by destruct (PyList.np_take (all_of sel_noise blobs) perm).
Qed.

(** X4.  On archives that can be read, the aggregator returns exactly when each
    of the other three concatenations has at least as many rows as the
    video samples, whose count sizes the permutation: it then returns
    four arrays of that many rows, the surplus rows of a longer array
    being left out without notice; and when some array is shorter it
    raises [IndexError] for an index below the video count. *)
Theorem load_preprocessed_samples_rows (paths : list string) blobs w :
  paths ≠ [] →
  Forall2 (holds_blob (w_fs w)) paths blobs →
  let n := length (all_of sel_video blobs) in
  let enough := n ≤ length (all_of sel_mixed blobs)
                ∧ n ≤ length (all_of sel_speech blobs)
                ∧ n ≤ length (all_of sel_noise blobs) in
  (enough →
   ∃ video mixed speech noise,
     (load_preprocessed_samples paths None w).2
     = Return (video, mixed, speech, noise)
     ∧ length video = n ∧ length mixed = n
     ∧ length speech = n ∧ length noise = n)
  ∧ (¬ enough →
     ∃ i, i < n
          ∧ (load_preprocessed_samples paths None w).2 = Raise (IndexError i)).
Proof.
  intros Hne Hblobs n enough.
  rewrite (load_preprocessed_samples_run _ _ _ _ Hne Hblobs). cbn [snd].
  set (g := w_rng w). fold n.
  assert (length (Rng.permutation n g).1 = n) as Hlen.
  { by rewrite (permutation_Permutation n g), length_seq. }
  assert (∀ i, i ∈ (Rng.permutation n g).1 → i < n) as Hin.
  { intros i. rewrite (permutation_Permutation n g).
    intros [_ Hi]%elem_of_seq. lia. }
  destruct (proj1 (np_take_bounds (all_of sel_video blobs) (Rng.permutation n g).1))
    as (video & -> & Hv); [by apply permutation_within|].
  cbn [result_bind]. split.
  - intros (Hm & Hs & Hno).
    destruct (proj1 (np_take_bounds (all_of sel_mixed blobs) (Rng.permutation n g).1))
      as (mixed & -> & Hm'); [by apply permutation_within|].
    destruct (proj1 (np_take_bounds (all_of sel_speech blobs) (Rng.permutation n g).1))
      as (speech & -> & Hs'); [by apply permutation_within|].
    destruct (proj1 (np_take_bounds (all_of sel_noise blobs) (Rng.permutation n g).1))
      as (noise & -> & Hno'); [by apply permutation_within|].
    cbn [result_bind PyList.slice_to].
    exists video, mixed, speech, noise. repeat split; congruence.
  - intros Hnot.
    destruct (decide (n ≤ length (all_of sel_mixed blobs))) as [Hm|Hm].
    2:{ destruct (proj2 (np_take_bounds (all_of sel_mixed blobs)
                           (Rng.permutation n g).1)) as (i & Hi & _ & ->).
        { by rewrite permutation_within. }
        exists i. split; [by apply Hin|done]. }
    destruct (proj1 (np_take_bounds (all_of sel_mixed blobs) (Rng.permutation n g).1))
      as (mixed & -> & _); [by apply permutation_within|].
    cbn [result_bind].
    destruct (decide (n ≤ length (all_of sel_speech blobs))) as [Hs|Hs].
    2:{ destruct (proj2 (np_take_bounds (all_of sel_speech blobs)
                           (Rng.permutation n g).1)) as (i & Hi & _ & ->).
        { by rewrite permutation_within. }
        exists i. split; [by apply Hin|done]. }
    destruct (proj1 (np_take_bounds (all_of sel_speech blobs) (Rng.permutation n g).1))
      as (speech & -> & _); [by apply permutation_within|].
    cbn [result_bind].
    destruct (decide (n ≤ length (all_of sel_noise blobs))) as [Hno|Hno].
    { destruct Hnot. done. }
    destruct (proj2 (np_take_bounds (all_of sel_noise blobs)
                       (Rng.permutation n g).1)) as (i & Hi & _ & ->).
    { by rewrite permutation_within. }
    exists i. split; [by apply Hin|done].
Qed.

(** X5.  Whatever the bound, what a run of the aggregator that returns leaves
    behind is one printed line for each path, in their order, and the
    random source advanced: files, models, log and calls are as before. *)
Theorem load_preprocessed_samples_leaves (paths : list string)
    (max_samples : option Z) w w'
    (r : list Row * list Row * list Row * list Row) :
  load_preprocessed_samples paths max_samples w = (w', Return r) →
  w' = set_rng (w_rng w') (printed (loading_line <$> paths) w).
Proof.
  unfold load_preprocessed_samples.
  intros [(e & _ & [=])|(w1 & blobs & Hblobs & Hrest)]%bind_inv.
  apply load_blobs_world in Hblobs as ->.
  revert Hrest. munfold. unfold np_random_permutation.
  repeat case_match; intros; simplify_eq; done.
Qed.

(** X6.  The four arrays the aggregator returns have one sample count, also
    when the archives did not; and a bound, applied to all four, cuts
    them to the same length: a bound at or above the count changes
    nothing, a negative bound drops that many samples from the end of the
    shuffled arrays. *)
Theorem load_preprocessed_samples_any_bound (paths : list string) w w'
    (video mixed speech noise : list Row) :
  load_preprocessed_samples paths None w
  = (w', Return (video, mixed, speech, noise)) →
  let n := length video in
  length mixed = n ∧ length speech = n ∧ length noise = n
  ∧ (∀ max_samples,
       load_preprocessed_samples paths max_samples w
       = (w', Return (PyList.slice_to max_samples video,
                      PyList.slice_to max_samples mixed,
                      PyList.slice_to max_samples speech,
                      PyList.slice_to max_samples noise)))
  ∧ (∀ k, (Z.of_nat n ≤ k)%Z →
       load_preprocessed_samples paths (Some k) w
       = (w', Return (video, mixed, speech, noise)))
  ∧ (∀ k, (k < 0)%Z →
       let m := n - Z.to_nat (- k) in
       load_preprocessed_samples paths (Some k) w
       = (w', Return (take m video, take m mixed, take m speech, take m noise))).
Proof.
  intros Hfull n.
  assert (length mixed = n ∧ length speech = n ∧ length noise = n
    ∧ ∀ max_samples,
       load_preprocessed_samples paths max_samples w
       = (w', Return (PyList.slice_to max_samples video,
                      PyList.slice_to max_samples mixed,
                      PyList.slice_to max_samples speech,
                      PyList.slice_to max_samples noise)))
    as (Hm & Hs & Hn & Hany).
  { subst n. unfold load_preprocessed_samples in *.
    unfold mbind, M_bind, mret, M_ret, lift in *.
    destruct (map_m load_blob paths w) as [w1 [blobs|e]]; [|done].
    destruct (PyList.np_concatenate (map (λ b, b.1.1.1) blobs)) as [v0|]; [|done].
    destruct (PyList.np_concatenate (map (λ b, b.1.1.2) blobs)) as [m0|]; [|done].
    destruct (PyList.np_concatenate (map (λ b, b.1.2) blobs)) as [s0|]; [|done].
    destruct (PyList.np_concatenate (map (λ b, b.2) blobs)) as [n0|]; [|done].
    destruct (np_random_permutation (length v0) w1) as [w2 [perm|e]]; [|done].
    destruct (PyList.np_take v0 perm) as [v1|] eqn:Hv; [|done].
    destruct (PyList.np_take m0 perm) as [m1|] eqn:Hm; [|done].
    destruct (PyList.np_take s0 perm) as [s1|] eqn:Hs; [|done].
    destruct (PyList.np_take n0 perm) as [n1|] eqn:Hn; [|done].
    cbn [PyList.slice_to] in Hfull. injection Hfull as -> -> -> -> ->.
    apply np_take_length in Hv, Hm, Hs, Hn.
    repeat split; congruence. }
  split; [done|]. split; [done|]. split; [done|]. split; [done|]. split.
  - intros k Hk. rewrite Hany. unfold PyList.slice_to.
    destruct (Z.leb_spec 0 k); [|lia].
    by rewrite !take_ge by lia.
  - intros k Hk m. rewrite Hany. unfold PyList.slice_to.
    destruct (Z.leb_spec 0 k); [lia|]. subst m. by rewrite Hm, Hs, Hn.
Qed.

End aggregator_bounds.

Lemma load_preprocessed_samples_rows_witness :
  (∃ i, i < 3
        ∧ (@load_preprocessed_samples Demo.collaborators ["/blobs/short.npz"]
             None (Cases.world1 [])).2 = Raise (IndexError i))
  ∧ ∃ video mixed speech noise,
      (@load_preprocessed_samples Demo.collaborators ["/blobs/long.npz"]
         None (Cases.world1 [])).2 = Return (video, mixed, speech, noise)
      ∧ length video = 2 ∧ length mixed = 2
      ∧ length speech = 2 ∧ length noise = 2.
Proof.
  split.
  - refine (proj2 (@load_preprocessed_samples_rows Demo.collaborators
      ["/blobs/short.npz"]
      [([1; 2; 3], [101; 102], [201; 202; 203], [301; 302; 303])]
      (Cases.world1 []) _ _) _).
    + discriminate.
    + constructor; [|constructor]. exists Cases.blob_short.
      split; [vm_refl|]. repeat split; vm_refl.
    + cbn. lia.
  - refine (proj1 (@load_preprocessed_samples_rows Demo.collaborators
      ["/blobs/long.npz"]
      [([1; 2], [101; 102; 103], [201; 202], [301; 302; 303; 304])]
      (Cases.world1 []) _ _) _).
    + discriminate.
    + constructor; [|constructor]. exists Cases.blob_long.
      split; [vm_refl|]. repeat split; vm_refl.
    + cbn. lia.
Defined.

Lemma load_preprocessed_samples_leaves_witness :
  let run := @load_preprocessed_samples Demo.collaborators
               ["/blobs/a.npz"; "/blobs/b.npz"] (Some 2%Z) (Demo.world0 [3; 1]) in
  run.1 = set_rng (w_rng run.1)
            (printed ["loading preprocessed samples from /blobs/a.npz";
                      "loading preprocessed samples from /blobs/b.npz"]
               (Demo.world0 [3; 1])).
Proof.
  intros run.
  apply (@load_preprocessed_samples_leaves Demo.collaborators
           ["/blobs/a.npz"; "/blobs/b.npz"] (Some 2%Z) (Demo.world0 [3; 1]) run.1
           ([4; 2], [104; 102], [204; 202], [304; 302])).
  vm_refl.
Defined.

Lemma load_preprocessed_samples_any_bound_witness :
  let w := Demo.world0 [3; 1; 4; 1; 5] in
  let paths := ["/blobs/a.npz"; "/blobs/b.npz"] in
  let w' := (@load_preprocessed_samples Demo.collaborators paths None w).1 in
  @load_preprocessed_samples Demo.collaborators paths (Some 7%Z) w
  = (w', Return ([4; 2; 3; 5; 1], [104; 102; 103; 105; 101],
                 [204; 202; 203; 205; 201], [304; 302; 303; 305; 301]))
  ∧ @load_preprocessed_samples Demo.collaborators paths (Some (-2)%Z) w
    = (w', Return ([4; 2; 3], [104; 102; 103], [204; 202; 203], [304; 302; 303])).
Proof.
  intros w paths w'.
  destruct (@load_preprocessed_samples_any_bound Demo.collaborators paths w w'
              [4; 2; 3; 5; 1] [104; 102; 103; 105; 101]
              [204; 202; 203; 205; 201] [304; 302; 303; 305; 301])
    as (_ & _ & _ & _ & Hhigh & Hneg).
  - vm_refl.
  - split; [apply Hhigh; cbn; lia|]. apply (Hneg (-2)%Z). lia.
Defined.

(** ** Training: what is written, and when *)

Section training.
Context `{Collaborators}.
Implicit Types (w : world).

Lemma load_blobs_outcome (paths : list string) w w1
    (r : result (list (list Row * list Row * list Row * list Row))) :
  map_m load_blob paths w = (w1, r) → ∃ lines, w1 = printed lines w.
Proof.
  revert w r. induction paths as [|p paths IH]; intros w r.
  - intros [= <- _]. exists []. by rewrite printed_nil.
  - cbn [map_m]. intros [(e & Hb & _)|(w2 & b & Hb & Hrest)]%bind_inv.
    { apply load_blob_world in Hb. by eexists. }
    apply load_blob_world in Hb as ->.
    apply bind_inv in Hrest as [(e & Hbs & _)|(w3 & bs & Hbs & [= <- _])].
    all: apply IH in Hbs as [lines ->]; rewrite printed_printed; by eexists.
Qed.

(** Whatever its outcome, the aggregator only prints and draws. *)
Lemma load_preprocessed_samples_outcome (paths : list string)
    (max_samples : option Z) w w'
    (r : result (list Row * list Row * list Row * list Row)) :
  load_preprocessed_samples paths max_samples w = (w', r) →
  ∃ lines g, w' = set_rng g (printed lines w).
Proof.
  unfold load_preprocessed_samples.
  intros [(e & Hblobs & _)|(w1 & blobs & Hblobs & Hrest)]%bind_inv.
  { apply load_blobs_outcome in Hblobs as [lines ->].
    exists lines, (w_rng w). by destruct w. }
  apply load_blobs_outcome in Hblobs as [lines ->].
  revert Hrest. munfold. unfold np_random_permutation.
  repeat case_match; intros; simplify_eq;
    first [by exists lines, (w_rng w); destruct w | by eexists _, _].
Qed.


(** [train] once the two loads have returned. *)
Lemma train_run (args : Args) w w1 w2
    (raw tm ts noise val_raw vm vs vnoise : list Row) :
  load_preprocessed_samples (train_preprocessed_blob_paths args) None w
  = (w1, Return (raw, tm, ts, noise)) →
  load_preprocessed_samples (validation_preprocessed_blob_paths args) None w1
  = (w2, Return (val_raw, vm, vs, vnoise)) →
  train args w
  = match video_normalizer_fit raw with
    | Raise e => (called [CallFit raw] w2, Raise e)
    | Return st =>
    match video_normalizer_normalize st raw with
    | Raise e => (called [CallFit raw; CallNormalize st raw] w2, Raise e)
    | Return tv =>
    match video_normalizer_normalize st val_raw with
    | Raise e =>
        (called [CallFit raw; CallNormalize st raw; CallNormalize st val_raw] w2,
         Raise e)
    | Return vv =>
    match Fs.write (normalization_cache args) (PickleFile st) (w_fs w2) with
    | Raise e =>
        (called [CallFit raw; CallNormalize st raw; CallNormalize st val_raw] w2,
         Raise e)
    | Return fs' =>
    match network_build tm tv with
    | Raise e =>
        (set_fs fs'
           (called [CallFit raw; CallNormalize st raw; CallNormalize st val_raw]
              w2),
         Raise e)
    | Return network =>
    match network_train network tm tv ts vm vv vs
            (model_cache_dir args) (tensorboard_dir args) with
    | Raise e =>
        (set_fs fs'
           (called [CallFit raw; CallNormalize st raw; CallNormalize st val_raw;
                    CallNetTrain tm tv ts vm vv vs] w2),
         Raise e)
    | Return trained =>
        (set_models (<[model_cache_dir args := trained]> (w_models w2))
           (set_fs fs'
              (called [CallFit raw; CallNormalize st raw;
                       CallNormalize st val_raw;
                       CallNetTrain tm tv ts vm vv vs] w2)),
         Return tt)
    end end end end end end.
Proof.
  intros Hload Hload2. unfold train.
  unfold mbind at 1, M_bind at 1. rewrite Hload.
  unfold mbind at 1, M_bind at 1. rewrite Hload2.
  unfold VideoNormalizer, normalize, pickle_dump, net_train, net_save.
  unfold mbind, M_bind, mret, M_ret, lift, record, fs_op, called, set_models, set_fs.
  cbn [fst snd w_fs w_calls w_models w_rng w_clock w_stdout w_log].
  destruct (video_normalizer_fit raw) as [st|]; [|done].
  destruct (video_normalizer_normalize st raw) as [tv|];
    [|by rewrite <- ?app_assoc].
  destruct (video_normalizer_normalize st val_raw) as [vv|];
    [|by rewrite <- ?app_assoc].
  destruct (Fs.write _ _ _) as [fs'|]; [|by rewrite <- ?app_assoc].
  destruct (network_build tm tv) as [network|]; [|by rewrite <- ?app_assoc].
  destruct (network_train network tm tv ts vm vv vs _ _) as [trained|];
    cbn [fst snd w_fs w_calls w_models w_rng w_clock w_stdout w_log];
    by rewrite <- ?app_assoc.
Qed.

(** The two loads of a run of [train], or the failure of one of them. *)
Lemma train_loads (args : Args) w w' (r : result unit) :
  train args w = (w', r) →
  (∃ e lines g, r = Raise e ∧ w' = set_rng g (printed lines w))
  ∨ (∃ w1 w2 raw tm ts noise val_raw vm vs vnoise lines g,
       load_preprocessed_samples (train_preprocessed_blob_paths args) None w
       = (w1, Return (raw, tm, ts, noise))
       ∧ load_preprocessed_samples (validation_preprocessed_blob_paths args)
           None w1
         = (w2, Return (val_raw, vm, vs, vnoise))
       ∧ w2 = set_rng g (printed lines w)).
Proof.
  unfold train.
  intros [(e & Hload & ->)|(w1 & [[[raw tm] ts] noise] & Hload & Hrun)]%bind_inv.
  { apply load_preprocessed_samples_outcome in Hload as (lines & g & ->).
    left. by exists e, lines, g. }
  apply bind_inv in Hrun
    as [(e & Hload2 & ->)|(w2 & [[[val_raw vm] vs] vnoise] & Hload2 & _)].
  { apply load_preprocessed_samples_outcome in Hload as (lines & g & ->).
    apply load_preprocessed_samples_outcome in Hload2 as (lines2 & g2 & ->).
    left. exists e, (lines ++ lines2), g2. by rewrite <- printed_printed. }
  right. exists w1, w2, raw, tm, ts, noise, val_raw, vm, vs, vnoise.
  pose proof Hload as Hw1. pose proof Hload2 as Hw2.
  apply load_preprocessed_samples_outcome in Hw1 as (lines & g & ->).
  apply load_preprocessed_samples_outcome in Hw2 as (lines2 & g2 & Hw2).
  exists (lines ++ lines2), g2. split; [done|]. split; [done|].
  by rewrite Hw2, <- printed_printed.
Qed.

(** X9.  When the normalization cache cannot be written, [train] does not
    return: the network is neither trained nor saved and no file is
    changed; and once the normalizer has been fitted and applied to both
    video arrays, what [train] raises is the error of the write. *)
Theorem train_unwritable_cache (args : Args) (e : exn) w w' (r : result unit) :
  (∀ st, Fs.write (normalization_cache args) (PickleFile st) (w_fs w) = Raise e) →
  train args w = (w', r) →
  r ≠ Return tt
  ∧ w_fs w' = w_fs w
  ∧ w_models w' = w_models w
  ∧ ∃ new, w_calls w' = w_calls w ++ new
           ∧ existsb is_net_train new = false
           ∧ ∀ raw val_raw st vv,
               new = [CallFit raw; CallNormalize st raw; CallNormalize st val_raw] →
               video_normalizer_normalize st val_raw = Return vv →
               r = Raise e.
Proof.
  intros Hwrite Htrain.
  destruct (train_loads _ _ _ _ Htrain)
    as [(e' & lines & g & -> & ->)
       |(w1 & w2 & raw & tm & ts & noise & val_raw & vm & vs & vnoise
         & lines & g & Hload & Hload2 & Hw2)].
  { split; [done|]. split; [done|]. split; [done|].
    exists []. by rewrite app_nil_r. }
  rewrite (train_run _ _ _ _ _ _ _ _ _ _ _ _ Hload Hload2) in Htrain.
  assert (w_models w2 = w_models w ∧ w_fs w2 = w_fs w ∧ w_calls w2 = w_calls w)
    as (Hmodels & Hfs & Hcalls) by (by rewrite Hw2).
  rewrite Hfs in Htrain.
  destruct (video_normalizer_fit raw) as [st|].
  2:{ injection Htrain as <- <-. cbn [w_fs w_models w_calls called].
      rewrite Hcalls. repeat (split; [done|]). by eexists. }
  destruct (video_normalizer_normalize st raw) as [tv|].
  2:{ injection Htrain as <- <-. cbn [w_fs w_models w_calls called].
      rewrite Hcalls. repeat (split; [done|]). by eexists. }
  rewrite Hwrite in Htrain.
  destruct (video_normalizer_normalize st val_raw) as [vv|] eqn:Hvv.
  all: injection Htrain as <- <-; cbn [w_fs w_models w_calls called].
  all: rewrite Hcalls; repeat (split; [done|]); eexists;
    split; [reflexivity|]; split; [done|].
  all: intros; simplify_eq; congruence.
Qed.

End training.

Lemma train_unwritable_cache_witness :
  let run := @train Demo.collaborators Cases.args_no_cache_dir (Demo.world0 []) in
  run.2 ≠ Return tt
  ∧ w_fs run.1 = Demo.fs0
  ∧ w_models run.1 = ∅.
Proof.
  intros run.
  destruct (@train_unwritable_cache Demo.collaborators Cases.args_no_cache_dir
              (FileNotFoundError "/nowhere/norm.pkl") (Demo.world0 [])
              run.1 run.2) as (Hr & Hfs & Hmodels & _).
  - intros st. reflexivity.
  - apply surjective_pairing.
  - split; [exact Hr|]. split; [exact Hfs|exact Hmodels].
Defined.

(** ** The listing as the loops use it *)

Lemma zip3_length {A B C} (a : list A) (b : list B) (c : list C) :
  length a = length b → length b = length c →
  length (PyList.zip3 a b c) = length a.
Proof.
  revert b c. induction a as [|x a IH]; intros [|y b] [|z c]; try done.
  cbn. intros [=] [=]. f_equal. by apply IH.
Qed.

Lemma zip3_lookup {A B C} (a : list A) (b : list B) (c : list C) (i : nat)
    (x : A) (y : B) (z : C) :
  a !! i = Some x → b !! i = Some y → c !! i = Some z →
  PyList.zip3 a b c !! i = Some (x, y, z).
Proof.
  revert b c i. induction a as [|x0 a IH]; intros [|y0 b] [|z0 c] [|i]; try done.
  - by intros [= ->] [= ->] [= ->].
  - cbn. apply IH.
Qed.

Section listing_more.
Context `{Collaborators}.
Implicit Types (w : world).

(** X10.  Whatever the cap, [list_data] returns three sequences of one length,
    so that zipping them, as [predict] does, loses no entry: triple [i]
    is made of entry [i] of each. *)
Theorem list_data_zipped (dataset_dir : string)
    (speaker_ids noise_dirs : list string) (max_files : option Z) w w'
    (videos speeches noises : list string) :
  list_data dataset_dir speaker_ids noise_dirs max_files w
  = (w', Return (videos, speeches, noises)) →
  length speeches = length videos
  ∧ length noises = length videos
  ∧ length (PyList.zip3 videos speeches noises) = length videos
  ∧ ∀ i v s n, videos !! i = Some v → speeches !! i = Some s →
               noises !! i = Some n →
               PyList.zip3 videos speeches noises !! i = Some (v, s, n).
Proof.
  unfold list_data. unfold mbind at 1, M_bind at 1.
  destruct (av_subset _ _ _ _ w) as [w1 [subset|e]]; [|done].
  unfold mbind at 1, M_bind at 1.
  destruct (audio_subset _ _ _ w1) as [w2 [noise|e]]; [|done].
  unfold mret, M_ret. rewrite <- Nat2Z.inj_min, !slice_to_nat.
  intros [= _ <- <- <-].
  assert (length (take (length subset `min` length noise) subset.*2)
          = length (take (length subset `min` length noise) subset.*1)) as Hs.
  { by rewrite !length_take, !length_fmap. }
  assert (length (take (length subset `min` length noise) noise)
          = length (take (length subset `min` length noise) subset.*1)) as Hn.
  { rewrite !length_take, !length_fmap. lia. }
  split; [done|]. split; [done|]. split.
  - apply zip3_length; congruence.
  - intros i v s n. apply zip3_lookup.
Qed.

End listing_more.

Lemma list_data_zipped_witness :
  let run := @list_data Demo.collaborators "/data/test" ["A"; "B"] ["/noise"]
               None (Demo.world0 [2; 0; 1]) in
  let videos := ["/data/test/B/video/u1.mp4"; "/data/test/A/video/u1.mp4";
                 "/data/test/B/video/u2.mp4"; "/data/test/A/video/u2.mp4"] in
  let speeches := ["/data/test/B/audio/u1.wav"; "/data/test/A/audio/u1.wav";
                   "/data/test/B/audio/u2.wav"; "/data/test/A/audio/u2.wav"] in
  let noises := ["/noise/n1.wav"; "/noise/n2.wav"; "/noise/n3.wav";
                 "/noise/n4.wav"] in
  run.2 = Return (videos, speeches, noises)
  ∧ length (PyList.zip3 videos speeches noises) = length videos.
Proof.
  intros run videos speeches noises.
  assert (run.2 = Return (videos, speeches, noises)) as Hrun by vm_refl.
  split; [exact Hrun|].
  refine (proj1 (proj2 (proj2 (@list_data_zipped Demo.collaborators
    "/data/test" ["A"; "B"] ["/noise"] None (Demo.world0 [2; 0; 1]) run.1
    videos speeches noises _)))).
  rewrite <- Hrun. apply surjective_pairing.
Defined.

(** ** The prediction storage *)

Section storage_more.
Context `{Collaborators}.
Implicit Types (fs : gmap (list string) (Fs.node content)) (w : world)
  (k : list string).

(** What making the storage does when it returns. *)
Lemma PredictionStorage_init_Return (storage_dir : string) w w1
    (storage : PredictionStorage) :
  PredictionStorage_init storage_dir w = (w1, Return storage) →
  base_dir storage = PyStr.path_join storage_dir (w_clock w)
  ∧ Fs.lookup (w_fs w) (PyStr.components (base_dir storage)) = None
  ∧ Fs.lookup (w_fs w) (Fs.parent (PyStr.components (base_dir storage)))
    = Some Fs.Dir
  ∧ w1 = set_fs (<[PyStr.components (base_dir storage) := Fs.Dir]> (w_fs w)) w.
Proof.
  unfold PredictionStorage_init, fs_op. unfold mbind, M_bind, mret, M_ret.
  destruct (Fs.mkdir _ (w_fs w)) as [fs'|e] eqn:Hmk; [|done].
  intros Heq. injection Heq as <- <-. cbn [base_dir].
  by apply mkdir_Return in Hmk as (Hp & Hk & Hpar & ->).
Qed.

(** X11.  A storage that was made has made one directory, named by the reading
    of the clock, in a storage directory that existed: no parent is
    created, a directory of that name must not exist, and making the
    storage again at the same reading of the clock raises
    [FileExistsError]. *)
Theorem PredictionStorage_init_once (storage_dir : string) w w1
    (storage : PredictionStorage) :
  PredictionStorage_init storage_dir w = (w1, Return storage) →
  let k := PyStr.components (base_dir storage) in
  base_dir storage = PyStr.path_join storage_dir (w_clock w)
  ∧ Fs.lookup (w_fs w) k = None
  ∧ Fs.lookup (w_fs w) (Fs.parent k) = Some Fs.Dir
  ∧ w1 = set_fs (<[k := Fs.Dir]> (w_fs w)) w
  ∧ PredictionStorage_init storage_dir w1
    = (w1, Raise (FileExistsError (base_dir storage))).
Proof.
  intros Hinit k. subst k.
  destruct (PredictionStorage_init_Return _ _ _ _ Hinit)
    as (Hbase & Hk & Hpar & ->).
  split; [done|]. split; [done|]. split; [done|]. split; [done|].
  unfold PredictionStorage_init, fs_op. unfold mbind, M_bind, mret, M_ret.
  cbn [w_clock w_fs set_fs]. rewrite <- Hbase.
  rewrite mkdir_exists; [done| |].
  - intros Heq. rewrite Heq in Hk. done.
  - set (k := PyStr.components (base_dir storage)) in *.
    assert (k ≠ []) as Hne.
    { intros Heq. unfold Fs.lookup in Hk. by rewrite Heq in Hk. }
    unfold Fs.lookup. case_decide; [done|]. by rewrite lookup_insert_eq.
Qed.

(** X12.  When the clean speech cannot be read, [save_prediction] raises after
    it has made the directory of the prediction, which it leaves empty:
    nothing counts as a saved prediction, and a second attempt with the
    same names raises [FileExistsError]. *)
Theorem save_prediction_missing_source (self : PredictionStorage)
    (speaker_id video noise speech : string)
    (ms ps ns : Signal) (es nns mxs : list Row) w (e : exn) :
  let speaker_dir := PyStr.path_join (base_dir self) speaker_id in
  let name := prediction_name video noise in
  let ksd := PyStr.components speaker_dir in
  let k := ksd ++ [name] in
  Fs.wf (w_fs w) →
  speaker_dir ≠ "" →
  (Fs.lookup (w_fs w) ksd = Some Fs.Dir
   ∨ (Fs.lookup (w_fs w) ksd = None
      ∧ Fs.lookup (w_fs w) (Fs.parent ksd) = Some Fs.Dir)) →
  w_fs w !! k = None →
  Fs.read speech (w_fs w) = Raise e →
  ∃ w' e',
    save_prediction self speaker_id video noise speech ms ps ns es nns mxs w
    = (w', Raise e')
    ∧ Fs.wf (w_fs w')
    ∧ w_fs w' !! k = Some Fs.Dir
    ∧ (∀ n : string, w_fs w' !! (k ++ [n]) = None)
    ∧ prediction_dirs (w_fs w') = prediction_dirs (w_fs w)
    ∧ save_prediction self speaker_id video noise speech ms ps ns es nns mxs w'
      = (w', Raise (FileExistsError (PyStr.path_join speaker_dir name))).
Proof.
  intros speaker_dir name ksd k Hwf Hsd Hspeaker Hfresh Hread.
  destruct (prediction_name_simple video noise) as [Hname Hne].
  fold (prediction_name video noise) in Hname, Hne. fold name in Hname, Hne.
  assert (Fs.lookup (w_fs w) k = None) as Hk by (unfold k; by rewrite lookup_snoc).
  assert (∀ fs (x : list string), Fs.lookup fs x = None →
            (∃ e0, Fs.read speech fs = Raise e0) →
            ∃ e0, Fs.read speech (<[x := Fs.Dir]> fs) = Raise e0) as Hkeep.
  { intros fs x Hx [e0 He0].
    destruct (Fs.read speech (<[x := Fs.Dir]> fs)) as [c|e1] eqn:Hr;
      [exfalso|by eexists].
    unfold Fs.read in He0, Hr. case_decide; [done|].
    destruct (Fs.lookup (<[x := Fs.Dir]> fs) (PyStr.components speech))
      as [[|c']|] eqn:Hl; [done| |by repeat case_match].
    assert (Fs.lookup fs (PyStr.components speech) = Some (Fs.File c')) as Hl0.
    { unfold Fs.lookup in Hl |- *. case_decide; [done|].
      destruct (decide (x = PyStr.components speech)) as [->|Hxs].
      - by rewrite lookup_insert_eq in Hl.
      - by rewrite lookup_insert_ne in Hl. }
    by rewrite Hl0 in He0. }
  assert (∃ fs1,
    (if Fs.exists_ speaker_dir (w_fs w) then Return (w_fs w)
     else Fs.mkdir speaker_dir (w_fs w)) = Return fs1
    ∧ Fs.wf fs1 ∧ Fs.lookup fs1 ksd = Some Fs.Dir ∧ Fs.lookup fs1 k = None
    ∧ prediction_dirs fs1 = prediction_dirs (w_fs w)
    ∧ ∃ e1, Fs.read speech fs1 = Raise e1)
    as (fs1 & Hstep & Hwf1 & Hksd & Hk1 & Hdirs1 & Hread1).
  { destruct Hspeaker as [Hdir|[Hnone Hpar]].
    - exists (w_fs w). rewrite exists_lookup by done. fold ksd. rewrite Hdir.
      rewrite bool_decide_eq_true_2 by eauto. eauto 10.
    - exists (<[ksd := Fs.Dir]> (w_fs w)).
      rewrite exists_lookup by done. fold ksd. rewrite Hnone.
      rewrite bool_decide_eq_false_2 by (by intros [??]).
      rewrite mkdir_fresh by done. fold ksd.
      assert (ksd ≠ []) as Hksd.
      { intros Heq. unfold Fs.lookup in Hnone. by rewrite Heq in Hnone. }
      split; [done|]. split; [by apply wf_insert_dir|]. split; [|split; [|split]].
      + unfold Fs.lookup. case_decide; [done|]. by rewrite lookup_insert_eq.
      + unfold k. rewrite lookup_snoc, lookup_insert_ne by (symmetry; apply snoc_ne_self).
        done.
      + by apply prediction_dirs_insert_dir.
      + apply Hkeep; eauto. }
  assert (Fs.mkdir (PyStr.path_join speaker_dir name) fs1
          = Return (<[k := Fs.Dir]> fs1)) as Hmk.
  { unfold k, ksd. rewrite <- (components_join speaker_dir name) by done.
    apply mkdir_fresh.
    - by apply path_join_nonempty.
    - by rewrite components_join.
    - rewrite components_join by done. by rewrite parent_snoc. }
  destruct (Hkeep fs1 k Hk1 Hread1) as [e2 Hread2].
  assert (Fs.wf (<[k := Fs.Dir]> fs1)) as Hwf2.
  { apply wf_insert_dir; [done|apply snoc_ne_nil|]. unfold k. by rewrite parent_snoc. }
  exists (set_fs (<[k := Fs.Dir]> fs1) w), e2.
  split.
  { rewrite save_prediction_run by done. fold speaker_dir name.
    rewrite Hstep, Hmk, Hread2. done. }
  cbn [w_fs set_fs]. split; [done|]. split; [by rewrite lookup_insert_eq|].
  split; [apply (dir_empty_fresh fs1 k Hwf1 (snoc_ne_nil _ _) Hk1)|].
  split.
  { rewrite <- Hdirs1. apply prediction_dirs_insert_dir; [done|apply snoc_ne_nil|done]. }
  rewrite save_prediction_run by done. fold speaker_dir name. cbn [w_fs set_fs].
  assert (Fs.exists_ speaker_dir (<[k := Fs.Dir]> fs1) = true) as ->.
  { rewrite exists_lookup by done. fold ksd.
    rewrite (lookup_insert_keep fs1 k ksd) by (done || apply snoc_ne_self).
    apply bool_decide_eq_true_2. eauto. }
  rewrite mkdir_exists.
  - destruct w. done.
  - by apply path_join_nonempty.
  - rewrite components_join by done. rewrite lookup_snoc. fold ksd k.
    rewrite lookup_insert_eq. eauto.
Qed.

End storage_more.

Lemma PredictionStorage_init_once_witness :
  let run := @PredictionStorage_init Demo.collaborators "/out" (Demo.world0 []) in
  run.2 = Return {| base_dir := "/out/2017-11-05_12-00-00" |}
  ∧ @PredictionStorage_init Demo.collaborators "/out" run.1
    = (run.1, Raise (FileExistsError "/out/2017-11-05_12-00-00")).
Proof.
  intros run. split; [vm_refl|].
  refine (proj2 (proj2 (proj2 (proj2 (@PredictionStorage_init_once
    Demo.collaborators "/out" (Demo.world0 []) run.1
    {| base_dir := "/out/2017-11-05_12-00-00" |} _))))).
  vm_refl.
Defined.

Lemma save_prediction_missing_source_witness :
  let self := {| base_dir := "/out" |} in
  let w := Demo.world0 [] in
  ∃ w' e',
    @save_prediction Demo.collaborators self "spk1" "/data/utt1.mp4"
      "/noise/n1.wav" "/data/lost.wav" 1 2 3 [4] [5] [6] w
    = (w', Raise e')
    ∧ w_fs w' !! ["out"; "spk1"; "utt1_n1"] = Some Fs.Dir
    ∧ w_fs w' !! ["out"; "spk1"; "utt1_n1"; "source.wav"] = None.
Proof.
  intros self w.
  destruct (@save_prediction_missing_source Demo.collaborators self "spk1"
              "/data/utt1.mp4" "/noise/n1.wav" "/data/lost.wav" 1 2 3 [4] [5] [6]
              w (FileNotFoundError "/data/lost.wav"))
    as (w' & e' & Hrun & _ & Hdir & Hempty & _).
  - apply wf_check_wf. vm_refl.
  - discriminate.
  - right. split; vm_refl.
  - vm_refl.
  - vm_refl.
  - exists w', e'. split; [exact Hrun|]. split; [exact Hdir|].
    apply (Hempty "source.wav").
Defined.

(** ** Prediction: the setup and the calls for a triple *)

Section prediction_more.
Context `{Collaborators}.
Implicit Types (w : world).

(** X13.  [predict] makes the run directory first.  When the model cache holds
    no model, or the normalization cache does not hold a pickled
    normalizer, it raises, the error of the read if the cache cannot be
    read, and all it leaves behind is the empty run directory: no speaker
    is listed and nothing is predicted. *)
Theorem predict_setup_failure (args : Args) w w1 (storage : PredictionStorage) :
  PredictionStorage_init (prediction_output_dir args) w = (w1, Return storage) →
  (w_models w !! model_cache_dir args = None
   ∨ ∀ st, Fs.read (normalization_cache args) (w_fs w1) ≠ Return (PickleFile st)) →
  ∃ e, predict args w = (w1, Raise e)
    ∧ w1 = set_fs (<[PyStr.components (base_dir storage) := Fs.Dir]> (w_fs w)) w
    ∧ (∀ network e0, w_models w !! model_cache_dir args = Some network →
         Fs.read (normalization_cache args) (w_fs w1) = Raise e0 → e = e0).
Proof.
  intros Hinit Hbad.
  destruct (PredictionStorage_init_Return _ _ _ _ Hinit) as (_ & _ & _ & Hw1).
  assert (w_models w1 = w_models w) as Hmodels by (by rewrite Hw1).
  unfold predict. unfold mbind at 1, M_bind at 1. rewrite Hinit.
  unfold mbind at 1, M_bind at 1. unfold net_load at 1. rewrite Hmodels.
  destruct (w_models w !! model_cache_dir args) as [network|] eqn:Hnet.
  2:{ eexists. split; [reflexivity|]. split; [done|]. by intros ?? [=]. }
  destruct Hbad as [[=]|Hbad].
  unfold mbind at 1, M_bind at 1. unfold pickle_load, fs_read.
  unfold mbind at 1, M_bind at 1.
  destruct (Fs.read (normalization_cache args) (w_fs w1)) as [c|e0].
  - destruct c as [data|s|a|arrays|st]; [..|by destruct (Hbad st)].
    all: eexists; split; [reflexivity|]; split; [done|]; by intros ?? _ [=].
  - exists e0. split; [done|]. split; [done|]. by intros ?? _ [= ->].
Qed.

Lemma map_m_lift_Return {A B} (f : A → result B) (l : list A) w :
  Forall (λ x, ∃ y, f x = Return y) l →
  ∃ ys, map_m (λ x, lift (f x)) l w = (w, Return ys).
Proof.
  induction 1 as [|x l [y Hy] _ [ys IH]]; [by exists []|].
  exists (y :: ys). cbn [map_m]. unfold mbind, M_bind, lift at 1.
  rewrite Hy, IH. done.
Qed.

Lemma map_m_lift_Raise {A B} (f : A → result B) (pre post : list A) (x : A)
    (e : exn) w :
  Forall (λ x, ∃ y, f x = Return y) pre → f x = Raise e →
  map_m (λ x, lift (f x)) (pre ++ x :: post) w = (w, Raise e).
Proof.
  intros Hpre Hx. induction Hpre as [|x0 pre [y Hy] _ IH]; cbn [app map_m].
  - unfold mbind, M_bind, lift at 1. by rewrite Hx.
  - unfold mbind at 1, M_bind at 1, lift at 1. rewrite Hy.
    unfold mbind, M_bind. by rewrite IH.
Qed.

(** The loop over the triples returns, whatever happens to the triples. *)
Lemma predict_triples_returns (storage : PredictionStorage) (network : Net)
    (st : Stats) (speaker_id : string)
    (triples : list (string * string * string)) w :
  (predict_triples storage network st speaker_id triples w).2 = Return tt.
Proof.
  unfold predict_triples. revert w.
  induction triples as [|t triples IH]; intros w; [done|].
  cbn [for_each]. unfold mbind, M_bind.
  destruct (predict_sample storage network st speaker_id t w) as [w1 r] eqn:Hs.
  unfold predict_sample, try_except in Hs.
  destruct (predict_sample_body storage network st speaker_id t w) as [w2 [[]|e]];
    injection Hs as <- <-; apply IH.
Qed.

(** X14.  For a speaker, the spectrograms of the clean validation speech are
    computed before any triple is processed and outside the [try]
    statement: the first clean speech file that cannot be processed makes
    [predict_speaker] raise with no triple attempted; and when all of
    them can, what follows is the loop over the zipped listing, in which
    the spectrograms play no part, and the pass of the speaker returns
    whatever happens to its triples. *)
Theorem predict_speaker_clean_speech (storage : PredictionStorage)
    (network : Net) (st : Stats) (args : Args) (speaker_id : string) w w1
    (videos speeches noises clean : list string) :
  predict_listing args speaker_id w
  = (w1, Return ((videos, speeches, noises), clean)) →
  (∀ pre post path e,
     clean = pre ++ path :: post →
     Forall (λ p, ∃ y, clean_speech_spectrogram p = Return y) pre →
     clean_speech_spectrogram path = Raise e →
     predict_speaker storage network st args speaker_id w = (w1, Raise e))
  ∧ (Forall (λ p, ∃ y, clean_speech_spectrogram p = Return y) clean →
     predict_speaker storage network st args speaker_id w
     = predict_triples storage network st speaker_id
         (PyList.zip3 videos speeches noises) w1
     ∧ (predict_speaker storage network st args speaker_id w).2 = Return tt).
Proof.
  intros Hlist. split.
  - intros pre post path e -> Hpre Hpath. unfold predict_speaker.
    unfold mbind at 1, M_bind at 1. rewrite Hlist.
    unfold mbind at 1, M_bind at 1.
    by rewrite (map_m_lift_Raise clean_speech_spectrogram pre post path e).
  - intros Hall.
    assert (predict_speaker storage network st args speaker_id w
            = predict_triples storage network st speaker_id
                (PyList.zip3 videos speeches noises) w1) as ->.
    { unfold predict_speaker.
      unfold mbind at 1, M_bind at 1. rewrite Hlist.
      unfold mbind at 1, M_bind at 1.
      by destruct (map_m_lift_Return clean_speech_spectrogram clean w1 Hall)
        as [ys ->]. }
    split; [done|]. apply predict_triples_returns.
Qed.

Lemma normalize_run (st : Stats) (raw : list Row) w :
  normalize st raw w
  = (called [CallNormalize st raw] w, video_normalizer_normalize st raw).
Proof. done. Qed.

Lemma net_evaluate_run (network : Net) (m v s : list Row) w :
  net_evaluate network m v s w
  = (called [CallNetEvaluate m v s] w, network_evaluate network m v s).
Proof. done. Qed.

Lemma net_predict_run (network : Net) (m v : list Row) w :
  net_predict network m v w
  = (called [CallNetPredict m v] w, network_predict network m v).
Proof. done. Qed.

(** X15.  For one triple the body of the [try] statement calls, in this order,
    the normalizer on the video samples of the preprocessing, the
    evaluation of the network and its prediction, both on the mixed
    spectrograms and the normalized video: it stops at the first of the
    steps that raises, and makes no further call afterwards. *)
Theorem predict_sample_body_calls_in_order (storage : PredictionStorage)
    (network : Net) (st : Stats) (speaker_id video speech noise : string)
    w w' (r : result unit) :
  predict_sample_body storage network st speaker_id (video, speech, noise) w
  = (w', r) →
  ∃ new, w_calls w' = w_calls w ++ new
    ∧ ((new = [] ∧ ∃ e, preprocess_sample video speech noise = Raise e
                        ∧ r = Raise e)
       ∨ ∃ vs mx sp no sig peak rate,
           preprocess_sample video speech noise
           = Return (vs, mx, sp, no, sig, peak, rate)
           ∧ ((new = [CallNormalize st vs]
               ∧ ∃ e, video_normalizer_normalize st vs = Raise e ∧ r = Raise e)
              ∨ ∃ vs', video_normalizer_normalize st vs = Return vs'
                  ∧ ((new = [CallNormalize st vs; CallNetEvaluate mx vs' sp]
                      ∧ ∃ e, network_evaluate network mx vs' sp = Raise e
                             ∧ r = Raise e)
                     ∨ (new = [CallNormalize st vs; CallNetEvaluate mx vs' sp;
                               CallNetPredict mx vs']
                        ∧ ∃ loss, network_evaluate network mx vs' sp
                                  = Return loss)))).
Proof.
  unfold predict_sample_body. intros Hrun.
  apply bind_inv in Hrun as [(e & Hp & _)|(w0 & u & Hp & Hrun)];
    [by injection Hp|].
  assert (w_calls w0 = w_calls w) as Hc0 by (by injection Hp as <- _).
  apply bind_inv in Hrun
    as [(e & Hpre & ->)
       |(w1 & [[[[[[vs mx] sp] no] sig] peak] rate] & Hpre & Hrun)];
    injection Hpre as <- Hpre.
  { exists []. rewrite app_nil_r. split; [done|]. left. split; [done|].
    by exists e. }
  apply bind_inv in Hrun as [(e & Hn & ->)|(w2 & vs' & Hn & Hrun)];
    rewrite normalize_run in Hn; injection Hn as <- Hn.
  { exists [CallNormalize st vs]. cbn [w_calls called]. rewrite Hc0.
    split; [done|].
    right. exists vs, mx, sp, no, sig, peak, rate. split; [done|]. left.
    split; [done|]. by exists e. }
  apply bind_inv in Hrun as [(e & He & ->)|(w3 & loss & He & Hrun)];
    rewrite net_evaluate_run in He; injection He as <- He.
  { exists [CallNormalize st vs; CallNetEvaluate mx vs' sp].
    cbn [w_calls called]. rewrite Hc0, <- app_assoc. split; [done|].
    right. exists vs, mx, sp, no, sig, peak, rate. split; [done|]. right.
    exists vs'. split; [done|]. left. split; [done|]. by exists e. }
  apply bind_inv in Hrun as [(e & Hp2 & _)|(w4 & u2 & Hp2 & Hrun)];
    [by injection Hp2|].
  injection Hp2 as <- _.
  assert (w_calls w'
          = w_calls w ++ [CallNormalize st vs; CallNetEvaluate mx vs' sp;
                          CallNetPredict mx vs']) as Hcalls.
  { apply bind_inv in Hrun as [(e & Hq & _)|(w5 & pred & Hq & Hrun)];
      rewrite net_predict_run in Hq; injection Hq as <- Hq.
    { cbn [w_calls called]. by rewrite Hc0, <- !app_assoc. }
    assert (w_calls w'
            = w_calls (called [CallNetPredict mx vs']
                         (printed ["loss: " +:+ format_loss loss]
                            (called [CallNetEvaluate mx vs' sp]
                               (called [CallNormalize st vs] w0))))) as ->.
    { revert Hrun.
      lazymatch goal with
      | |- ?m ?w1 = _ → _ =>
          assert (preserves w_calls m) as Hkeep;
          [|intros Hrun; exact (Hkeep _ _ _ Hrun)]
      end.
      frame; apply save_prediction_calls. }
    cbn [w_calls called printed]. by rewrite Hc0, <- !app_assoc. }
  exists [CallNormalize st vs; CallNetEvaluate mx vs' sp; CallNetPredict mx vs'].
  split; [exact Hcalls|].
  right. exists vs, mx, sp, no, sig, peak, rate. split; [done|]. right.
  exists vs'. split; [done|]. right. split; [done|]. by exists loss.
Qed.

End prediction_more.

Lemma predict_setup_failure_witness :
  let w := Demo.world0 [] in
  ∃ e, @predict Demo.collaborators Demo.args w
       = (set_fs (<[["out"; "2017-11-05_12-00-00"] := Fs.Dir]> Demo.fs0) w,
          Raise e).
Proof.
  intros w.
  destruct (@predict_setup_failure Demo.collaborators Demo.args w
              (set_fs (<[["out"; "2017-11-05_12-00-00"] := Fs.Dir]> Demo.fs0) w)
              {| base_dir := "/out/2017-11-05_12-00-00" |})
    as (e & Hrun & _).
  - vm_refl.
  - left. reflexivity.
  - by exists e.
Defined.

Lemma predict_speaker_clean_speech_witness :
  let w := Demo.world0 [] in
  let listed := @predict_listing Demo.collaborators Demo.args "A" w in
  @predict_speaker Demo.collaborators {| base_dir := "/out" |} 0 0 Demo.args "A" w
  = @predict_triples Demo.collaborators {| base_dir := "/out" |} 0 0 "A"
      (PyList.zip3 ["/data/test/A/video/u1.mp4"; "/data/test/A/video/u2.mp4"]
                   ["/data/test/A/audio/u1.wav"; "/data/test/A/audio/u2.wav"]
                   ["/noise/n1.wav"; "/noise/n2.wav"]) listed.1.
Proof.
  intros w listed.
  assert (listed.2
          = Return ((["/data/test/A/video/u1.mp4"; "/data/test/A/video/u2.mp4"],
                     ["/data/test/A/audio/u1.wav"; "/data/test/A/audio/u2.wav"],
                     ["/noise/n1.wav"; "/noise/n2.wav"]),
                    ["/data/validation/A/audio/u1.wav";
                     "/data/validation/A/audio/u2.wav"])) as Hlisted by vm_refl.
  refine (proj1 (proj2 (@predict_speaker_clean_speech Demo.collaborators
    {| base_dir := "/out" |} 0 0 Demo.args "A" w listed.1 _ _ _ _ _) _)).
  - rewrite <- Hlisted. apply surjective_pairing.
  - repeat constructor; by eexists.
Defined.

Lemma predict_sample_body_calls_in_order_witness :
  let run := @predict_sample_body Demo.collaborators {| base_dir := "/out" |}
               0 1 "spk1" ("/data/v1.mp4", "/data/s1.wav", "/noise/n1.wav")
               (Demo.world0 []) in
  w_calls run.1 = [@CallNormalize Demo.collaborators 1 [10; 11];
                   @CallNetEvaluate Demo.collaborators [20; 21] [9; 10] [30; 31];
                   @CallNetPredict Demo.collaborators [20; 21] [9; 10]].
Proof.
  intros run.
  destruct (@predict_sample_body_calls_in_order Demo.collaborators
              {| base_dir := "/out" |} 0 1 "spk1" "/data/v1.mp4" "/data/s1.wav"
              "/noise/n1.wav" (Demo.world0 []) run.1 run.2)
    as (new & Hcalls & [[_ (e & [=] & _)]
       |(vs & mx & sp & no & sig & peak & rate & [= <- <- <- _ _ _ _]
         & [[_ (e & [=] & _)]
           |(vs' & [= <-] & [[_ (e & [=] & _)]|[-> _]])])]).
  - apply surjective_pairing.
  - exact Hcalls.
Defined.

(** ** The preprocess command *)

Lemma split_slash_plain (p : string) :
  sum_list (String.length <$> PyStr.split_slash p) = count_plain p.
Proof.
  induction p as [|c p IH]; [done|]. cbn [PyStr.split_slash count_plain].
  destruct (Ascii.eqb c "/"); [by rewrite <- IH|].
  destruct (PyStr.split_slash p) as [|h t]; cbn in *; lia.
Qed.

Lemma components_plain (p : string) :
  sum_list (String.length <$> PyStr.components p) = count_plain p.
Proof.
  rewrite <- split_slash_plain. unfold PyStr.components.
  induction (PyStr.split_slash p) as [|h t IH]; [done|].
  destruct (decide (h = "")) as [->|Hh].
  - rewrite filter_cons_False by (by intros []). by rewrite IH.
  - rewrite filter_cons_True by done. cbn. by rewrite IH.
Qed.

Lemma count_plain_app (a b : string) :
  count_plain (a +:+ b) = count_plain a + count_plain b.
Proof.
  induction a as [|c a IH]; [done|].
  rewrite str_app_cons. cbn [count_plain]. rewrite IH. lia.
Qed.

(** A suffix with a character that is no separator changes the
    components. *)
Lemma components_app_ne (p suffix : string) :
  0 < count_plain suffix → PyStr.components (p +:+ suffix) ≠ PyStr.components p.
Proof.
  intros Hs Heq. apply (f_equal (λ l, sum_list (String.length <$> l))) in Heq.
  rewrite !components_plain, count_plain_app in Heq. lia.
Qed.

(** A suffix without separators is added to the last name of a path. *)
Lemma split_slash_app_plain (p s : string) :
  PyStr.has_char "/" s = false →
  ∃ init l, PyStr.split_slash p = init ++ [l]
            ∧ PyStr.split_slash (p +:+ s) = init ++ [l +:+ s].
Proof.
  intros Hs. induction p as [|c p (init & l & Hp & Hps)].
  - exists [], "". split; [done|].
    by rewrite !str_app_nil_l, split_slash_simple.
  - rewrite str_app_cons. cbn [PyStr.split_slash]. rewrite Hp, Hps.
    destruct (Ascii.eqb c "/").
    + by exists ("" :: init), l.
    + destruct init as [|h t].
      * exists [], (String c l). by rewrite str_app_cons.
      * by exists (String c h :: t), l.
Qed.

(** So the directory of the longer path is that of the path, or the path
    itself when this ends in a separator. *)
Lemma components_app_parent (p s : string) :
  PyStr.has_char "/" s = false → s ≠ "" →
  Fs.parent (PyStr.components (p +:+ s)) = Fs.parent (PyStr.components p)
  ∨ Fs.parent (PyStr.components (p +:+ s)) = PyStr.components p.
Proof.
  intros Hs Hne. destruct (split_slash_app_plain p s Hs) as (init & l & Hp & Hps).
  unfold PyStr.components, Fs.parent. rewrite Hp, Hps, !filter_app.
  assert (l +:+ s ≠ "") as Hls.
  { destruct l; [by rewrite str_app_nil_l|by rewrite str_app_cons]. }
  rewrite (filter_cons_True _ (l +:+ s)) by done. rewrite filter_nil.
  rewrite removelast_last.
  destruct (decide (l = "")) as [->|Hl].
  - right. rewrite filter_cons_False by (by intros []).
    by rewrite filter_nil, app_nil_r.
  - left. rewrite filter_cons_True by done. by rewrite filter_nil, removelast_last.
Qed.

Section preprocessing_facts.
Context `{DataProcessor}.
Implicit Types (w : world).

Lemma write_Return (path : string) (c : content) fs fs' :
  Fs.write path c fs = Return fs' →
  PyStr.components path ≠ []
  ∧ Fs.lookup fs (Fs.parent (PyStr.components path)) = Some Fs.Dir
  ∧ fs' = <[PyStr.components path := Fs.File c]> fs.
Proof.
  unfold Fs.write. case_decide; [done|]. intros Hw.
  destruct (decide (PyStr.components path = [])) as [Hnil|Hne].
  { by rewrite Hnil in Hw. }
  split; [done|].
  destruct (Fs.lookup fs (PyStr.components path)) as [[|?]|];
    destruct (Fs.lookup fs (Fs.parent (PyStr.components path))) as [[|?]|];
    split; congruence.
Qed.

Lemma list_speakers_files (args : Args) : preserves w_fs (list_speakers args).
Proof. unfold list_speakers. frame. Qed.

Lemma list_data_files (dataset_dir : string) (speaker_ids noise_dirs : list string)
    (max_files : option Z) :
  preserves w_fs (list_data dataset_dir speaker_ids noise_dirs max_files).
Proof. unfold list_data, av_subset, audio_subset. frame. Qed.

(** What a run of [preprocess] that returns has done. *)
Lemma preprocess_Return (args : Args) (path : string) w w' :
  preprocess args path w = (w', Return tt) →
  let target := if PyStr.endswith_str ".npz" path then path
                else path +:+ ".npz" in
  ∃ videos speeches noises video mixed speech noise,
    preprocess_data videos speeches noises = Return (video, mixed, speech, noise)
    ∧ PyStr.components target ≠ []
    ∧ Fs.lookup (w_fs w) (Fs.parent (PyStr.components target)) = Some Fs.Dir
    ∧ w_fs w'
      = <[PyStr.components target :=
            Fs.File (NpzFile (<["video_samples" := video]>
                                (<["mixed_spectrograms" := mixed]>
                                   (<["speech_spectrograms" := speech]>
                                      (<["noise_spectrograms" := noise]> ∅)))))]>
          (w_fs w).
Proof.
  intros Hrun target. unfold preprocess in Hrun.
  apply bind_inv in Hrun as [(e & _ & [=])|(w1 & ids & Hids & Hrun)].
  apply list_speakers_files in Hids.
  apply bind_inv in Hrun
    as [(e & _ & [=])|(w2 & [[videos speeches] noises] & Hdata & Hrun)].
  apply list_data_files in Hdata.
  apply bind_inv in Hrun
    as [(e & _ & [=])|(w3 & [[[video mixed] speech] noise] & Hpre & Hrun)].
  injection Hpre as <- Hpre.
  exists videos, speeches, noises, video, mixed, speech, noise.
  split; [done|].
  revert Hrun. unfold np_savez, fs_op. fold target.
  destruct (Fs.write target _ (w_fs w2)) as [fs'|e] eqn:Hwrite; [|done].
  apply write_Return in Hwrite as (Hne & Hdir & ->).
  intros [= <-]. cbn [w_fs set_fs]. split; [done|].
  split; congruence.
Qed.

(** X16.  A run of [preprocess] that returns has written one archive and
    changed no other file: the archive is at the given path when that
    ends in [.npz], and holds under the four names the four arrays that
    [preprocess_data] returned, which is what the aggregator reads back
    when it loads this path. *)
Theorem preprocess_round_trip (args : Args) (path : string) w w' :
  preprocess args path w = (w', Return tt) →
  PyStr.endswith_str ".npz" path = true →
  ∃ videos speeches noises b,
    preprocess_data videos speeches noises = Return b
    ∧ holds_blob (w_fs w') path b
    ∧ (∀ w0, w_fs w0 = w_fs w' →
         load_blob path w0 = (printed [loading_line path] w0, Return b))
    ∧ ∀ k, k ≠ PyStr.components path → w_fs w' !! k = w_fs w !! k.
Proof.
  intros Hrun Hext.
  destruct (preprocess_Return _ _ _ _ Hrun)
    as (videos & speeches & noises & video & mixed & speech & noise
        & Hdata & Hne & _ & Hfs).
  rewrite Hext in Hne, Hfs.
  exists videos, speeches, noises, (video, mixed, speech, noise).
  assert (holds_blob (w_fs w') path (video, mixed, speech, noise)) as Hblob.
  { eexists. split.
    - unfold Fs.read. case_decide as Hp; [by rewrite Hp in Hext|].
      unfold Fs.lookup at 1. case_decide; [done|].
      by rewrite Hfs, lookup_insert_eq.
    - done. }
  split; [done|]. split; [done|]. split.
  - intros w0 Hw0. apply load_blob_printed. by rewrite Hw0.
  - intros k Hk. by rewrite Hfs, lookup_insert_ne.
Qed.

(** X17.  When the given path does not end in [.npz], the archive is written
    under the path with [.npz] appended, and nothing is put at the path
    itself: if nothing was there before, the aggregator given this very
    path raises [FileNotFoundError]. *)
Theorem preprocess_appends_extension (args : Args) (path : string) w w' :
  preprocess args path w = (w', Return tt) →
  PyStr.endswith_str ".npz" path = false →
  Fs.lookup (w_fs w) (PyStr.components path) = None →
  ∃ videos speeches noises b,
    preprocess_data videos speeches noises = Return b
    ∧ holds_blob (w_fs w') (path +:+ ".npz") b
    ∧ Fs.lookup (w_fs w') (PyStr.components path) = None
    ∧ ∀ post max_samples w0, w_fs w0 = w_fs w' →
        load_preprocessed_samples (path :: post) max_samples w0
        = (printed [loading_line path] w0, Raise (FileNotFoundError path)).
Proof.
  intros Hrun Hext Hnone.
  destruct (preprocess_Return _ _ _ _ Hrun)
    as (videos & speeches & noises & video & mixed & speech & noise
        & Hdata & Hne & Hdir & Hfs).
  rewrite Hext in Hne, Hdir, Hfs.
  exists videos, speeches, noises, (video, mixed, speech, noise).
  assert (path +:+ ".npz" ≠ "") as Hp.
  { intros Heq. by rewrite Heq in Hne. }
  assert (Fs.lookup (w_fs w') (PyStr.components path) = None) as Hnone'.
  { unfold Fs.lookup in Hnone |- *. case_decide; [done|].
    rewrite Hfs, lookup_insert_ne; [done|].
    apply components_app_ne. cbn. lia. }
  split; [done|]. split; [|split; [done|]].
  - eexists. split.
    + unfold Fs.read. case_decide; [done|].
      unfold Fs.lookup at 1. case_decide; [done|].
      by rewrite Hfs, lookup_insert_eq.
    + done.
  - intros post max_samples w0 Hw0.
    apply (load_preprocessed_samples_stop [] post path []); [constructor|].
    intros w1 Hw1. apply load_blob_unreadable.
    rewrite Hw1, Hw0. unfold Fs.read.
    case_decide as Hempty; [by rewrite Hempty in Hnone|].
    rewrite Hnone'.
    destruct (components_app_parent path ".npz" eq_refl) as [Hsame|Hself];
      [done| |by rewrite Hself, Hnone in Hdir].
    rewrite Hsame in Hdir.
    replace (Fs.lookup (w_fs w') (Fs.parent (PyStr.components path)))
      with (Fs.lookup (w_fs w) (Fs.parent (PyStr.components path)));
      [by rewrite Hdir|].
    unfold Fs.lookup. case_decide; [done|].
    rewrite Hfs, lookup_insert_ne; [done|].
    rewrite <- Hsame. unfold Fs.parent. intros Heq.
    pose proof (app_removelast_last "" Hne) as Hlast.
    rewrite <- Heq in Hlast. symmetry in Hlast. by apply snoc_ne_self in Hlast.
Qed.

End preprocessing_facts.

Lemma preprocess_round_trip_witness :
  let run := @preprocess Demo.collaborators Cases.processor Demo.args
               "/blobs/new.npz" (Demo.world0 []) in
  ∃ b, @holds_blob Demo.collaborators (w_fs run.1) "/blobs/new.npz" b
       ∧ w_fs run.1 !! ["blobs"; "a.npz"] = Demo.fs0 !! ["blobs"; "a.npz"].
Proof.
  intros run.
  assert (run.2 = Return tt) as Hret by vm_refl.
  destruct (@preprocess_round_trip Demo.collaborators Cases.processor Demo.args
              "/blobs/new.npz" (Demo.world0 []) run.1)
    as (videos & speeches & noises & b & _ & Hb & _ & Hother).
  - rewrite <- Hret. apply surjective_pairing.
  - reflexivity.
  - exists b. split; [exact Hb|]. apply Hother. discriminate.
Defined.

Lemma preprocess_appends_extension_witness :
  let run := @preprocess Demo.collaborators Cases.processor Demo.args
               "/blobs/new" (Demo.world0 []) in
  (∃ b, @holds_blob Demo.collaborators (w_fs run.1) "/blobs/new.npz" b)
  ∧ @load_preprocessed_samples Demo.collaborators ["/blobs/new"] None run.1
    = (printed ["loading preprocessed samples from /blobs/new"] run.1,
       Raise (FileNotFoundError "/blobs/new")).
Proof.
  intros run.
  assert (run.2 = Return tt) as Hret by vm_refl.
  destruct (@preprocess_appends_extension Demo.collaborators Cases.processor
              Demo.args "/blobs/new" (Demo.world0 []) run.1)
    as (videos & speeches & noises & b & _ & Hb & _ & Hload).
  - rewrite <- Hret. apply surjective_pairing.
  - reflexivity.
  - vm_refl.
  - split; [by exists b|]. by apply Hload.
Defined.
